(** * TextToVisual AI Suite: the request gateway, its two requesters, the
    rate limit and the archive listing, embedded from the JavaScript sources.

    The server part (Express) and the client part (React) are both in
    [src/frontend/src/App.jsx].  JavaScript strings are sequences of UTF-16
    code units; they are modelled as lists of numbers so that [trim], the
    three fence-stripping regular expressions, [JSON.stringify] and the
    base64 re-encoding can be written out as the engine performs them.
    Of console output only the template literals handed to it are kept, for
    what their evaluation may throw. *)

From Stdlib Require Import ZArith NArith List String Ascii Lia Bool DecimalString.
From Stdlib.Strings Require Import Byte.
From Stdlib Require Import Permutation Sorted.
From stdpp Require Import base option list gmap.

Set Warnings "-register-all".
Import ListNotations.

Local Open Scope string_scope.
Local Open Scope list_scope.
Local Open Scope N_scope.

(** ** JavaScript strings *)

Abbreviation code_unit := N (only parsing).
Abbreviation jsstring := (list N) (only parsing).

(** An ASCII literal of the source, as code units. *)
Definition lit (s : string) : jsstring :=
  map N_of_ascii (list_ascii_of_string s).

Definition LF : code_unit := 0x0A.
Definition DQUOTE : code_unit := 0x22.
Definition BACKTICK : code_unit := 0x60.

(** ECMAScript WhiteSpace and LineTerminator code points, the characters
    that [String.prototype.trim] removes. *)
Definition isWhiteSpace (c : code_unit) : bool :=
  (c =? 0x09) || (c =? 0x0A) || (c =? 0x0B) || (c =? 0x0C) || (c =? 0x0D)
  || (c =? 0x20) || (c =? 0xA0) || (c =? 0x1680)
  || ((0x2000 <=? c) && (c <=? 0x200A))
  || (c =? 0x2028) || (c =? 0x2029) || (c =? 0x202F) || (c =? 0x205F)
  || (c =? 0x3000) || (c =? 0xFEFF).

Fixpoint trimStart (s : jsstring) : jsstring :=
  match s with
  | [] => []
  | c :: r => if isWhiteSpace c then trimStart r else s
  end.

Definition trimEnd (s : jsstring) : jsstring := rev (trimStart (rev s)).

Definition trim (s : jsstring) : jsstring := trimEnd (trimStart s).

(** [strip_prefix p s] is [Some r] exactly when [s] is [p] followed by [r]. *)
Fixpoint strip_prefix (p s : jsstring) : option jsstring :=
  match p, s with
  | [], _ => Some s
  | a :: p', b :: s' => if a =? b then strip_prefix p' s' else None
  | _ :: _, [] => None
  end.

(** [strip_suffix p s] is [Some r] exactly when [s] is [r] followed by [p]. *)
Definition strip_suffix (p s : jsstring) : option jsstring :=
  match strip_prefix (rev p) (rev s) with
  | Some r => Some (rev r)
  | None => None
  end.

Definition startsWith (p s : jsstring) : bool :=
  match strip_prefix p s with Some _ => true | None => false end.

Definition endsWith (p s : jsstring) : bool :=
  match strip_suffix p s with Some _ => true | None => false end.

(** [String.prototype.includes]: [p] occurs somewhere in [s]. *)
Fixpoint includes (p s : jsstring) : bool :=
  startsWith p s || match s with [] => false | _ :: r => includes p r end.

(** ** The fence-stripping replacements of [getMermaidCode]

    None of the three regular expressions carries the [g] or [m] flag, so each
    removes at most one match, [^] is the start of the text and [$] its end. *)

(** The code-fence marker: three backticks. *)
Definition fence : jsstring := [BACKTICK; BACKTICK; BACKTICK].

(** [\n?] just after a removed opening marker: greedy, so a line feed that
    is there is taken. *)
Definition skip_LF (s : jsstring) : jsstring :=
  match strip_prefix [LF] s with Some r => r | None => s end.

(** [\n?] just before a removed closing marker.  The engine tries start
    positions from the left, so the match that begins at the line feed is
    found before the one that begins at the marker. *)
Definition chop_LF (s : jsstring) : jsstring :=
  match strip_suffix [LF] s with Some r => r | None => s end.

(** [text.replace(/^```mermaid\n?/, '')] *)
Definition replace_open_mermaid (text : jsstring) : jsstring :=
  match strip_prefix (fence ++ lit "mermaid") text with
  | Some r => skip_LF r
  | None => text
  end.

(** [text.replace(/^```\n?/, '')] *)
Definition replace_open (text : jsstring) : jsstring :=
  match strip_prefix fence text with
  | Some r => skip_LF r
  | None => text
  end.

(** [text.replace(/\n?```$/, '')] *)
Definition replace_close (text : jsstring) : jsstring :=
  match strip_suffix fence text with
  | Some r => chop_LF r
  | None => text
  end.

(** The chain of line 814, applied to the trimmed response text. *)
Definition strip_fences (text : jsstring) : jsstring :=
  replace_close (replace_open (replace_open_mermaid text)).

(** ** [JSON.stringify] of a string, and base64

    [QuoteJSONString]: the two-character escapes, [\uXXXX] for the other
    control characters and for lone surrogates, every other code unit as it
    is. *)

Definition hex_digit (d : N) : code_unit :=
  if d <? 10 then 0x30 + d else 0x61 + (d - 10).

Definition UnicodeEscape (c : code_unit) : jsstring :=
  lit "\u" ++ [hex_digit (N.shiftr c 12 mod 16); hex_digit (N.shiftr c 8 mod 16);
               hex_digit (N.shiftr c 4 mod 16); hex_digit (c mod 16)].

Definition isLeadingSurrogate (c : code_unit) : bool := (0xD800 <=? c) && (c <=? 0xDBFF).
Definition isTrailingSurrogate (c : code_unit) : bool := (0xDC00 <=? c) && (c <=? 0xDFFF).

Fixpoint quote_units (s : jsstring) : jsstring :=
  match s with
  | [] => []
  | c :: r =>
      if c =? 0x08 then lit "\b" ++ quote_units r
      else if c =? 0x09 then lit "\t" ++ quote_units r
      else if c =? 0x0A then lit "\n" ++ quote_units r
      else if c =? 0x0C then lit "\f" ++ quote_units r
      else if c =? 0x0D then lit "\r" ++ quote_units r
      else if c =? 0x22 then [0x5C; 0x22] ++ quote_units r
      else if c =? 0x5C then lit "\\" ++ quote_units r
      else if c <? 0x20 then UnicodeEscape c ++ quote_units r
      else if isLeadingSurrogate c then
        match r with
        | d :: r' =>
            if isTrailingSurrogate d then c :: d :: quote_units r'
            else UnicodeEscape c ++ quote_units r
        | [] => UnicodeEscape c
        end
      else if isTrailingSurrogate c then UnicodeEscape c ++ quote_units r
      else c :: quote_units r
  end.

Definition QuoteJSONString (s : jsstring) : jsstring :=
  [DQUOTE] ++ quote_units s ++ [DQUOTE].

(** [JSON.stringify({ inputs: enhancedPrompt })] *)
Definition JSON_stringify_inputs (enhancedPrompt : jsstring) : jsstring :=
  lit "{" ++ QuoteJSONString (lit "inputs") ++ lit ":"
  ++ QuoteJSONString enhancedPrompt ++ lit "}".

(** The base64 alphabet of RFC 4648, as [Buffer.prototype.toString('base64')]
    uses it. *)
Definition base64_char (i : N) : code_unit :=
  if i <? 26 then 0x41 + i
  else if i <? 52 then 0x61 + (i - 26)
  else if i <? 62 then 0x30 + (i - 52)
  else if i =? 62 then 0x2B
  else 0x2F.

Definition PAD : code_unit := 0x3D.

Fixpoint base64_octets (bs : list N) : jsstring :=
  match bs with
  | [] => []
  | [a] =>
      [base64_char (N.shiftr a 2);
       base64_char (N.shiftl (N.land a 3) 4); PAD; PAD]
  | [a; b] =>
      [base64_char (N.shiftr a 2);
       base64_char (N.lor (N.shiftl (N.land a 3) 4) (N.shiftr b 4));
       base64_char (N.shiftl (N.land b 15) 2); PAD]
  | a :: b :: c :: r =>
      [base64_char (N.shiftr a 2);
       base64_char (N.lor (N.shiftl (N.land a 3) 4) (N.shiftr b 4));
       base64_char (N.lor (N.shiftl (N.land b 15) 2) (N.shiftr c 6));
       base64_char (N.land c 63)] ++ base64_octets r
  end.

(** [Buffer.from(buffer).toString('base64')] *)
Definition toString_base64 (buffer : list byte) : jsstring :=
  base64_octets (map Byte.to_N buffer).

(** ** JavaScript values

    A request body is whatever [express.json()] parsed; the handlers read its
    [prompt] and [style] properties without checking their types, so the
    values are modelled in full: truthiness ([!prompt], [style || ...]) and
    string conversion (template literals) are defined on every JSON value.
    How a number prints is left to the engine. *)

Class JsNumber (number : Type) := {
  (** [false] for zero and NaN *)
  number_ToBoolean : number -> bool;
  (** [Number::toString] *)
  number_ToString : number -> jsstring
}.

(** The wording of the messages of the [TypeError]s the engine throws is the
    engine's own.  Of these messages the program passes on two, in the
    [details] of the 500 of [POST /generate-diagram]. *)
Class JsTypeError := {
  (** the message when an object cannot be converted to a primitive value *)
  cannot_convert : jsstring;
  (** the message when a property is taken off [undefined] ([false]) or off
      [null] ([true]), by a destructuring or a member access; it names the
      property *)
  cannot_read : bool -> string -> jsstring
}.

Section Suite.

Context {number : Type} `{JsNumber number} `{JsTypeError}.

Inductive jsval : Type :=
  | JUndefined
  | JNull
  | JBool (b : bool)
  | JNum (n : number)
  | JStr (s : jsstring)
  | JArr (elements : list jsval)
  | JObj (props : list (jsstring * jsval)).

(** A normal completion carries a value, an abrupt one the thrown value (a
    rejected promise, under [await]). *)
Inductive completion (A : Type) : Type :=
  | Normal (a : A)
  | Abrupt (e : jsval).
Arguments Normal {A} a.
Arguments Abrupt {A} e.

(** A [TypeError] of the engine; [error.message] is all the program reads
    off it. *)
Definition TypeError (message : jsstring) : jsval :=
  JObj [(lit "message", JStr message)].

Definition ToBoolean (v : jsval) : bool :=
  match v with
  | JUndefined | JNull => false
  | JBool b => b
  | JNum n => number_ToBoolean n
  | JStr s => match s with [] => false | _ :: _ => true end
  | JArr _ | JObj _ => true
  end.

(** Whether the object has an own property of that name. *)
Definition hasOwnProperty (props : list (jsstring * jsval)) (key : string) : bool :=
  existsb (fun kv => bool_decide (fst kv = lit key)) props.

(** [ToString], as a template literal applies it to [${...}].

    An object is converted through its [toString] and [valueOf] methods.  A
    parsed body holds no function, so an own property [toString] hides the
    inherited method with a value that cannot be called, the [valueOf] that
    is found gives no primitive either, and the conversion throws a
    [TypeError]; without such a property the object prints as
    [[object Object]].  An array prints as its elements joined by commas,
    [null] and [undefined] elements as nothing, the others converted from
    left to right, so that it throws when one of them does. *)
Fixpoint ToString (v : jsval) : completion jsstring :=
  match v with
  | JUndefined => Normal (lit "undefined")
  | JNull => Normal (lit "null")
  | JBool true => Normal (lit "true")
  | JBool false => Normal (lit "false")
  | JNum n => Normal (number_ToString n)
  | JStr s => Normal s
  | JArr elements =>
      (fix join (l : list jsval) : completion jsstring :=
         match l with
         | [] => Normal []
         | x :: r =>
             match (match x with JUndefined | JNull => Normal [] | _ => ToString x end) with
             | Abrupt e => Abrupt e
             | Normal first =>
                 match r with
                 | [] => Normal first
                 | _ :: _ =>
                     match join r with
                     | Abrupt e => Abrupt e
                     | Normal rest => Normal (first ++ lit "," ++ rest)
                     end
                 end
             end
         end) elements
  | JObj props =>
      if hasOwnProperty props "toString" then Abrupt (TypeError cannot_convert)
      else Normal (lit "[object Object]")
  end.

Fixpoint assoc (key : jsstring) (props : list (jsstring * jsval)) : jsval :=
  match props with
  | [] => JUndefined
  | (k, v) :: r => if decide (k = key) then v else assoc key r
  end.

(** Property read [o.key], also as the destructuring
    [const { prompt, style } = req.body] performs it for each name: on
    [undefined] and on [null] it throws a [TypeError]; on an object it gives
    the own property, [undefined] when there is none; on any other value
    [undefined].  A parsed object holds each of its names once, and the names
    the program reads ([prompt], [style], [message], [image],
    [enhancedPrompt], [mermaidCode]) are not among the inherited ones. *)
Definition Get (o : jsval) (key : string) : completion jsval :=
  match o with
  | JUndefined => Abrupt (TypeError (cannot_read false key))
  | JNull => Abrupt (TypeError (cannot_read true key))
  | JObj props => Normal (assoc (lit key) props)
  | JBool _ | JNum _ | JStr _ | JArr _ => Normal JUndefined
  end.

(** [a || b] *)
Definition or_else (a b : jsval) : jsval := if ToBoolean a then a else b.

(** ** Upstream providers and the effects of a handler *)

(** The second argument of [fetch]. *)
Record fetch_init := {
  method : jsstring;
  headers : list (jsstring * jsstring);
  body : jsstring
}.

(** What [fetch] resolves to: the status line and the two body readers the
    handler may call. *)
Record Response := {
  status : N;
  json : completion jsval;
  arrayBuffer : completion (list byte)
}.

(** [hfResponse.ok] *)
Definition ok (r : Response) : bool := (200 <=? status r) && (status r <=? 299).

(** The two providers.  [generateContent_text p] is the outcome of
    [generateContent(p)], [await result.response] and [response.text()]
    together: the text, or whatever one of the three threw. *)
Record upstream := {
  generateContent_text : jsstring -> completion jsstring;
  fetch : jsstring -> fetch_init -> completion Response
}.

Inductive upstream_call : Type :=
  | GenerateContent (systemPrompt : jsstring)
  | Fetch (url : jsstring) (init : fetch_init).

(** A computation yields a completion and the upstream calls it issued, in
    order. *)
Definition Eff (A : Type) : Type := (completion A * list upstream_call)%type.

Definition ret {A} (a : A) : Eff A := (Normal a, []).

Definition bind {A B} (m : Eff A) (k : A -> Eff B) : Eff B :=
  match m with
  | (Normal a, t) => let (r, t') := k a in (r, t ++ t')
  | (Abrupt e, t) => (Abrupt e, t)
  end.

(** [try { m } catch (error) { h error }] *)
Definition try_catch {A} (m : Eff A) (h : jsval -> Eff A) : Eff A :=
  match m with
  | (Normal a, t) => (Normal a, t)
  | (Abrupt e, t) => let (r, t') := h e in (r, t ++ t')
  end.

Definition lift {A} (c : completion A) : Eff A := (c, []).

Definition call_generateContent (up : upstream) (systemPrompt : jsstring) : Eff jsstring :=
  (generateContent_text up systemPrompt, [GenerateContent systemPrompt]).

Definition call_fetch (up : upstream) (url : jsstring) (init : fetch_init) : Eff Response :=
  (fetch up url init, [Fetch url init]).

(** [const x = await m; k] *)
Notation "'let*' x ':=' 'await' m 'in' k" := (bind m (fun x => k))
  (at level 10, x name, m at level 100, k at level 200, only parsing).

(** [console.log(line)] and [console.error(...)]: what is printed is not
    kept, but a template literal handed to [console.log] is evaluated first,
    and may throw. *)
Definition console_log (line : completion jsstring) : Eff unit :=
  let* printed := await lift line in ret tt.

(** ** The two requesters (server, lines 771-820)

    The texts of the template literals, as functions of the strings their
    [${...}] were converted to. *)

Definition enhancement_systemPrompt (prompt style : jsstring) : jsstring :=
  [LF]
  ++ lit "      Improve this text prompt for AI image generation." ++ [LF]
  ++ lit "      Make it detailed, cinematic, high resolution, and ultra-realistic." ++ [LF]
  ++ lit "      Incorporate the style: " ++ style ++ lit "." ++ [LF]
  ++ lit "      Return ONLY the improved prompt text. Do not include any explanations or extra words." ++ [LF]
  ++ lit "      " ++ [LF]
  ++ lit "      User Prompt: " ++ prompt ++ [LF]
  ++ lit "    ".

Definition enhancement_fallback (prompt style : jsstring) : jsstring :=
  prompt ++ lit ", " ++ style
  ++ lit ", high resolution, ultra detailed, cinematic lighting".

(** [getEnhancedPrompt] (lines 774-793).  The template of the [try] block
    converts [style] (line 779) and then [prompt] (line 782); the one of the
    [catch] block converts [prompt] and then [style] (line 791), outside any
    [try]: when that throws, the promise of the requester is rejected. *)
Definition getEnhancedPrompt (up : upstream) (prompt style : jsval) : Eff jsstring :=
  try_catch
    (let* styleText := await lift (ToString style) in
     let* promptText := await lift (ToString prompt) in
     let systemPrompt := enhancement_systemPrompt promptText styleText in
     let* text := await call_generateContent up systemPrompt in
     ret (trim text))
    (fun error =>
       let* promptText := await lift (ToString prompt) in
       let* styleText := await lift (ToString style) in
       ret (enhancement_fallback promptText styleText)).

Definition mermaid_systemPrompt (prompt : jsstring) : jsstring :=
  [LF]
  ++ lit "      Create a Mermaid.js diagram for: " ++ [DQUOTE] ++ prompt ++ [DQUOTE] ++ lit "." ++ [LF]
  ++ lit "      Format: flowchart (graph TD)." ++ [LF]
  ++ lit "      Requirement: Respond ONLY with the Mermaid code. " ++ [LF]
  ++ lit "      No backticks, no " ++ [DQUOTE] ++ lit "mermaid" ++ [DQUOTE] ++ lit " keyword, no preamble." ++ [LF]
  ++ lit "      Example:" ++ [LF]
  ++ lit "      graph TD" ++ [LF]
  ++ lit "      A[Start] --> B[Next]" ++ [LF]
  ++ lit "    ".

(** The string of line 818. *)
Definition error_graph : jsstring :=
  lit "graph TD" ++ [LF] ++ lit "A[Error] --> B[Diagram Generation Failed]".

(** [getMermaidCode] (lines 798-820).  Its [catch] block returns a fixed
    string, so whatever the [try] block throws, the template of line 801
    included, ends there. *)
Definition getMermaidCode (up : upstream) (prompt : jsval) : Eff jsstring :=
  try_catch
    (let* promptText := await lift (ToString prompt) in
     let systemPrompt := mermaid_systemPrompt promptText in
     let* text0 := await call_generateContent up systemPrompt in
     let text := trim text0 in
     let text := strip_fences text in
     ret text)
    (fun error => ret error_graph).

(** ** What the requesters return

    The value [getEnhancedPrompt] resolves to once its template has been
    evaluated: the trimmed model text, or the fallback of its [catch]
    block. *)
Definition enhancedPrompt_of (up : upstream) (prompt style : jsstring) : jsstring :=
  match generateContent_text up (enhancement_systemPrompt prompt style) with
  | Normal text => trim text
  | Abrupt _ => enhancement_fallback prompt style
  end.

(** The value [getMermaidCode] resolves to once its template has been
    evaluated. *)
Definition mermaidCode_of (up : upstream) (prompt : jsstring) : jsstring :=
  match generateContent_text up (mermaid_systemPrompt prompt) with
  | Normal text => strip_fences (trim text)
  | Abrupt _ => error_graph
  end.

(** ** The request gateway (server, lines 822-882) *)

Inductive res_body : Type :=
  | json_body (v : jsval)
  | text_body (s : jsstring).

(** What the handler sent: [res.status(n).json(v)], [res.json(v)] (status
    200) or [res.send(s)]. *)
Record http_response := {
  res_status : N;
  res_sent : res_body
}.

Definition res_json (code : N) (v : jsval) : http_response :=
  {| res_status := code; res_sent := json_body v |}.

Definition str (s : string) : jsval := JStr (lit s).

Definition obj (props : list (string * jsval)) : jsval :=
  JObj (map (fun kv => (lit (fst kv), snd kv)) props).

Definition MODEL_URL : jsstring :=
  lit "https://router.huggingface.co/hf-inference/models/black-forest-labs/FLUX.1-schnell".

(** [process.env.HUGGINGFACE_API_KEY] is [undefined] or a string; [!key]
    holds for [undefined] and for the empty string. *)
Definition key_missing (key : option jsstring) : bool :=
  match key with
  | None | Some [] => true
  | Some (_ :: _) => false
  end.

Definition key_text (key : option jsstring) : jsstring :=
  match key with
  | None => lit "undefined"
  | Some k => k
  end.

Definition hf_request (key : option jsstring) (enhancedPrompt : jsstring) : fetch_init :=
  {| method := lit "POST";
     headers := [(lit "Authorization", lit "Bearer " ++ key_text key);
                 (lit "Content-Type", lit "application/json")];
     body := JSON_stringify_inputs enhancedPrompt |}.

(** [await hfResponse.json().catch(() => ({}))] *)
Definition json_or_empty (r : Response) : jsval :=
  match json r with
  | Normal v => v
  | Abrupt _ => JObj []
  end.

(** [app.post('/generate', ...)] (lines 828-866).  The destructuring of line
    830 and the template literal of line 835 are inside the [try] block, as
    is the call of the requester: whatever they throw ends in the [catch]
    block. *)
Definition post_generate (HUGGINGFACE_API_KEY : option jsstring) (up : upstream)
    (req_body : jsval) : Eff http_response :=
  try_catch
    (let* prompt := await lift (Get req_body "prompt") in
     let* style := await lift (Get req_body "style") in
     if negb (ToBoolean prompt) then
       ret (res_json 400 (obj [("error", str "Prompt is required")]))
     else if key_missing HUGGINGFACE_API_KEY then
       ret (res_json 500 (obj [("error", str "HF Key missing")]))
     else
       let* logged := await console_log (ToString prompt) in
       let* enhancedPrompt := await getEnhancedPrompt up prompt (or_else style (str "realistic")) in
       let* logged := await console_log (Normal enhancedPrompt) in
       let* hfResponse := await call_fetch up MODEL_URL (hf_request HUGGINGFACE_API_KEY enhancedPrompt) in
       if negb (ok hfResponse) then
         let errorData := json_or_empty hfResponse in
         ret (res_json (status hfResponse)
                (obj [("error", str "HF API failed"); ("details", errorData)]))
       else
         let* buffer := await lift (arrayBuffer hfResponse) in
         let base64Image := toString_base64 buffer in
         ret (res_json 200
                (obj [("enhancedPrompt", JStr enhancedPrompt);
                      ("image", JStr (lit "data:image/jpeg;base64," ++ base64Image))])))
    (fun error => ret (res_json 500 (obj [("error", str "Internal Server Error")]))).

(** [app.post('/generate-diagram', ...)] (lines 869-882).  The destructuring
    of line 871 and the template literal of line 874 are inside the [try]
    block; the [catch] block sends the message of what was thrown. *)
Definition post_generate_diagram (up : upstream) (req_body : jsval) : Eff http_response :=
  try_catch
    (let* prompt := await lift (Get req_body "prompt") in
     if negb (ToBoolean prompt) then
       ret (res_json 400 (obj [("error", str "Prompt is required")]))
     else
       let* logged := await console_log (ToString prompt) in
       let* mermaidCode := await getMermaidCode up prompt in
       ret (res_json 200 (obj [("mermaidCode", JStr mermaidCode)])))
    (fun error =>
       let* message := await lift (Get error "message") in
       ret (res_json 500 (obj [("error", str "Failed to generate diagram");
                               ("details", message)]))).

(** [app.get('/', ...)] *)
Definition get_root : Eff http_response :=
  ret {| res_status := 200; res_sent := text_body (lit "TextToVisual AI Suite is running!") |}.

(** ** The rate limit (server, lines 760-766)

    The options are those of the source; [limiter] is mounted with [app.use]
    ahead of every route. *)

Definition limiter_windowMs : Z := 15 * 60 * 1000.
Definition limiter_max : nat := 100.
Definition limiter_message : jsval :=
  obj [("error", str "Too many requests from this IP, please try again after 15 minutes")].

(** The store of the limiter: the window it is counting, and the hits of
    each caller in that window. *)
Record limiter_store := {
  window : Z;
  hits : gmap (list N) nat
}.

Definition hits_of (st : limiter_store) (w : Z) (ip : jsstring) : nat :=
  if decide (window st = w) then default 0%nat (hits st !! ip) else 0%nat.

Definition window_of (now : Z) : Z := (now / limiter_windowMs)%Z.

(** Modelled from the spec: [rateLimit] is the express-rate-limit package,
    which is not among the sources.  The spec describes a fixed window with a
    fixed maximum per caller, a process-wide counter keyed by caller address
    and reset on a fixed time window, and a JSON error body on excess.  A
    request in a later window clears the counters first; the request is
    counted, and goes on to the routes while the caller's count is within the
    maximum.  The status of a refusal, 429, is the package default. *)
Definition limiter (st : limiter_store) (ip : jsstring) (now : Z) : limiter_store * bool :=
  let w := window_of now in
  let n := S (hits_of st w ip) in
  let counted := if decide (window st = w) then hits st else ∅ in
  ({| window := w; hits := <[ip := n]> counted |}, bool_decide (n <= limiter_max)%nat).

(** The route Express matched the request to. *)
Inductive endpoint : Type :=
  | GET_root
  | POST_generate
  | POST_generate_diagram
  | no_route.

Record request := {
  ip : jsstring;
  received : Z;
  matched : endpoint;
  parsed_body : jsval
}.

(** The routes of the application, after the middleware.  A request that
    matches none of them gets Express's own 404. *)
Definition routes (HUGGINGFACE_API_KEY : option jsstring) (up : upstream)
    (req : request) : Eff http_response :=
  match matched req with
  | GET_root => get_root
  | POST_generate => post_generate HUGGINGFACE_API_KEY up (parsed_body req)
  | POST_generate_diagram => post_generate_diagram up (parsed_body req)
  | no_route => ret {| res_status := 404; res_sent := text_body [] |}
  end.

(** One request through [app.use(limiter)] and then the routes.  The flag
    tells whether the limiter let the request through. *)
Definition app (HUGGINGFACE_API_KEY : option jsstring) (up : upstream)
    (st : limiter_store) (req : request) : limiter_store * (bool * Eff http_response) :=
  let (st', pass) := limiter st (ip req) (received req) in
  if pass then (st', (true, routes HUGGINGFACE_API_KEY up req))
  else (st', (false, ret (res_json 429 limiter_message))).

Fixpoint serve (HUGGINGFACE_API_KEY : option jsstring) (up : upstream)
    (st : limiter_store) (reqs : list request) : list (request * (bool * Eff http_response)) :=
  match reqs with
  | [] => []
  | req :: rest =>
      let (st', out) := app HUGGINGFACE_API_KEY up st req in
      (req, out) :: serve HUGGINGFACE_API_KEY up st' rest
  end.

(** The store once the limiter has counted the requests. *)
Fixpoint store_after (st : limiter_store) (reqs : list request) : limiter_store :=
  match reqs with
  | [] => st
  | req :: rest => store_after (fst (limiter st (ip req) (received req))) rest
  end.

(** The requests of one caller that reached the routes. *)
Definition served_to (caller : jsstring) (log : list (request * (bool * Eff http_response))) : nat :=
  length (filter (fun e => ip (fst e) = caller /\ fst (snd e) = true) log).

(** The requests of one caller that the limiter refused. *)
Definition refused_to (caller : jsstring) (log : list (request * (bool * Eff http_response))) : nat :=
  length (filter (fun e => ip (fst e) = caller /\ fst (snd e) = false) log).

(** The requests a caller sent. *)
Definition requests_from (caller : jsstring) (reqs : list request) : nat :=
  length (filter (fun req => ip req = caller) reqs).

End Suite.

Arguments Normal {number A} a.
Arguments Abrupt {number A} e.

(** ** The archive listing (client, lines 69-85) *)

Module Client.

(** An archived record, with the fields [handleSaveToCloud] writes. *)
Record visual := {
  type : jsstring;
  prompt : jsstring;
  image : option jsstring;
  enhancedPrompt : jsstring;
  mermaidCode : jsstring;
  style : jsstring;
  archivist : jsstring;
  createdAt : Z
}.

(** A document of the query snapshot: [doc.id] and [doc.data()]. *)
Record document := {
  doc_id : jsstring;
  doc_data : visual
}.

Inductive direction : Type := asc | desc.

(** [query(collection(db, name), orderBy("createdAt", dir))] *)
Record query := {
  collection : string;
  orderBy_createdAt : direction
}.

(** The remote store: its collections, and whether it can be reached. *)
Record firestore := {
  documents : string -> list document;
  reachable : bool
}.

Definition precedes (dir : direction) (a b : document) : bool :=
  match dir with
  | asc => (createdAt (doc_data a) <=? createdAt (doc_data b))%Z
  | desc => (createdAt (doc_data b) <=? createdAt (doc_data a))%Z
  end.

(** The creation time of a document, and the order of a descending listing. *)
Definition key (d : document) : Z := createdAt (doc_data d).

Definition newer (a b : document) : Prop := (key a > key b)%Z.

(** Modelled from the spec: the ordering the remote store applies to a read
    query, here by insertion into an ordered list. *)
Fixpoint place (dir : direction) (d : document) (sorted : list document) : list document :=
  match sorted with
  | [] => [d]
  | e :: rest => if precedes dir d e then d :: e :: rest else e :: place dir d rest
  end.

Fixpoint ordered (dir : direction) (docs : list document) : list document :=
  match docs with
  | [] => []
  | d :: rest => place dir d (ordered dir rest)
  end.

(** Modelled from the spec: [getDocs] runs in the remote document store,
    which is not among the sources.  The spec says of it that the read query
    orders by creation time, in the direction asked for; the documents are
    those of the collection, put in that order.  An unreachable store makes
    the call reject. *)
Definition getDocs (db : firestore) (q : query) : option (list document) :=
  if reachable db then Some (ordered (orderBy_createdAt q) (documents db (collection q)))
  else None.

(** [{ id: doc.id, ...doc.data() }] *)
Record item := {
  id : jsstring;
  data : visual
}.

(** The part of the component state that [fetchHistory] writes. *)
Record history := {
  historyItems : list item;
  historyLoading : bool;
  error : option jsstring
}.

Definition fetchHistory (db : firestore) (st : history) : history :=
  let st := {| historyItems := historyItems st; historyLoading := true; error := error st |} in
  let st :=
    let q := {| collection := "visuals"; orderBy_createdAt := desc |} in
    match getDocs db q with
    | Some docs =>
        let items := map (fun doc => {| id := doc_id doc; data := doc_data doc |}) docs in
        {| historyItems := items; historyLoading := historyLoading st; error := error st |}
    | None =>
        {| historyItems := historyItems st; historyLoading := historyLoading st;
           error := Some (lit "Failed to load history.") |}
    end in
  {| historyItems := historyItems st; historyLoading := false; error := error st |}.

End Client.

(** ** Fenced texts *)

(** The opening markers the first two replacements remove, and the closing
    markers the third removes. *)
Definition openings : list (list N) :=
  [ []; fence; fence ++ [LF]; fence ++ lit "mermaid"; fence ++ lit "mermaid" ++ [LF] ].

Definition closings : list (list N) :=
  [ []; fence; LF :: fence ].

(** A text that holds no marker, except for at most one closing marker at
    its end. *)
Definition closed_once (s : list N) : Prop :=
  exists x c, s = x ++ c /\ includes fence x = false /\ In c closings.

(** Two opening markers in a row at the start of a text: a bare marker
    followed, with or without a line feed between them, by another, the pair
    standing at the very start or behind a marker with the word mermaid.  Of
    these the replacements leave the last one in place. *)
Definition doubled_openings : list (list N) :=
  [ fence ++ fence;
    fence ++ [LF] ++ fence;
    fence ++ lit "mermaid" ++ fence ++ fence;
    fence ++ lit "mermaid" ++ fence ++ [LF] ++ fence;
    fence ++ lit "mermaid" ++ [LF] ++ fence ++ fence;
    fence ++ lit "mermaid" ++ [LF] ++ fence ++ [LF] ++ fence ].

(** Two closing markers in a row at the end of a text, with or without a
    line feed between them. *)
Definition doubled_closings : list (list N) :=
  [ fence ++ fence; fence ++ [LF] ++ fence ].

(** ** Sample requests, providers and records *)

(** The integers among the numbers of a body. *)
#[global] Instance integer_JsNumber : JsNumber Z := {|
  number_ToBoolean z := negb (z =? 0)%Z;
  number_ToString z := lit (NilEmpty.string_of_int (Z.to_int z))
|}.

(** The messages of V8, for the reads of the two handlers. *)
#[global] Instance V8_TypeError : JsTypeError := {|
  cannot_convert := lit "Cannot convert object to primitive value";
  cannot_read is_null key :=
    lit "Cannot destructure property '" ++ lit key ++ lit "' of 'req.body' as it is "
    ++ lit (if is_null then "null" else "undefined") ++ lit "."
|}.

(** Providers that answer every call alike. *)
Definition provider (text : @completion Z (list N)) (answer : @completion Z (@Response Z))
    : @upstream Z :=
  {| generateContent_text := fun _ => text; fetch := fun _ _ => answer |}.

Definition hf_key : option (list N) := Some (lit "hf_sample").

Definition fox_request : @jsval Z :=
  obj [("prompt", str "a red fox in snow"); ("style", str "anime")].

Definition fox_request_plain : @jsval Z :=
  obj [("prompt", str "a red fox in snow")].

(** The same with an empty style. *)
Definition fox_request_empty_style : @jsval Z :=
  obj [("prompt", str "a red fox in snow"); ("style", JStr [])].

(** A prompt of three spaces. *)
Definition blank_request : @jsval Z :=
  obj [("prompt", str "   "); ("style", str "anime")].

(** A prompt that is an object with a property [toString], as the body
    [{"prompt":{"toString":1}}] gives. *)
Definition unprintable_request : @jsval Z :=
  obj [("prompt", obj [("toString", JNum 1%Z)])].

(** The same as style, next to a prompt that is a string. *)
Definition unprintable_style_request : @jsval Z :=
  obj [("prompt", str "a red fox in snow"); ("style", obj [("toString", JNum 1%Z)])].

Definition model_down : @completion Z (list N) :=
  Abrupt (obj [("message", str "fetch failed")]).

Definition fox_text : @completion Z (list N) :=
  Normal (lit "  A red fox in deep snow, anime style " ++ [LF]).

(** The image model is still loading: 503 with a JSON body. *)
Definition loading_response : @Response Z :=
  {| status := 503;
     json := Normal (obj [("error", str "Model is loading")]);
     arrayBuffer := Normal [] |}.

(** The image model sent three bytes. *)
Definition image_response : @Response Z :=
  {| status := 200;
     json := Abrupt (obj [("message", str "Unexpected token")]);
     arrayBuffer := Normal [xff; xd8; xff]%byte |}.

(** The image model sent the three bytes of the word Man. *)
Definition man_response : @Response Z :=
  {| status := 200;
     json := Abrupt (obj [("message", str "Unexpected token")]);
     arrayBuffer := Normal [x4d; x61; x6e]%byte |}.

(** A model text of two lines with a backslash in it. *)
Definition two_lines_text : @completion Z (list N) :=
  Normal (lit " a fox" ++ [LF] ++ lit "in snow\deep ").

(** A diagram inside one pair of markers, and the same text with a second
    pair around it. *)
Definition fenced_diagram : list N :=
  fence ++ lit "mermaid" ++ [LF] ++ lit "graph TD" ++ [LF] ++ lit "A[Start] --> B[Next]"
  ++ [LF] ++ fence ++ [LF].

Definition twice_fenced_diagram : list N :=
  fence ++ [LF] ++ fence ++ lit "mermaid" ++ [LF] ++ lit "graph TD" ++ [LF]
  ++ lit "A[Start] --> B[Next]" ++ [LF] ++ fence ++ [LF] ++ fence.

(** A sentence, and then a diagram inside one pair of markers. *)
Definition preamble_diagram : list N :=
  lit "Here is the diagram:" ++ [LF] ++ fence ++ lit "mermaid" ++ [LF] ++ lit "graph TD"
  ++ [LF] ++ fence.

Definition request_at (caller : list N) (now : Z) : @request Z :=
  {| ip := caller; received := now; matched := GET_root; parsed_body := JObj [] |}.

Definition fresh_store : limiter_store := {| window := 0; hits := ∅ |}.

(** One caller, 101 requests in the last millisecond of the first window. *)
Definition burst : list (@request Z) :=
  List.repeat (request_at (lit "10.0.0.1") 899999) 101.

Definition archived (name : string) (at_time : Z) : Client.document :=
  {| Client.doc_id := lit name;
     Client.doc_data :=
       {| Client.type := lit "manifestation";
          Client.prompt := lit "a red fox in snow";
          Client.image := None;
          Client.enhancedPrompt := [];
          Client.mermaidCode := lit "graph TD";
          Client.style := lit "anime";
          Client.archivist := lit "Ada";
          Client.createdAt := at_time |} |}.

Definition three_records : Client.firestore :=
  {| Client.documents := fun _ => [archived "a" 10; archived "b" 30; archived "c" 20];
     Client.reachable := true |}.

Definition empty_history : Client.history :=
  {| Client.historyItems := []; Client.historyLoading := false; Client.error := None |}.

(** ** Reading base64 back

    The reader of a data URI undoes the encoding; it is written out here to
    state that the encoding loses nothing.  [base64_index] is the place of a
    character in the alphabet. *)
Definition base64_index (c : code_unit) : N :=
  if (0x41 <=? c) && (c <=? 0x5A) then c - 0x41
  else if (0x61 <=? c) && (c <=? 0x7A) then c - 0x61 + 26
  else if (0x30 <=? c) && (c <=? 0x39) then c - 0x30 + 52
  else if c =? 0x2B then 62
  else 63.

Definition isBase64Char (c : code_unit) : bool :=
  ((0x41 <=? c) && (c <=? 0x5A)) || ((0x61 <=? c) && (c <=? 0x7A))
  || ((0x30 <=? c) && (c <=? 0x39)) || (c =? 0x2B) || (c =? 0x2F).

Fixpoint base64_decode (s : jsstring) : list N :=
  match s with
  | c1 :: c2 :: c3 :: c4 :: r =>
      let i1 := base64_index c1 in
      let i2 := base64_index c2 in
      let i3 := base64_index c3 in
      let i4 := base64_index c4 in
      let o1 := N.lor (N.shiftl i1 2) (N.shiftr i2 4) in
      let o2 := N.lor (N.shiftl (N.land i2 15) 4) (N.shiftr i3 2) in
      let o3 := N.lor (N.shiftl (N.land i3 3) 6) i4 in
      if c3 =? PAD then [o1]
      else if c4 =? PAD then [o1; o2]
      else o1 :: o2 :: o3 :: base64_decode r
  | _ => []
  end.

(** The 256 octets. *)
Definition octets : list N := map N.of_nat (seq 0 256).

(** ** The client component (client, lines 13-165, and the handlers written
    into the markup)

    The component state is the fifteen [useState] cells.  A handler reads
    the cells as they are when it is called and queues its writes; it is
    modelled as a function from the state and the answers of the outside
    (the backend, the document store, the confirm dialog) to the state after
    it and the effects it had, in order. *)

Module Studio.

Section Component.

Context {number : Type} `{JsNumber number} `{JsTypeError}.

#[local] Abbreviation jsvalue := (@jsval number) (only parsing).
#[local] Abbreviation outcome := (@completion number) (only parsing).

Definition API_BASE_URL : jsstring := lit "http://localhost:5000".

(** The entries of [STYLES], with their [id] and [name]. *)
Inductive style_option : Type :=
  | Realistic
  | Anime
  | Cinematic
  | Render3D.

Definition STYLES : list style_option := [Realistic; Anime; Cinematic; Render3D].

Definition style_id (s : style_option) : jsstring :=
  match s with
  | Realistic => lit "realistic"
  | Anime => lit "anime"
  | Cinematic => lit "cinematic"
  | Render3D => lit "3d render"
  end.

Definition style_name (s : style_option) : jsstring :=
  match s with
  | Realistic => lit "Realistic"
  | Anime => lit "Anime"
  | Cinematic => lit "Cinematic"
  | Render3D => lit "3D Render"
  end.

(** The two values [activeTab] takes. *)
Inductive tab : Type := manifest | history.

Record state := {
  activeTab : tab;
  prompt : jsstring;
  style : jsstring;
  loading : bool;
  saving : bool;
  image : jsvalue;
  enhancedPrompt : jsvalue;
  mermaidCode : jsvalue;
  error : option jsstring;
  isDropdownOpen : bool;
  historyItems : list Client.item;
  historyLoading : bool;
  isSaved : bool;
  isModalOpen : bool;
  archivistName : jsstring
}.

(** The cells as [useState] creates them. *)
Definition initial : state :=
  {| activeTab := manifest;
     prompt := [];
     style := style_id Realistic;
     loading := false;
     saving := false;
     image := JNull;
     enhancedPrompt := JStr [];
     mermaidCode := JStr [];
     error := None;
     isDropdownOpen := false;
     historyItems := [];
     historyLoading := false;
     isSaved := false;
     isModalOpen := false;
     archivistName := [] |}.

Definition setActiveTab (value : tab) (st : state) : state :=
  {| activeTab := value;
     prompt := prompt st;
     style := style st;
     loading := loading st;
     saving := saving st;
     image := image st;
     enhancedPrompt := enhancedPrompt st;
     mermaidCode := mermaidCode st;
     error := error st;
     isDropdownOpen := isDropdownOpen st;
     historyItems := historyItems st;
     historyLoading := historyLoading st;
     isSaved := isSaved st;
     isModalOpen := isModalOpen st;
     archivistName := archivistName st |}.

Definition setPrompt (value : jsstring) (st : state) : state :=
  {| activeTab := activeTab st;
     prompt := value;
     style := style st;
     loading := loading st;
     saving := saving st;
     image := image st;
     enhancedPrompt := enhancedPrompt st;
     mermaidCode := mermaidCode st;
     error := error st;
     isDropdownOpen := isDropdownOpen st;
     historyItems := historyItems st;
     historyLoading := historyLoading st;
     isSaved := isSaved st;
     isModalOpen := isModalOpen st;
     archivistName := archivistName st |}.

Definition setStyle (value : jsstring) (st : state) : state :=
  {| activeTab := activeTab st;
     prompt := prompt st;
     style := value;
     loading := loading st;
     saving := saving st;
     image := image st;
     enhancedPrompt := enhancedPrompt st;
     mermaidCode := mermaidCode st;
     error := error st;
     isDropdownOpen := isDropdownOpen st;
     historyItems := historyItems st;
     historyLoading := historyLoading st;
     isSaved := isSaved st;
     isModalOpen := isModalOpen st;
     archivistName := archivistName st |}.

Definition setLoading (value : bool) (st : state) : state :=
  {| activeTab := activeTab st;
     prompt := prompt st;
     style := style st;
     loading := value;
     saving := saving st;
     image := image st;
     enhancedPrompt := enhancedPrompt st;
     mermaidCode := mermaidCode st;
     error := error st;
     isDropdownOpen := isDropdownOpen st;
     historyItems := historyItems st;
     historyLoading := historyLoading st;
     isSaved := isSaved st;
     isModalOpen := isModalOpen st;
     archivistName := archivistName st |}.

Definition setSaving (value : bool) (st : state) : state :=
  {| activeTab := activeTab st;
     prompt := prompt st;
     style := style st;
     loading := loading st;
     saving := value;
     image := image st;
     enhancedPrompt := enhancedPrompt st;
     mermaidCode := mermaidCode st;
     error := error st;
     isDropdownOpen := isDropdownOpen st;
     historyItems := historyItems st;
     historyLoading := historyLoading st;
     isSaved := isSaved st;
     isModalOpen := isModalOpen st;
     archivistName := archivistName st |}.

Definition setImage (value : jsvalue) (st : state) : state :=
  {| activeTab := activeTab st;
     prompt := prompt st;
     style := style st;
     loading := loading st;
     saving := saving st;
     image := value;
     enhancedPrompt := enhancedPrompt st;
     mermaidCode := mermaidCode st;
     error := error st;
     isDropdownOpen := isDropdownOpen st;
     historyItems := historyItems st;
     historyLoading := historyLoading st;
     isSaved := isSaved st;
     isModalOpen := isModalOpen st;
     archivistName := archivistName st |}.

Definition setEnhancedPrompt (value : jsvalue) (st : state) : state :=
  {| activeTab := activeTab st;
     prompt := prompt st;
     style := style st;
     loading := loading st;
     saving := saving st;
     image := image st;
     enhancedPrompt := value;
     mermaidCode := mermaidCode st;
     error := error st;
     isDropdownOpen := isDropdownOpen st;
     historyItems := historyItems st;
     historyLoading := historyLoading st;
     isSaved := isSaved st;
     isModalOpen := isModalOpen st;
     archivistName := archivistName st |}.

Definition setMermaidCode (value : jsvalue) (st : state) : state :=
  {| activeTab := activeTab st;
     prompt := prompt st;
     style := style st;
     loading := loading st;
     saving := saving st;
     image := image st;
     enhancedPrompt := enhancedPrompt st;
     mermaidCode := value;
     error := error st;
     isDropdownOpen := isDropdownOpen st;
     historyItems := historyItems st;
     historyLoading := historyLoading st;
     isSaved := isSaved st;
     isModalOpen := isModalOpen st;
     archivistName := archivistName st |}.

Definition setError (value : option jsstring) (st : state) : state :=
  {| activeTab := activeTab st;
     prompt := prompt st;
     style := style st;
     loading := loading st;
     saving := saving st;
     image := image st;
     enhancedPrompt := enhancedPrompt st;
     mermaidCode := mermaidCode st;
     error := value;
     isDropdownOpen := isDropdownOpen st;
     historyItems := historyItems st;
     historyLoading := historyLoading st;
     isSaved := isSaved st;
     isModalOpen := isModalOpen st;
     archivistName := archivistName st |}.

Definition setIsDropdownOpen (value : bool) (st : state) : state :=
  {| activeTab := activeTab st;
     prompt := prompt st;
     style := style st;
     loading := loading st;
     saving := saving st;
     image := image st;
     enhancedPrompt := enhancedPrompt st;
     mermaidCode := mermaidCode st;
     error := error st;
     isDropdownOpen := value;
     historyItems := historyItems st;
     historyLoading := historyLoading st;
     isSaved := isSaved st;
     isModalOpen := isModalOpen st;
     archivistName := archivistName st |}.

Definition setHistoryItems (value : list Client.item) (st : state) : state :=
  {| activeTab := activeTab st;
     prompt := prompt st;
     style := style st;
     loading := loading st;
     saving := saving st;
     image := image st;
     enhancedPrompt := enhancedPrompt st;
     mermaidCode := mermaidCode st;
     error := error st;
     isDropdownOpen := isDropdownOpen st;
     historyItems := value;
     historyLoading := historyLoading st;
     isSaved := isSaved st;
     isModalOpen := isModalOpen st;
     archivistName := archivistName st |}.

Definition setHistoryLoading (value : bool) (st : state) : state :=
  {| activeTab := activeTab st;
     prompt := prompt st;
     style := style st;
     loading := loading st;
     saving := saving st;
     image := image st;
     enhancedPrompt := enhancedPrompt st;
     mermaidCode := mermaidCode st;
     error := error st;
     isDropdownOpen := isDropdownOpen st;
     historyItems := historyItems st;
     historyLoading := value;
     isSaved := isSaved st;
     isModalOpen := isModalOpen st;
     archivistName := archivistName st |}.

Definition setIsSaved (value : bool) (st : state) : state :=
  {| activeTab := activeTab st;
     prompt := prompt st;
     style := style st;
     loading := loading st;
     saving := saving st;
     image := image st;
     enhancedPrompt := enhancedPrompt st;
     mermaidCode := mermaidCode st;
     error := error st;
     isDropdownOpen := isDropdownOpen st;
     historyItems := historyItems st;
     historyLoading := historyLoading st;
     isSaved := value;
     isModalOpen := isModalOpen st;
     archivistName := archivistName st |}.

Definition setIsModalOpen (value : bool) (st : state) : state :=
  {| activeTab := activeTab st;
     prompt := prompt st;
     style := style st;
     loading := loading st;
     saving := saving st;
     image := image st;
     enhancedPrompt := enhancedPrompt st;
     mermaidCode := mermaidCode st;
     error := error st;
     isDropdownOpen := isDropdownOpen st;
     historyItems := historyItems st;
     historyLoading := historyLoading st;
     isSaved := isSaved st;
     isModalOpen := value;
     archivistName := archivistName st |}.

Definition setArchivistName (value : jsstring) (st : state) : state :=
  {| activeTab := activeTab st;
     prompt := prompt st;
     style := style st;
     loading := loading st;
     saving := saving st;
     image := image st;
     enhancedPrompt := enhancedPrompt st;
     mermaidCode := mermaidCode st;
     error := error st;
     isDropdownOpen := isDropdownOpen st;
     historyItems := historyItems st;
     historyLoading := historyLoading st;
     isSaved := isSaved st;
     isModalOpen := isModalOpen st;
     archivistName := value |}.
(** A field of the document [handleSaveToCloud] writes: a value, or the
    [serverTimestamp()] placeholder. *)
Inductive field : Type :=
  | Value (v : jsvalue)
  | serverTimestamp.

Inductive effect : Type :=
  | Post (url : jsstring) (data : jsvalue)
  | AddDoc (collection : string) (data : list (string * field))
  | DeleteDoc (collection : string) (id : jsstring)
  | Confirm (message : jsstring)
  | Alert (message : jsstring)
  | SetTimeout (delay : N).

(** What the outside answers.  [axios_post] is the [data] of the response
    [axios.post] resolves to, or the rejection (a network failure, or a
    status outside 200-299); [addDoc] and [deleteDoc] tell whether the store
    call resolved. *)
Record outside := {
  axios_post : jsstring -> jsvalue -> outcome jsvalue;
  addDoc : string -> list (string * field) -> bool;
  deleteDoc : string -> jsstring -> bool;
  window_confirm : jsstring -> bool
}.

(** [!s.trim()] *)
Definition blank (s : jsstring) : bool :=
  match trim s with [] => true | _ :: _ => false end.

(** [o.key] on a value that may be [null] or [undefined]: those throw. *)
Definition member (o : jsvalue) (key : string) : outcome jsvalue := Get o key.

(** The [try] block of [handleManifest] once both responses are there
    (lines 101-103): each setter runs when its argument has been read. *)
Definition show_results (imgData diagData : jsvalue) (st : state) : outcome unit * state :=
  match member imgData "image" with
  | Abrupt e => (Abrupt e, st)
  | Normal img =>
      let st := setImage img st in
      match member imgData "enhancedPrompt" with
      | Abrupt e => (Abrupt e, st)
      | Normal enhanced =>
          let st := setEnhancedPrompt enhanced st in
          match member diagData "mermaidCode" with
          | Abrupt e => (Abrupt e, st)
          | Normal code => (Normal tt, setMermaidCode code st)
          end
      end
  end.

(** [handleManifest] (lines 87-111).  Both requests are started before
    either is awaited. *)
Definition handleManifest (out : outside) (st : state) : state * list effect :=
  if blank (prompt st) then
    (setError (Some (lit "Please enter a concept to manifest.")) st, [])
  else
    let generate_url := API_BASE_URL ++ lit "/generate" in
    let diagram_url := API_BASE_URL ++ lit "/generate-diagram" in
    let generate_data := obj [("prompt", JStr (prompt st)); ("style", JStr (style st))] in
    let diagram_data := obj [("prompt", JStr (prompt st))] in
    let st1 := setMermaidCode (JStr []) (setImage JNull (setError None (setLoading true st))) in
    let failed (s : state) :=
      setError (Some (lit "Neural manifestation partially failed. Check your connection.")) s in
    let st2 :=
      match axios_post out generate_url generate_data,
            axios_post out diagram_url diagram_data with
      | Normal imgData, Normal diagData =>
          match show_results imgData diagData st1 with
          | (Normal _, s) => s
          | (Abrupt _, s) => failed s
          end
      | _, _ => failed st1
      end in
    (setIsSaved false (setLoading false st2),
     [Post generate_url generate_data; Post diagram_url diagram_data]).

(** The object literal of lines 124-133. *)
Definition archive_data (st : state) : list (string * field) :=
  [("type", Value (str "manifestation"));
   ("prompt", Value (JStr (prompt st)));
   ("image", Value (image st));
   ("enhancedPrompt", Value (enhancedPrompt st));
   ("mermaidCode", Value (mermaidCode st));
   ("style", Value (JStr (style st)));
   ("archivist", Value (JStr (archivistName st)));
   ("createdAt", serverTimestamp)].

(** [handleSaveToCloud] (lines 113-145).  The timer it sets runs
    [savedFlagExpires]. *)
Definition handleSaveToCloud (out : outside) (st : state) : state * list effect :=
  if negb (ToBoolean (image st)) && negb (ToBoolean (mermaidCode st)) then (st, [])
  else if isSaved st then (st, [])
  else if blank (archivistName st) then (setIsModalOpen true st, [])
  else
    let st1 := setSaving true st in
    let data := archive_data st in
    if addDoc out "visuals" data then
      (setSaving false (setIsModalOpen false (setIsSaved true st1)),
       [AddDoc "visuals" data; SetTimeout 3000])
    else
      (setSaving false st1,
       [AddDoc "visuals" data; Alert (lit "Failed to archive manifestation.")]).

(** [() => setIsSaved(false)], the callback of line 138. *)
Definition savedFlagExpires (st : state) : state := setIsSaved false st.

(** [handleDelete] (lines 147-156). *)
Definition handleDelete (out : outside) (itemId : jsstring) (st : state) : state * list effect :=
  let question := lit "Are you sure you want to delete this visual?" in
  if negb (window_confirm out question) then (st, [Confirm question])
  else if deleteDoc out "visuals" itemId then
    (setHistoryItems (filter (fun item => Client.id item <> itemId) (historyItems st)) st,
     [Confirm question; DeleteDoc "visuals" itemId])
  else
    (st, [Confirm question; DeleteDoc "visuals" itemId; Alert (lit "Failed to delete.")]).

(** A field of an archived record as the markup reads it: [null] when the
    record has no image. *)
Definition image_value (v : Client.visual) : jsvalue :=
  match Client.image v with
  | Some s => JStr s
  | None => JNull
  end.

(** The restore button of an archived item (lines 530-536). *)
Definition restoreItem (item : Client.item) (st : state) : state :=
  setActiveTab manifest
    (setPrompt (Client.prompt (Client.data item))
       (setMermaidCode (JStr (Client.mermaidCode (Client.data item)))
          (setEnhancedPrompt (JStr (Client.enhancedPrompt (Client.data item)))
             (setImage (image_value (Client.data item)) st)))).

(** A tab button (line 225). *)
Definition selectTab (t : tab) (st : state) : state :=
  setError None (setActiveTab t st).

(** An entry of the style menu (line 325). *)
Definition pickStyle (s : style_option) (st : state) : state :=
  setIsDropdownOpen false (setStyle (style_id s) st).

(** The part of the state [fetchHistory] works on, and its write-back. *)
Definition history_of (st : state) : Client.history :=
  {| Client.historyItems := historyItems st;
     Client.historyLoading := historyLoading st;
     Client.error := error st |}.

Definition with_history (h : Client.history) (st : state) : state :=
  setError (Client.error h)
    (setHistoryLoading (Client.historyLoading h)
       (setHistoryItems (Client.historyItems h) st)).

(** The history half of the effect of lines 52-67: on the history tab the
    list is fetched again. *)
Definition useEffect_history (db : Client.firestore) (st : state) : state :=
  match activeTab st with
  | history => with_history (Client.fetchHistory db (history_of st)) st
  | manifest => st
  end.

(** What a user can do to the component, and the outcome of each;
    [BackToManifest] is the button of the empty archive (line 503). *)
Inductive action : Type :=
  | ChangePrompt (value : jsstring)
  | ToggleDropdown
  | PickStyle (s : style_option)
  | ClickManifest
  | ClickSave
  | SavedFlagExpires
  | SelectTab (t : tab)
  | BackToManifest
  | Restore (item : Client.item)
  | ClickDelete (itemId : jsstring)
  | CloseModal
  | ChangeArchivist (value : jsstring)
  | EffectRuns.

Definition perform (out : outside) (db : Client.firestore) (a : action) (st : state)
    : state * list effect :=
  match a with
  | ChangePrompt value => (setPrompt value st, [])
  | ToggleDropdown => (setIsDropdownOpen (negb (isDropdownOpen st)) st, [])
  | PickStyle s => (pickStyle s st, [])
  | ClickManifest => handleManifest out st
  | ClickSave => handleSaveToCloud out st
  | SavedFlagExpires => (savedFlagExpires st, [])
  | SelectTab t => (selectTab t st, [])
  | BackToManifest => (setActiveTab manifest st, [])
  | Restore item => (restoreItem item st, [])
  | ClickDelete itemId => handleDelete out itemId st
  | CloseModal => (setIsModalOpen false st, [])
  | ChangeArchivist value => (setArchivistName value st, [])
  | EffectRuns => (useEffect_history db st, [])
  end.

(** A session: one action after the other, the outside answering each in
    its own way. *)
Fixpoint session (steps : list (outside * Client.firestore * action)) (st : state) : state :=
  match steps with
  | [] => st
  | (out, db, a) :: rest => session rest (fst (perform out db a st))
  end.

(** The backend reached without loss: what [axios.post] gives when the two
    handlers of the server answer the request.  A status outside 200-299
    makes [axios] reject; otherwise [data] is the JSON sent. *)
Definition axios_response (answer : @Eff number (@http_response number)) : outcome jsvalue :=
  match fst answer with
  | Normal res =>
      if (200 <=? res_status res) && (res_status res <=? 299) then
        match res_sent res with
        | json_body v => Normal v
        | text_body s => Normal (JStr s)
        end
      else Abrupt (str "AxiosError")
  | Abrupt e => Abrupt e
  end.

Definition backend (HUGGINGFACE_API_KEY : option jsstring) (up : @upstream number)
    (url : jsstring) (data : jsvalue) : outcome jsvalue :=
  if decide (url = API_BASE_URL ++ lit "/generate") then
    axios_response (post_generate HUGGINGFACE_API_KEY up data)
  else if decide (url = API_BASE_URL ++ lit "/generate-diagram") then
    axios_response (post_generate_diagram up data)
  else Abrupt (str "AxiosError").

End Component.

End Studio.

(** ** Reading a JSON string back

    The receiver of the request body undoes [QuoteJSONString]; the reader
    is written out here to state that the quoting loses nothing. *)
Definition hex_value (h : code_unit) : N :=
  if h <? 0x3A then h - 0x30 else h - 0x61 + 10.

Definition unescape (c : code_unit) : code_unit :=
  if c =? 0x62 then 0x08
  else if c =? 0x74 then 0x09
  else if c =? 0x6E then 0x0A
  else if c =? 0x66 then 0x0C
  else if c =? 0x72 then 0x0D
  else c.

Fixpoint unquote_units (s : jsstring) : jsstring :=
  match s with
  | [] => []
  | c0 :: r0 =>
      if c0 =? 0x5C then
        match r0 with
        | [] => []
        | c :: r =>
            if c =? 0x75 then
              match r with
              | h1 :: h2 :: h3 :: h4 :: r' =>
                  (4096 * hex_value h1 + 256 * hex_value h2 + 16 * hex_value h3 + hex_value h4)
                  :: unquote_units r'
              | _ => []
              end
            else unescape c :: unquote_units r
        end
      else c0 :: unquote_units r0
  end.

(** Whether the escape of a code unit reads back as that code unit. *)
Definition unicode_read_back (c : N) : bool :=
  match UnicodeEscape c with
  | b :: u :: h1 :: h2 :: h3 :: h4 :: [] =>
      (b =? 0x5C) && (u =? 0x75)
      && (4096 * hex_value h1 + 256 * hex_value h2 + 16 * hex_value h3 + hex_value h4 =? c)
  | _ => false
  end.

(** ** Sample component states and surroundings *)

(** The prompt and the style of the fox request, typed and picked. *)
Definition fox_typed : @Studio.state Z :=
  Studio.setPrompt (lit "a red fox in snow") (Studio.pickStyle Studio.Anime Studio.initial).

(** Two spaces in the prompt field. *)
Definition blank_typed : @Studio.state Z :=
  Studio.setPrompt (lit "  ") Studio.initial.

(** A result on display and a name in the dialog. *)
Definition fox_shown : @Studio.state Z :=
  Studio.setArchivistName (lit "Ada")
    (Studio.setMermaidCode (str "graph TD")
       (Studio.setImage (str "data:image/jpeg;base64,/9j/") fox_typed)).

(** The three archived records, listed. *)
Definition fox_listed : @Studio.state Z :=
  Studio.setHistoryItems
    (Client.historyItems (Client.fetchHistory three_records empty_history)) Studio.initial.

(** A request [axios] rejects. *)
Definition request_rejected : @completion Z (@jsval Z) := Abrupt (str "AxiosError").

(** Surroundings that answer every request alike, with a store and a user
    that agree or not. *)
Definition surroundings (answer : @jsval Z -> @completion Z (@jsval Z)) (agree : bool)
    : @Studio.outside Z :=
  {| Studio.axios_post := fun _ data => answer data;
     Studio.addDoc := fun _ _ => agree;
     Studio.deleteDoc := fun _ _ => agree;
     Studio.window_confirm := fun _ => true |}.

(** Surroundings whose backend is the two handlers. *)
Definition served_by (key : option (list N)) (up : @upstream Z) : @Studio.outside Z :=
  {| Studio.axios_post := Studio.backend key up;
     Studio.addDoc := fun _ _ => true;
     Studio.deleteDoc := fun _ _ => true;
     Studio.window_confirm := fun _ => true |}.

Definition both_answers : @jsval Z :=
  obj [("image", str "data:image/jpeg;base64,/9j/");
       ("enhancedPrompt", str "A red fox in deep snow, anime style");
       ("mermaidCode", str "graph TD")].

Definition unreachable_store : Client.firestore :=
  {| Client.documents := fun _ => []; Client.reachable := false |}.

(** The call to the image model fails. *)
Definition model_down_fetch : @completion Z (@Response Z) :=
  Abrupt (obj [("message", str "fetch failed")]).

(** The image model answers 201. *)
Definition created_response : @Response Z :=
  {| status := 201;
     json := Abrupt (obj [("message", str "Unexpected token")]);
     arrayBuffer := Normal [xff; xd8; xff]%byte |}.

(** * Properties *)

(** ** The string operations on known values *)

Example trim_spaces_and_line_feed :
  trim (lit "  a b " ++ [LF; 0xA0; 0xFEFF]) = lit "a b".
Proof. reflexivity. Qed.

Example trim_keeps_inner_space :
  trim ([0x09] ++ lit "graph TD" ++ [LF] ++ lit "A --> B" ++ [0x0D; LF])
  = lit "graph TD" ++ [LF] ++ lit "A --> B".
Proof. reflexivity. Qed.

Example strip_fences_plain :
  strip_fences (lit "graph TD" ++ [LF] ++ lit "A --> B") = lit "graph TD" ++ [LF] ++ lit "A --> B".
Proof. reflexivity. Qed.

Example strip_fences_wrapped :
  strip_fences (fence ++ lit "mermaid" ++ [LF] ++ lit "graph TD" ++ [LF] ++ fence)
  = lit "graph TD".
Proof. reflexivity. Qed.

Example strip_fences_no_language :
  strip_fences (fence ++ [LF] ++ lit "graph TD" ++ fence) = lit "graph TD".
Proof. reflexivity. Qed.

(** Both opening replacements fire when the word follows the marker twice
    over. *)
Example strip_fences_two_openings :
  strip_fences (fence ++ lit "mermaid" ++ [LF] ++ fence ++ [LF] ++ lit "graph TD")
  = lit "graph TD".
Proof. reflexivity. Qed.

Example strip_fences_four_backticks :
  strip_fences ([BACKTICK] ++ fence ++ lit "x" ++ fence ++ [BACKTICK])
  = [BACKTICK] ++ lit "x" ++ [BACKTICK].
Proof. reflexivity. Qed.

Example QuoteJSONString_escapes :
  QuoteJSONString (lit "a\" ++ [DQUOTE; LF; 0x01; 0xD800; 0xD83D; 0xDE00])
  = [DQUOTE] ++ lit "a\\\" ++ [DQUOTE] ++ lit "\n\u0001\ud800" ++ [0xD83D; 0xDE00; DQUOTE].
Proof. reflexivity. Qed.

Example JSON_stringify_inputs_fox :
  JSON_stringify_inputs (lit "a red fox")
  = lit "{" ++ [DQUOTE] ++ lit "inputs" ++ [DQUOTE] ++ lit ":" ++ [DQUOTE] ++ lit "a red fox"
    ++ [DQUOTE] ++ lit "}".
Proof. reflexivity. Qed.

(** The test vectors of RFC 4648, section 10. *)
Example base64_rfc4648 :
  map (fun s => base64_octets (lit s)) [""; "f"; "fo"; "foo"; "foob"; "fooba"; "foobar"]
  = map lit [""; "Zg=="; "Zm8="; "Zm9v"; "Zm9vYg=="; "Zm9vYmE="; "Zm9vYmFy"].
Proof. reflexivity. Qed.

Example base64_jpeg_magic : toString_base64 [xff; xd8; xff]%byte = lit "/9j/".
Proof. reflexivity. Qed.

(** ** Prefixes, suffixes and occurrences *)

Lemma strip_prefix_Some (p s r : list N) :
  strip_prefix p s = Some r <-> s = p ++ r.
Proof.
  revert s. induction p as [|a p IH]; intros s; simpl.
  - split; [intros [= ->]; reflexivity | intros ->; reflexivity].
  - destruct s as [|b s]; [split; discriminate|].
    destruct (N.eqb_spec a b) as [->|Hne].
    + rewrite IH. split; [intros ->; reflexivity | intros [= ->]; reflexivity].
    + split; [discriminate | intros [= Hab _]; congruence].
Qed.

Lemma strip_prefix_app (p r : list N) : strip_prefix p (p ++ r) = Some r.
Proof. apply strip_prefix_Some. reflexivity. Qed.

Lemma strip_suffix_Some (p s r : list N) :
  strip_suffix p s = Some r <-> s = r ++ p.
Proof.
  unfold strip_suffix.
  destruct (strip_prefix (rev p) (rev s)) as [q|] eqn:E.
  - apply strip_prefix_Some in E.
    assert (Hs : s = rev q ++ p).
    { rewrite <- (rev_involutive s), E, rev_app_distr, rev_involutive. reflexivity. }
    split.
    + intros [= <-]. exact Hs.
    + intros Hr. rewrite Hs in Hr. apply app_inv_tail in Hr. congruence.
  - split; [discriminate|]. intros ->.
    rewrite rev_app_distr, strip_prefix_app in E. discriminate.
Qed.

Lemma strip_suffix_app (p r : list N) : strip_suffix p (r ++ p) = Some r.
Proof. apply strip_suffix_Some. reflexivity. Qed.

Lemma startsWith_true (p s : list N) :
  startsWith p s = true <-> exists b, s = p ++ b.
Proof.
  unfold startsWith. destruct (strip_prefix p s) as [r|] eqn:E.
  - apply strip_prefix_Some in E. split; eauto.
  - split; [discriminate|]. intros [b ->].
    rewrite strip_prefix_app in E. discriminate.
Qed.

Lemma endsWith_true (p s : list N) :
  endsWith p s = true <-> exists a, s = a ++ p.
Proof.
  unfold endsWith. destruct (strip_suffix p s) as [r|] eqn:E.
  - apply strip_suffix_Some in E. split; eauto.
  - split; [discriminate|]. intros [a ->].
    rewrite strip_suffix_app in E. discriminate.
Qed.

Lemma includes_true (p s : list N) :
  includes p s = true <-> exists a b, s = a ++ p ++ b.
Proof.
  induction s as [|c s IH].
  - simpl. rewrite orb_false_r, startsWith_true. split.
    + intros [b ->]. exists [], b. reflexivity.
    + intros (a & b & E). destruct a; [exists b; exact E | discriminate].
  - cbn [includes]. rewrite orb_true_iff, startsWith_true, IH. split.
    + intros [[b ->] | (a & b & ->)].
      * exists [], b. reflexivity.
      * exists (c :: a), b. reflexivity.
    + intros (a & b & E). destruct a as [|c' a].
      * left. exists b. exact E.
      * right. injection E as _ ->. eauto.
Qed.

Lemma includes_false_app_l (p a b : list N) :
  includes p (a ++ b) = false -> includes p a = false.
Proof.
  intros Hn. destruct (includes p a) eqn:E; [|reflexivity].
  apply includes_true in E as (u & v & ->).
  assert (includes p ((u ++ p ++ v) ++ b) = true) as Ht.
  { apply includes_true. exists u, (v ++ b). now rewrite <- !app_assoc. }
  congruence.
Qed.

Lemma includes_false_app_r (p a b : list N) :
  includes p (a ++ b) = false -> includes p b = false.
Proof.
  intros Hn. destruct (includes p b) eqn:E; [|reflexivity].
  apply includes_true in E as (u & v & ->).
  assert (includes p (a ++ u ++ p ++ v) = true) as Ht.
  { apply includes_true. exists (a ++ u), v. now rewrite <- !app_assoc. }
  congruence.
Qed.

Lemma includes_false_startsWith (p s : list N) :
  includes p s = false -> startsWith p s = false.
Proof.
  intros Hn. destruct (startsWith p s) eqn:E; [|reflexivity].
  apply startsWith_true in E as [b ->].
  assert (includes p (p ++ b) = true) as Ht
    by (apply includes_true; exists [], b; reflexivity).
  congruence.
Qed.

Lemma includes_false_endsWith (p s : list N) :
  includes p s = false -> endsWith p s = false.
Proof.
  intros Hn. destruct (endsWith p s) eqn:E; [|reflexivity].
  apply endsWith_true in E as [a ->].
  assert (includes p (a ++ p) = true) as Ht
    by (apply includes_true; exists a, []; now rewrite app_nil_r).
  congruence.
Qed.

(** ** One layer of fence markers is removed *)

Lemma closed_once_nil : closed_once [].
Proof. exists [], []. repeat split. left. reflexivity. Qed.

Lemma closed_once_body (x : list N) :
  includes fence x = false -> closed_once x.
Proof.
  intros Hx. exists x, []. rewrite app_nil_r. repeat split; [exact Hx | left; reflexivity].
Qed.

Ltac closing_cases H :=
  unfold closings in H; simpl in H;
  destruct H as [H | [H | [H | []]]]; subst.

Lemma closed_once_skip_LF (s : list N) :
  closed_once s -> closed_once (skip_LF s).
Proof.
  intros (x & c & -> & Hx & Hc). unfold skip_LF.
  destruct (strip_prefix [LF] (x ++ c)) as [r|] eqn:E.
  2:{ exists x, c. auto. }
  apply strip_prefix_Some in E. destruct x as [|a x].
  - closing_cases Hc; simpl in E; try discriminate.
    injection E as <-. exists [], fence. repeat split. right; left; reflexivity.
  - injection E as -> <-. exists x, c. repeat split; [|exact Hc].
    apply (includes_false_app_r fence [LF] x). exact Hx.
Qed.

Lemma closed_once_replace_open (s : list N) :
  closed_once s -> closed_once (replace_open s).
Proof.
  intros Hs. unfold replace_open.
  destruct (strip_prefix fence s) as [r|] eqn:E; [|exact Hs].
  apply closed_once_skip_LF.
  apply strip_prefix_Some in E. destruct Hs as (x & c & -> & Hx & Hc).
  destruct x as [|x1 [|x2 [|x3 x]]].
  - closing_cases Hc; simpl in E; try discriminate.
    injection E as <-. apply closed_once_nil.
  - closing_cases Hc; simpl in E; try discriminate.
    injection E as -> <-. apply closed_once_body. reflexivity.
  - closing_cases Hc; simpl in E; try discriminate.
    injection E as -> -> <-. apply closed_once_body. reflexivity.
  - injection E as -> -> -> <-. discriminate Hx.
Qed.

Lemma closed_once_no_mermaid_marker (s : list N) :
  closed_once s -> replace_open_mermaid s = s.
Proof.
  intros (x & c & -> & Hx & Hc). unfold replace_open_mermaid.
  destruct (strip_prefix (fence ++ lit "mermaid") (x ++ c)) as [r|] eqn:E; [|reflexivity].
  exfalso. apply strip_prefix_Some in E.
  destruct x as [|x1 [|x2 [|x3 x]]].
  - closing_cases Hc; simpl in E; discriminate.
  - closing_cases Hc; simpl in E; discriminate.
  - closing_cases Hc; simpl in E; discriminate.
  - injection E as -> -> -> _. discriminate Hx.
Qed.

(** A word without backticks and line feeds at the head of such a text lies
    in its body. *)
Lemma closed_once_drop_word (w s : list N) :
  Forall (fun a => a <> BACKTICK /\ a <> LF) w ->
  closed_once (w ++ s) -> closed_once s.
Proof.
  induction 1 as [|a w [Ha1 Ha2] _ IH]; [auto|].
  intros (x & c & E & Hx & Hc). apply IH.
  destruct x as [|b x].
  - closing_cases Hc; simpl in E; try discriminate; injection E as E _; congruence.
  - injection E as <- E. exists x, c. repeat split; [exact E | | exact Hc].
    apply (includes_false_app_r fence [a] x). exact Hx.
Qed.

Lemma closed_once_replace_close (s : list N) :
  closed_once s -> includes fence (replace_close s) = false.
Proof.
  intros (x & c & -> & Hx & Hc). unfold replace_close.
  closing_cases Hc.
  - rewrite app_nil_r.
    destruct (strip_suffix fence x) as [r|] eqn:E; [|exact Hx].
    apply strip_suffix_Some in E. subst x.
    apply includes_false_endsWith in Hx.
    assert (endsWith fence (r ++ fence) = true) by (apply endsWith_true; eauto).
    congruence.
  - rewrite strip_suffix_app. unfold chop_LF.
    destruct (strip_suffix [LF] x) as [r|] eqn:E; [|exact Hx].
    apply strip_suffix_Some in E. subst x.
    apply (includes_false_app_l fence r [LF]). exact Hx.
  - change (x ++ LF :: fence) with (x ++ [LF] ++ fence).
    rewrite app_assoc, strip_suffix_app. unfold chop_LF.
    rewrite strip_suffix_app. exact Hx.
Qed.

Lemma closed_once_strip_fences (s : list N) :
  closed_once s -> includes fence (strip_fences s) = false.
Proof.
  intros Hs. unfold strip_fences.
  rewrite (closed_once_no_mermaid_marker s Hs).
  apply closed_once_replace_close, closed_once_replace_open, Hs.
Qed.

Lemma closed_once_openings_removed (opening rest : list N) :
  In opening openings -> closed_once rest ->
  closed_once (replace_open (replace_open_mermaid (opening ++ rest))).
Proof.
  intros Ho Hrest. unfold openings in Ho.
  destruct Ho as [<- | [<- | [<- | [<- | [<- | []]]]]].
  - simpl. rewrite (closed_once_no_mermaid_marker rest Hrest).
    apply closed_once_replace_open, Hrest.
  - (* the marker alone: the text may go on with the word mermaid *)
    unfold replace_open_mermaid.
    destruct (strip_prefix (fence ++ lit "mermaid") (fence ++ rest)) as [r|] eqn:E.
    + apply closed_once_replace_open, closed_once_skip_LF.
      apply strip_prefix_Some in E. rewrite <- app_assoc in E.
      apply app_inv_head in E.
      apply (closed_once_drop_word (lit "mermaid")).
      * repeat constructor; discriminate.
      * rewrite <- E. exact Hrest.
    + unfold replace_open. rewrite strip_prefix_app.
      apply closed_once_skip_LF, Hrest.
  - rewrite <- app_assoc.
    change (replace_open_mermaid (fence ++ [LF] ++ rest)) with (fence ++ [LF] ++ rest).
    unfold replace_open. rewrite strip_prefix_app. exact Hrest.
  - unfold replace_open_mermaid. rewrite strip_prefix_app.
    apply closed_once_replace_open, closed_once_skip_LF, Hrest.
  - change ((fence ++ lit "mermaid" ++ [LF]) ++ rest)
      with ((fence ++ lit "mermaid") ++ [LF] ++ rest).
    unfold replace_open_mermaid. rewrite strip_prefix_app.
    apply closed_once_replace_open, Hrest.
Qed.

(** The text is one body, with at most one marker before it and at most one
    after it: no marker is left. *)
Lemma strip_fences_single_layer (opening body closing : list N) :
  In opening openings -> In closing closings ->
  includes fence body = false ->
  includes fence (strip_fences (opening ++ body ++ closing)) = false.
Proof.
  intros Ho Hc Hb. unfold strip_fences.
  apply closed_once_replace_close, closed_once_openings_removed; [exact Ho|].
  exists body, closing. auto.
Qed.

(** ** What [trim] removes *)

Lemma trimStart_split (s : list N) :
  exists a, s = a ++ trimStart s /\ Forall (fun c => isWhiteSpace c = true) a.
Proof.
  induction s as [|c s (a & E & Ha)]; simpl.
  - exists []. split; [reflexivity | constructor].
  - destruct (isWhiteSpace c) eqn:Hc.
    + exists (c :: a). split; [simpl; congruence | constructor; assumption].
    + exists []. split; [reflexivity | constructor].
Qed.

Lemma trimStart_head (s r : list N) c :
  trimStart s = c :: r -> isWhiteSpace c = false.
Proof.
  induction s as [|d s IH]; simpl; [discriminate|].
  destruct (isWhiteSpace d) eqn:Hd; [exact IH|].
  intros [= <- _]. exact Hd.
Qed.

Lemma trimStart_fixed (s : list N) :
  (forall c r, s = c :: r -> isWhiteSpace c = false) -> trimStart s = s.
Proof.
  destruct s as [|c r]; [reflexivity|]. intros Hs. simpl.
  rewrite (Hs c r eq_refl). reflexivity.
Qed.

Lemma trimEnd_split (s : list N) :
  exists b, s = trimEnd s ++ b /\ Forall (fun c => isWhiteSpace c = true) b.
Proof.
  destruct (trimStart_split (rev s)) as (a & E & Ha).
  exists (rev a). split.
  - unfold trimEnd. rewrite <- rev_app_distr, <- E, rev_involutive. reflexivity.
  - apply List.Forall_rev, Ha.
Qed.

Lemma trimEnd_last (s r : list N) c :
  trimEnd s = r ++ [c] -> isWhiteSpace c = false.
Proof.
  unfold trimEnd. intros E.
  apply (f_equal (@rev N)) in E. rewrite rev_involutive, rev_app_distr in E.
  exact (trimStart_head _ _ _ E).
Qed.

Lemma trimEnd_fixed (s : list N) :
  (forall r c, s = r ++ [c] -> isWhiteSpace c = false) -> trimEnd s = s.
Proof.
  intros Hs. unfold trimEnd. rewrite trimStart_fixed; [apply rev_involutive|].
  intros c r E. apply (Hs (rev r) c).
  rewrite <- (rev_involutive s), E. reflexivity.
Qed.

(** [trim] takes away whitespace at the two ends and nothing else. *)
Lemma trim_spec (s : list N) :
  (exists a b, s = a ++ trim s ++ b
     /\ Forall (fun c => isWhiteSpace c = true) a
     /\ Forall (fun c => isWhiteSpace c = true) b)
  /\ (forall c r, trim s = c :: r -> isWhiteSpace c = false)
  /\ (forall r c, trim s = r ++ [c] -> isWhiteSpace c = false).
Proof.
  destruct (trimStart_split s) as (a & Ea & Ha).
  destruct (trimEnd_split (trimStart s)) as (b & Eb & Hb).
  fold (trim s) in Eb. repeat split.
  - exists a, b. rewrite <- Eb. auto.
  - intros c r E. rewrite E in Eb. simpl in Eb.
    exact (trimStart_head _ _ _ Eb).
  - intros r c. apply trimEnd_last.
Qed.

Lemma trim_idempotent (s : list N) : trim (trim s) = trim s.
Proof.
  destruct (trim_spec s) as (_ & Hh & Hl).
  unfold trim at 1. rewrite (trimStart_fixed _ Hh). apply trimEnd_fixed, Hl.
Qed.

Lemma trim_whitespace (s : list N) :
  Forall (fun c => isWhiteSpace c = true) s -> trim s = [].
Proof.
  intros Hs. assert (E : trimStart s = []).
  { induction Hs as [|c s Hc _ IH]; simpl; [reflexivity|]. rewrite Hc. exact IH. }
  unfold trim. rewrite E. reflexivity.
Qed.

Lemma trim_nonempty_source (s : list N) : trim s <> [] -> s <> [].
Proof. intros Ht ->. apply Ht. reflexivity. Qed.


(** ** What the three replacements remove *)

Lemma skip_LF_split (s : list N) :
  exists n, s = n ++ skip_LF s /\ (n = [] \/ n = [LF]).
Proof.
  unfold skip_LF. destruct (strip_prefix [LF] s) as [r|] eqn:E.
  - apply strip_prefix_Some in E. exists [LF]. auto.
  - exists []. auto.
Qed.

Lemma chop_LF_split (s : list N) :
  exists n, s = chop_LF s ++ n /\ (n = [] \/ n = [LF]).
Proof.
  unfold chop_LF. destruct (strip_suffix [LF] s) as [r|] eqn:E.
  - apply strip_suffix_Some in E. exists [LF]. auto.
  - exists []. rewrite app_nil_r. auto.
Qed.

Lemma replace_open_mermaid_split (s : list N) :
  exists a, s = a ++ replace_open_mermaid s
    /\ In a [ []; fence ++ lit "mermaid"; fence ++ lit "mermaid" ++ [LF] ].
Proof.
  unfold replace_open_mermaid.
  destruct (strip_prefix (fence ++ lit "mermaid") s) as [r|] eqn:E.
  - apply strip_prefix_Some in E.
    destruct (skip_LF_split r) as (n & En & [-> | ->]).
    + exists (fence ++ lit "mermaid"). split; [|right; left; reflexivity].
      rewrite E. f_equal. exact En.
    + exists (fence ++ lit "mermaid" ++ [LF]). split.
      * rewrite E, En at 1. reflexivity.
      * right; right; left; reflexivity.
  - exists []. split; [reflexivity | left; reflexivity].
Qed.

Lemma replace_open_split (s : list N) :
  exists b, s = b ++ replace_open s /\ In b [ []; fence; fence ++ [LF] ].
Proof.
  unfold replace_open.
  destruct (strip_prefix fence s) as [r|] eqn:E.
  - apply strip_prefix_Some in E.
    destruct (skip_LF_split r) as (n & En & [-> | ->]).
    + exists fence. split; [|right; left; reflexivity].
      rewrite E. f_equal. exact En.
    + exists (fence ++ [LF]). split.
      * rewrite E, En at 1. reflexivity.
      * right; right; left; reflexivity.
  - exists []. split; [reflexivity | left; reflexivity].
Qed.

Lemma replace_close_split (s : list N) :
  exists q, s = replace_close s ++ q /\ In q closings.
Proof.
  unfold replace_close.
  destruct (strip_suffix fence s) as [r|] eqn:E.
  - apply strip_suffix_Some in E.
    destruct (chop_LF_split r) as (n & En & [-> | ->]).
    + exists fence. split; [|right; left; reflexivity].
      rewrite app_nil_r in En. rewrite E. f_equal. exact En.
    + exists (LF :: fence). split.
      * rewrite E, En at 1. rewrite <- app_assoc. reflexivity.
      * right; right; left; reflexivity.
  - exists []. split; [rewrite app_nil_r; reflexivity | left; reflexivity].
Qed.

(** The text returned is a stretch of the text received: what goes is one
    opening marker with the word mermaid (or none), one bare opening marker
    (or none), and one closing marker (or none). *)
Lemma strip_fences_split (s : list N) :
  exists a b q,
    s = a ++ b ++ strip_fences s ++ q
    /\ In a [ []; fence ++ lit "mermaid"; fence ++ lit "mermaid" ++ [LF] ]
    /\ In b [ []; fence; fence ++ [LF] ]
    /\ In q closings.
Proof.
  destruct (replace_open_mermaid_split s) as (a & Ea & Ha).
  destruct (replace_open_split (replace_open_mermaid s)) as (b & Eb & Hb).
  destruct (replace_close_split (replace_open (replace_open_mermaid s))) as (q & Eq & Hq).
  exists a, b, q. unfold strip_fences. rewrite <- Eq, <- Eb. auto.
Qed.

(** A text with no marker at its start and none at its end goes through
    unchanged. *)
Lemma strip_fences_unfenced (s : list N) :
  startsWith fence s = false -> endsWith fence s = false -> strip_fences s = s.
Proof.
  intros Hs He. unfold strip_fences.
  assert (E1 : replace_open_mermaid s = s).
  { unfold replace_open_mermaid.
    destruct (strip_prefix (fence ++ lit "mermaid") s) as [r|] eqn:E; [|reflexivity].
    apply strip_prefix_Some in E. rewrite <- app_assoc in E.
    assert (startsWith fence s = true) by (apply startsWith_true; eauto).
    congruence. }
  assert (E2 : replace_open s = s).
  { unfold replace_open. unfold startsWith in Hs.
    destruct (strip_prefix fence s); [discriminate | reflexivity]. }
  rewrite E1, E2. unfold replace_close. unfold endsWith in He.
  destruct (strip_suffix fence s); [discriminate | reflexivity].
Qed.

(** ** base64 loses nothing *)

Lemma octets_all (a : N) : a < 256 -> In a octets.
Proof.
  intros Ha. unfold octets. rewrite <- (N2Nat.id a).
  apply in_map, in_seq. lia.
Qed.

Lemma for_all_octets (P : N -> bool) :
  forallb P octets = true -> forall a, a < 256 -> P a = true.
Proof.
  intros Hall a Ha. rewrite forallb_forall in Hall. apply Hall, octets_all, Ha.
Qed.

Lemma for_all_octet_pairs (P : N -> N -> bool) :
  forallb (fun a => forallb (P a) octets) octets = true ->
  forall a b, a < 256 -> b < 256 -> P a b = true.
Proof.
  intros Hall a b Ha Hb.
  apply (for_all_octets (P a)); [|exact Hb].
  apply (for_all_octets (fun a => forallb (P a) octets)); assumption.
Qed.

Lemma base64_char_not_PAD (i : N) : base64_char i <> PAD.
Proof.
  unfold base64_char, PAD.
  destruct (N.ltb_spec i 26); [lia|].
  destruct (N.ltb_spec i 52); [lia|].
  destruct (N.ltb_spec i 62); [lia|].
  destruct (i =? 62); discriminate.
Qed.

Lemma base64_char_eqb_PAD (i : N) : (base64_char i =? PAD) = false.
Proof. apply N.eqb_neq, base64_char_not_PAD. Qed.

Lemma base64_char_in_alphabet (i : N) : isBase64Char (base64_char i) = true.
Proof.
  unfold base64_char.
  destruct (N.ltb_spec i 26).
  { unfold isBase64Char.
    rewrite (proj2 (N.leb_le 0x41 (0x41 + i))), (proj2 (N.leb_le (0x41 + i) 0x5A)) by lia.
    reflexivity. }
  destruct (N.ltb_spec i 52).
  { unfold isBase64Char.
    rewrite (proj2 (N.leb_le 0x61 (0x61 + (i - 26)))),
      (proj2 (N.leb_le (0x61 + (i - 26)) 0x7A)) by lia.
    rewrite orb_true_r. reflexivity. }
  destruct (N.ltb_spec i 62).
  { unfold isBase64Char.
    rewrite (proj2 (N.leb_le 0x30 (0x30 + (i - 52)))),
      (proj2 (N.leb_le (0x30 + (i - 52)) 0x39)) by lia.
    rewrite !orb_true_r. reflexivity. }
  destruct (i =? 62); reflexivity.
Qed.

(** On two octets: the first two characters give back the first octet, and
    the low four bits of the second sextet are the high four of the second
    octet. *)
Lemma sextets_first (a b : N) :
  a < 256 -> b < 256 ->
  let i1 := base64_index (base64_char (N.shiftr a 2)) in
  let i2 := base64_index (base64_char (N.lor (N.shiftl (N.land a 3) 4) (N.shiftr b 4))) in
  N.lor (N.shiftl i1 2) (N.shiftr i2 4) = a
  /\ N.land i2 15 = N.shiftr b 4
  /\ base64_index (base64_char (N.shiftl (N.land a 3) 4)) = N.shiftl (N.land a 3) 4.
Proof.
  intros Ha Hb. cbv zeta.
  pose proof (for_all_octet_pairs
    (fun a b =>
       let i1 := base64_index (base64_char (N.shiftr a 2)) in
       let i2 := base64_index (base64_char (N.lor (N.shiftl (N.land a 3) 4) (N.shiftr b 4))) in
       (N.lor (N.shiftl i1 2) (N.shiftr i2 4) =? a)
       && (N.land i2 15 =? N.shiftr b 4)
       && (base64_index (base64_char (N.shiftl (N.land a 3) 4)) =? N.shiftl (N.land a 3) 4))
    ltac:(vm_compute; reflexivity) a b Ha Hb) as Hc.
  cbv zeta in Hc. apply andb_prop in Hc as [Hc H3]. apply andb_prop in Hc as [H1 H2].
  apply N.eqb_eq in H1, H2, H3. auto.
Qed.

(** On two octets: the high four bits of the first, with the third
    character, give it back; the third and fourth characters give back the
    second. *)
Lemma sextets_second (b c : N) :
  b < 256 -> c < 256 ->
  let i3 := base64_index (base64_char (N.lor (N.shiftl (N.land b 15) 2) (N.shiftr c 6))) in
  let i4 := base64_index (base64_char (N.land c 63)) in
  N.lor (N.shiftl (N.shiftr b 4) 4) (N.shiftr i3 2) = b
  /\ N.lor (N.shiftl (N.land i3 3) 6) i4 = c
  /\ N.lor (N.shiftl (N.shiftr b 4) 4)
       (N.shiftr (base64_index (base64_char (N.shiftl (N.land b 15) 2))) 2) = b.
Proof.
  intros Hb Hc. cbv zeta.
  pose proof (for_all_octet_pairs
    (fun b c =>
       let i3 := base64_index (base64_char (N.lor (N.shiftl (N.land b 15) 2) (N.shiftr c 6))) in
       let i4 := base64_index (base64_char (N.land c 63)) in
       (N.lor (N.shiftl (N.shiftr b 4) 4) (N.shiftr i3 2) =? b)
       && (N.lor (N.shiftl (N.land i3 3) 6) i4 =? c)
       && (N.lor (N.shiftl (N.shiftr b 4) 4)
             (N.shiftr (base64_index (base64_char (N.shiftl (N.land b 15) 2))) 2) =? b))
    ltac:(vm_compute; reflexivity) b c Hb Hc) as Hx.
  cbv zeta in Hx. apply andb_prop in Hx as [Hx H3]. apply andb_prop in Hx as [H1 H2].
  apply N.eqb_eq in H1, H2, H3. auto.
Qed.

Lemma list_ind3 {A} (P : list A -> Prop) :
  P [] -> (forall a, P [a]) -> (forall a b, P [a; b]) ->
  (forall a b c r, P r -> P (a :: b :: c :: r)) ->
  forall l, P l.
Proof.
  intros H0 H1 H2 H3 l.
  assert (Hn : forall n l, (length l <= n)%nat -> P l).
  { induction n as [|n IH]; intros [|a [|b [|c r]]] Hl; simpl in Hl; auto; try lia.
    apply H3, IH. lia. }
  apply (Hn (length l)). lia.
Qed.

Lemma base64_octets_group (a b c : N) (r : list N) :
  base64_octets (a :: b :: c :: r)
  = base64_char (N.shiftr a 2)
    :: base64_char (N.lor (N.shiftl (N.land a 3) 4) (N.shiftr b 4))
    :: base64_char (N.lor (N.shiftl (N.land b 15) 2) (N.shiftr c 6))
    :: base64_char (N.land c 63)
    :: base64_octets r.
Proof. reflexivity. Qed.

Lemma base64_decode_octets (bs : list N) :
  Forall (fun a => a < 256) bs -> base64_decode (base64_octets bs) = bs.
Proof.
  induction bs as [|a|a b|a b c r IH] using list_ind3; intros Hbs.
  - reflexivity.
  - apply Forall_cons_iff in Hbs as [Ha _].
    destruct (sextets_first a 0 Ha ltac:(lia)) as (H1 & _ & H3).
    cbn [base64_octets base64_decode]. rewrite N.eqb_refl.
    change (N.shiftr 0 4) with 0 in H1. rewrite N.lor_0_r in H1.
    rewrite H1. reflexivity.
  - apply Forall_cons_iff in Hbs as [Ha Hbs]. apply Forall_cons_iff in Hbs as [Hb _].
    destruct (sextets_first a b Ha Hb) as (H1 & H2 & _).
    destruct (sextets_second b 0 Hb ltac:(lia)) as (_ & _ & H5).
    cbn [base64_octets base64_decode].
    rewrite base64_char_eqb_PAD, N.eqb_refl, H1, H2, H5. reflexivity.
  - apply Forall_cons_iff in Hbs as [Ha Hbs]. apply Forall_cons_iff in Hbs as [Hb Hbs].
    apply Forall_cons_iff in Hbs as [Hc Hr].
    destruct (sextets_first a b Ha Hb) as (H1 & H2 & _).
    destruct (sextets_second b c Hb Hc) as (H3 & H4 & _).
    rewrite base64_octets_group. cbn [base64_decode].
    rewrite !base64_char_eqb_PAD, H1, H2, H3, H4, (IH Hr). reflexivity.
Qed.

Lemma base64_octets_length (bs : list N) :
  length (base64_octets bs) = (4 * ((length bs + 2) / 3))%nat.
Proof.
  induction bs as [|a|a b|a b c r IH] using list_ind3; try reflexivity.
  rewrite base64_octets_group. cbn [length]. rewrite IH.
  replace (S (S (S (length r))) + 2)%nat with (length r + 2 + 1 * 3)%nat by lia.
  rewrite Nat.div_add by lia. lia.
Qed.

Lemma base64_octets_alphabet (bs : list N) :
  Forall (fun c => isBase64Char c = true \/ c = PAD) (base64_octets bs).
Proof.
  induction bs as [|a|a b|a b c r IH] using list_ind3;
    [cbn [base64_octets]..|rewrite base64_octets_group];
    repeat (constructor; [first [left; apply base64_char_in_alphabet | right; reflexivity]|]);
    first [constructor | exact IH].
Qed.

Lemma to_N_octets (buffer : list byte) :
  Forall (fun a => a < 256) (map Byte.to_N buffer).
Proof.
  apply Forall_forall. intros a Ha. apply list_elem_of_In, in_map_iff in Ha as (b & <- & _).
  pose proof (Byte.to_N_bounded b). lia.
Qed.

Lemma to_N_map_inj (buffer buffer' : list byte) :
  map Byte.to_N buffer = map Byte.to_N buffer' -> buffer = buffer'.
Proof.
  revert buffer'. induction buffer as [|b r IH]; intros [|b' r'] E; try discriminate.
  - reflexivity.
  - cbn [map] in E. injection E as Hb Hr. f_equal; [|apply IH, Hr].
    pose proof (Byte.of_to_N b) as E1. pose proof (Byte.of_to_N b') as E2.
    rewrite Hb in E1. congruence.
Qed.

(** ** The JSON quoting loses nothing *)

Lemma for_all_from (P : N -> bool) (lo : N) (k : nat) :
  forallb P (map (fun n => lo + N.of_nat n) (seq 0 k)) = true ->
  forall c, lo <= c < lo + N.of_nat k -> P c = true.
Proof.
  intros Hall c Hc. rewrite forallb_forall in Hall. apply Hall.
  replace c with (lo + N.of_nat (N.to_nat (c - lo))) by lia.
  apply (in_map (fun n => lo + N.of_nat n)), in_seq. lia.
Qed.

Lemma unquote_UnicodeEscape (c : N) (r : list N) :
  unicode_read_back c = true ->
  unquote_units (UnicodeEscape c ++ r) = c :: unquote_units r.
Proof.
  unfold unicode_read_back, UnicodeEscape.
  change (lit "\u" ++ ?l) with (0x5C :: 0x75 :: l).
  cbn [Datatypes.app]. intros Hc. apply andb_prop in Hc as [_ Hc]. apply N.eqb_eq in Hc.
  cbn [unquote_units]. change (0x5C =? 0x5C) with true. change (0x75 =? 0x75) with true.
  cbv iota. rewrite Hc. reflexivity.
Qed.

Lemma unicode_read_back_control (c : N) : c < 0x20 -> unicode_read_back c = true.
Proof.
  intros Hc. apply (for_all_from unicode_read_back 0 32); [vm_compute; reflexivity | lia].
Qed.

Lemma unicode_read_back_surrogate (c : N) :
  0xD800 <= c <= 0xDFFF -> unicode_read_back c = true.
Proof.
  intros Hc. apply (for_all_from unicode_read_back 0xD800 2048); [vm_compute; reflexivity | lia].
Qed.

Lemma unquote_plain (c : N) (r : list N) :
  c <> 0x5C -> unquote_units (c :: r) = c :: unquote_units r.
Proof.
  intros Hc. cbn [unquote_units]. rewrite (proj2 (N.eqb_neq _ _) Hc). reflexivity.
Qed.

Lemma surrogate_range (c lo hi : N) :
  (lo <=? c) && (c <=? hi) = true -> lo <= c <= hi.
Proof.
  intros Hc. apply andb_prop in Hc as [Hlo Hhi].
  apply N.leb_le in Hlo, Hhi. lia.
Qed.

Lemma unquote_quote_units (s : list N) : unquote_units (quote_units s) = s.
Proof.
  assert (Hn : forall n s, (length s <= n)%nat -> unquote_units (quote_units s) = s).
  { clear s. induction n as [|n IH]; intros [|c r] Hl; simpl in Hl; try reflexivity; try lia.
    assert (IHr : unquote_units (quote_units r) = r) by (apply IH; lia).
    cbn [quote_units].
    destruct (N.eqb_spec c 0x08) as [->|H08]; [cbn; rewrite IHr; reflexivity|].
    destruct (N.eqb_spec c 0x09) as [->|H09]; [cbn; rewrite IHr; reflexivity|].
    destruct (N.eqb_spec c 0x0A) as [->|H0A]; [cbn; rewrite IHr; reflexivity|].
    destruct (N.eqb_spec c 0x0C) as [->|H0C]; [cbn; rewrite IHr; reflexivity|].
    destruct (N.eqb_spec c 0x0D) as [->|H0D]; [cbn; rewrite IHr; reflexivity|].
    destruct (N.eqb_spec c 0x22) as [->|H22]; [cbn; rewrite IHr; reflexivity|].
    destruct (N.eqb_spec c 0x5C) as [->|H5C]; [cbn; rewrite IHr; reflexivity|].
    destruct (N.ltb_spec c 0x20) as [Hlt|Hge].
    { rewrite (unquote_UnicodeEscape c _ (unicode_read_back_control c Hlt)), IHr.
      reflexivity. }
    destruct (isLeadingSurrogate c) eqn:HL.
    - apply surrogate_range in HL.
      destruct r as [|d r'].
      + rewrite <- (app_nil_r (UnicodeEscape c)).
        rewrite (unquote_UnicodeEscape c [] (unicode_read_back_surrogate c ltac:(lia))).
        reflexivity.
      + destruct (isTrailingSurrogate d) eqn:HTd.
        * apply surrogate_range in HTd.
          rewrite (unquote_plain c) by lia. rewrite (unquote_plain d) by lia.
          rewrite (IH r') by (simpl in Hl; lia). reflexivity.
        * rewrite (unquote_UnicodeEscape c _ (unicode_read_back_surrogate c ltac:(lia))), IHr.
          reflexivity.
    - destruct (isTrailingSurrogate c) eqn:HT.
      + apply surrogate_range in HT.
        rewrite (unquote_UnicodeEscape c _ (unicode_read_back_surrogate c ltac:(lia))), IHr.
        reflexivity.
      + rewrite (unquote_plain c) by exact H5C. rewrite IHr. reflexivity. }
  apply (Hn (length s)). lia.
Qed.

Lemma quote_units_inj (s t : list N) : quote_units s = quote_units t -> s = t.
Proof.
  intros E. rewrite <- (unquote_quote_units s), <- (unquote_quote_units t), E. reflexivity.
Qed.

Lemma JSON_stringify_inputs_inj (s t : list N) :
  JSON_stringify_inputs s = JSON_stringify_inputs t -> s = t.
Proof.
  unfold JSON_stringify_inputs. intros E.
  do 3 apply app_inv_head in E. apply app_inv_tail in E.
  unfold QuoteJSONString in E. apply app_inv_head, app_inv_tail in E.
  exact (quote_units_inj s t E).
Qed.

(** ** Conversions and reads *)

Section Gateway.

Context {number : Type} `{JsNumber number} `{JsTypeError}.

Implicit Types (up : @upstream number) (prompt style req_body : @jsval number).

Lemma bind_lift_Normal {A B} (a : A) (k : A -> @Eff number B) :
  bind (lift (Normal a)) k = k a.
Proof. unfold bind, lift. destruct (k a). reflexivity. Qed.

Lemma bind_lift_Abrupt {A B} e (k : A -> @Eff number B) :
  bind (lift (Abrupt e)) k = (Abrupt e, []).
Proof. reflexivity. Qed.

Lemma bind_console_log_Normal {B} (line : list N) (k : unit -> @Eff number B) :
  bind (console_log (Normal line)) k = k tt.
Proof. unfold console_log, bind, lift, ret. destruct (k tt). reflexivity. Qed.

Lemma bind_console_log_Abrupt {B} e (k : unit -> @Eff number B) :
  bind (console_log (Abrupt e)) k = (Abrupt e, []).
Proof. reflexivity. Qed.

Lemma jsval_nested_ind (P : @jsval number -> Prop) :
  P JUndefined -> P JNull -> (forall b, P (JBool b)) -> (forall n, P (JNum n)) ->
  (forall s, P (JStr s)) -> (forall l, Forall P l -> P (JArr l)) ->
  (forall props, P (JObj props)) -> forall v, P v.
Proof.
  intros Hu Hn Hb Hnum Hs Ha Ho. fix IH 1.
  intros [ | | b | n | s | l | props];
    [exact Hu | exact Hn | apply Hb | apply Hnum | apply Hs | | apply Ho].
  apply Ha. induction l as [|x l IHl]; constructor; [apply IH | exact IHl].
Qed.

Lemma ToString_JStr (s : list N) : ToString (@JStr number s) = Normal s.
Proof. reflexivity. Qed.

(** The conversion of an array, element by element. *)
Lemma ToString_JArr_cons (x : @jsval number) r :
  ToString (JArr (x :: r))
  = match (match x with JUndefined | JNull => Normal [] | _ => ToString x end) with
    | Abrupt e => Abrupt e
    | Normal first =>
        match r with
        | [] => Normal first
        | _ :: _ =>
            match ToString (JArr r) with
            | Abrupt e => Abrupt e
            | Normal rest => Normal (first ++ lit "," ++ rest)
            end
        end
    end.
Proof. reflexivity. Qed.

(** What a conversion throws is the engine's [TypeError]. *)
Lemma ToString_throws (v : @jsval number) e :
  ToString v = Abrupt e -> e = TypeError cannot_convert.
Proof.
  revert e. induction v as [ | | b | n | s | l IH | props] using jsval_nested_ind;
    intros e; try discriminate.
  - destruct b; discriminate.
  - induction IH as [|x r Hx _ IHr]; [discriminate|].
    rewrite ToString_JArr_cons.
    destruct (match x with JUndefined | JNull => Normal [] | _ => ToString x end)
      as [first|e0] eqn:Ex.
    + destruct r as [|y r]; [discriminate|].
      destruct (ToString (JArr (y :: r))) as [rest|e1]; [discriminate|].
      intros [= <-]. apply IHr. reflexivity.
    + intros [= <-]. apply Hx. destruct x; first [discriminate Ex | exact Ex].
  - cbn [ToString]. destruct (hasOwnProperty props "toString"); [|discriminate].
    intros [= <-]. reflexivity.
Qed.

(** An object with an own property [toString] cannot be converted, nor an
    array that holds one. *)
Lemma ToString_own_toString (props : list (list N * @jsval number)) :
  hasOwnProperty props "toString" = true ->
  ToString (JObj props) = Abrupt (TypeError cannot_convert)
  /\ forall before after,
       exists e, ToString (JArr (before ++ JObj props :: after)) = Abrupt e.
Proof.
  intros Hown. assert (E : ToString (JObj props) = Abrupt (TypeError cannot_convert)).
  { cbn [ToString]. rewrite Hown. reflexivity. }
  split; [exact E|]. intros before after.
  induction before as [|x before [e IH]].
  - cbn [Datatypes.app]. rewrite ToString_JArr_cons, E. eauto.
  - cbn [Datatypes.app]. rewrite ToString_JArr_cons.
    destruct (match x with JUndefined | JNull => Normal [] | _ => ToString x end); [|eauto].
    destruct (before ++ JObj props :: after) eqn:El.
    + destruct before; discriminate El.
    + rewrite IH. eauto.
Qed.

Lemma Get_message (m : list N) : Get (@TypeError number m) "message" = Normal (JStr m).
Proof. reflexivity. Qed.

(** A body that has one of its properties read has them all read. *)
Lemma Get_present req_body key v key' :
  Get req_body key = Normal v -> exists v', Get req_body key' = Normal v'.
Proof. destruct req_body; try discriminate; intros _; eexists; reflexivity. Qed.

(** Only [undefined] and [null] refuse a read. *)
Lemma Get_absent req_body key e :
  Get req_body key = Abrupt e ->
  exists is_null : bool,
    req_body = (if is_null then JNull else JUndefined)
    /\ forall key', Get req_body key' = Abrupt (TypeError (cannot_read is_null key')).
Proof.
  destruct req_body; try discriminate; intros _;
    [exists false | exists true]; split; reflexivity.
Qed.

(** ** The requesters call the model once, when their template can be
    evaluated *)

Lemma getEnhancedPrompt_eq up prompt style promptText styleText :
  ToString prompt = Normal promptText ->
  ToString style = Normal styleText ->
  getEnhancedPrompt up prompt style
  = (Normal (enhancedPrompt_of up promptText styleText),
     [GenerateContent (enhancement_systemPrompt promptText styleText)]).
Proof.
  intros Hp Hs. unfold getEnhancedPrompt. rewrite Hp, Hs.
  rewrite !bind_lift_Normal.
  unfold enhancedPrompt_of, call_generateContent, try_catch, bind, ret.
  destruct (generateContent_text up (enhancement_systemPrompt promptText styleText));
    reflexivity.
Qed.

(** When the prompt or the style cannot be converted, no template can be
    evaluated, neither the one of the [try] block nor the one of the [catch]
    block: the requester rejects, and has called nothing. *)
Lemma getEnhancedPrompt_rejects up prompt style :
  (exists e, ToString prompt = Abrupt e) \/ (exists e, ToString style = Abrupt e) ->
  exists e, getEnhancedPrompt up prompt style = (Abrupt e, []).
Proof.
  intros Hthrow. unfold getEnhancedPrompt.
  destruct (ToString prompt) as [promptText|ep] eqn:Hp;
    destruct (ToString style) as [styleText|es] eqn:Hs.
  - destruct Hthrow as [[e He] | [e He]]; discriminate He.
  - exists es. reflexivity.
  - exists ep. reflexivity.
  - exists ep. reflexivity.
Qed.

Lemma getMermaidCode_eq up prompt promptText :
  ToString prompt = Normal promptText ->
  getMermaidCode up prompt
  = (Normal (mermaidCode_of up promptText),
     [GenerateContent (mermaid_systemPrompt promptText)]).
Proof.
  intros Hp. unfold getMermaidCode. rewrite Hp, bind_lift_Normal.
  unfold mermaidCode_of, call_generateContent, try_catch, bind, ret.
  destruct (generateContent_text up (mermaid_systemPrompt promptText)); reflexivity.
Qed.

(** ** The paths of [POST /generate] *)

(** With a body to read, the handler goes by the truthiness of the prompt,
    the credential, and whether prompt and style can be converted. *)
Lemma post_generate_eq key up req_body prompt style :
  Get req_body "prompt" = Normal prompt ->
  Get req_body "style" = Normal style ->
  post_generate key up req_body
  = if negb (ToBoolean prompt) then
      (Normal (res_json 400 (obj [("error", str "Prompt is required")])), [])
    else if key_missing key then
      (Normal (res_json 500 (obj [("error", str "HF Key missing")])), [])
    else
      match ToString prompt, ToString (or_else style (str "realistic")) with
      | Normal promptText, Normal styleText =>
          let enhancedPrompt := enhancedPrompt_of up promptText styleText in
          let init := hf_request key enhancedPrompt in
          (match fetch up MODEL_URL init with
           | Normal hfResponse =>
               if ok hfResponse then
                 match arrayBuffer hfResponse with
                 | Normal buffer =>
                     Normal (res_json 200
                       (obj [("enhancedPrompt", JStr enhancedPrompt);
                             ("image", JStr (lit "data:image/jpeg;base64," ++ toString_base64 buffer))]))
                 | Abrupt _ => Normal (res_json 500 (obj [("error", str "Internal Server Error")]))
                 end
               else
                 Normal (res_json (status hfResponse)
                   (obj [("error", str "HF API failed"); ("details", json_or_empty hfResponse)]))
           | Abrupt _ => Normal (res_json 500 (obj [("error", str "Internal Server Error")]))
           end,
           [GenerateContent (enhancement_systemPrompt promptText styleText); Fetch MODEL_URL init])
      | _, _ => (Normal (res_json 500 (obj [("error", str "Internal Server Error")])), [])
      end.
Proof.
  intros Hprompt Hstyle. unfold post_generate.
  rewrite Hprompt, bind_lift_Normal, Hstyle, bind_lift_Normal.
  destruct (negb (ToBoolean prompt)); [reflexivity|].
  destruct (key_missing key); [reflexivity|].
  destruct (ToString prompt) as [promptText|ep] eqn:Hp.
  2:{ rewrite bind_console_log_Abrupt. destruct (ToString _); reflexivity. }
  rewrite bind_console_log_Normal.
  destruct (ToString (or_else style (str "realistic"))) as [styleText|es] eqn:Hs.
  2:{ destruct (getEnhancedPrompt_rejects up prompt (or_else style (str "realistic")))
        as [e He]; [right; eauto|].
      rewrite He. reflexivity. }
  rewrite (getEnhancedPrompt_eq up _ _ _ _ Hp Hs). cbv zeta.
  unfold bind at 1. rewrite bind_console_log_Normal.
  unfold call_fetch, bind at 1.
  destruct (fetch up MODEL_URL _) as [r|e]; [|reflexivity].
  destruct (ok r); cbn [negb]; [|reflexivity].
  unfold lift, bind, try_catch, ret.
  destruct (arrayBuffer r); reflexivity.
Qed.

(** Without a body to read, the destructuring throws into the [catch]
    block. *)
Lemma post_generate_no_body key up req_body e :
  Get req_body "prompt" = Abrupt e ->
  post_generate key up req_body
  = (Normal (res_json 500 (obj [("error", str "Internal Server Error")])), []).
Proof. intros Hg. unfold post_generate. rewrite Hg. reflexivity. Qed.

Lemma post_generate_no_prompt key up req_body prompt :
  Get req_body "prompt" = Normal prompt ->
  ToBoolean prompt = false ->
  post_generate key up req_body
  = (Normal (res_json 400 (obj [("error", str "Prompt is required")])), []).
Proof.
  intros Hg Hp. destruct (Get_present req_body "prompt" prompt "style" Hg) as [style Hs].
  rewrite (post_generate_eq key up req_body prompt style Hg Hs), Hp. reflexivity.
Qed.

Lemma post_generate_no_key key up req_body prompt :
  Get req_body "prompt" = Normal prompt ->
  ToBoolean prompt = true ->
  key_missing key = true ->
  post_generate key up req_body
  = (Normal (res_json 500 (obj [("error", str "HF Key missing")])), []).
Proof.
  intros Hg Hp Hk. destruct (Get_present req_body "prompt" prompt "style" Hg) as [style Hs].
  rewrite (post_generate_eq key up req_body prompt style Hg Hs), Hp, Hk. reflexivity.
Qed.

(** A prompt or a style that cannot be converted ends in the [catch] block
    before anything is called: the prompt at the template of line 835, the
    style in the requester. *)
Lemma post_generate_unprintable key up req_body prompt style :
  Get req_body "prompt" = Normal prompt ->
  Get req_body "style" = Normal style ->
  ToBoolean prompt = true ->
  key_missing key = false ->
  (exists e, ToString prompt = Abrupt e)
  \/ (exists e, ToString (or_else style (str "realistic")) = Abrupt e) ->
  post_generate key up req_body
  = (Normal (res_json 500 (obj [("error", str "Internal Server Error")])), []).
Proof.
  intros Hg Hs Hp Hk Hthrow.
  rewrite (post_generate_eq key up req_body prompt style Hg Hs), Hp, Hk. cbn [negb].
  destruct Hthrow as [[e He] | [e He]]; rewrite He; [reflexivity|].
  destruct (ToString prompt); reflexivity.
Qed.

(** Past the guards, and with a prompt and a style that can be converted,
    the handler calls the requester, then the image model, and answers from
    what the image model sent. *)
Lemma post_generate_calls key up req_body prompt style promptText styleText :
  Get req_body "prompt" = Normal prompt ->
  Get req_body "style" = Normal style ->
  ToBoolean prompt = true ->
  key_missing key = false ->
  ToString prompt = Normal promptText ->
  ToString (or_else style (str "realistic")) = Normal styleText ->
  let enhancedPrompt := enhancedPrompt_of up promptText styleText in
  let init := hf_request key enhancedPrompt in
  post_generate key up req_body
  = (match fetch up MODEL_URL init with
     | Normal hfResponse =>
         if ok hfResponse then
           match arrayBuffer hfResponse with
           | Normal buffer =>
               Normal (res_json 200
                 (obj [("enhancedPrompt", JStr enhancedPrompt);
                       ("image", JStr (lit "data:image/jpeg;base64," ++ toString_base64 buffer))]))
           | Abrupt _ => Normal (res_json 500 (obj [("error", str "Internal Server Error")]))
           end
         else
           Normal (res_json (status hfResponse)
             (obj [("error", str "HF API failed"); ("details", json_or_empty hfResponse)]))
     | Abrupt _ => Normal (res_json 500 (obj [("error", str "Internal Server Error")]))
     end,
     [GenerateContent (enhancement_systemPrompt promptText styleText); Fetch MODEL_URL init]).
Proof.
  intros Hg Hs Hp Hk Hpt Hst.
  rewrite (post_generate_eq key up req_body prompt style Hg Hs), Hp, Hk, Hpt, Hst.
  reflexivity.
Qed.

(** A request that causes an upstream call has passed the two guards with a
    prompt and a style that can be converted. *)
Lemma post_generate_called key up req_body :
  snd (post_generate key up req_body) <> [] ->
  exists prompt style promptText styleText,
    Get req_body "prompt" = Normal prompt
    /\ Get req_body "style" = Normal style
    /\ ToBoolean prompt = true
    /\ key_missing key = false
    /\ ToString prompt = Normal promptText
    /\ ToString (or_else style (str "realistic")) = Normal styleText.
Proof.
  intros Hcalls.
  destruct (Get req_body "prompt") as [prompt|e] eqn:Hg.
  2:{ rewrite (post_generate_no_body key up req_body e Hg) in Hcalls. contradiction. }
  destruct (Get_present req_body "prompt" prompt "style" Hg) as [style Hs].
  destruct (ToBoolean prompt) eqn:Hp.
  2:{ rewrite (post_generate_no_prompt key up req_body prompt Hg Hp) in Hcalls. contradiction. }
  destruct (key_missing key) eqn:Hk.
  { rewrite (post_generate_no_key key up req_body prompt Hg Hp Hk) in Hcalls. contradiction. }
  destruct (ToString prompt) as [promptText|ep] eqn:Hpt.
  2:{ rewrite (post_generate_unprintable key up req_body prompt style Hg Hs Hp Hk) in Hcalls;
        [contradiction | left; eauto]. }
  destruct (ToString (or_else style (str "realistic"))) as [styleText|es] eqn:Hst.
  2:{ rewrite (post_generate_unprintable key up req_body prompt style Hg Hs Hp Hk) in Hcalls;
        [contradiction | right; eauto]. }
  exists prompt, style, promptText, styleText. auto 10.
Qed.

(** ** The paths of [POST /generate-diagram] *)

Lemma post_generate_diagram_eq up req_body prompt :
  Get req_body "prompt" = Normal prompt ->
  post_generate_diagram up req_body
  = if negb (ToBoolean prompt) then
      (Normal (res_json 400 (obj [("error", str "Prompt is required")])), [])
    else
      match ToString prompt with
      | Normal promptText =>
          (Normal (res_json 200 (obj [("mermaidCode", JStr (mermaidCode_of up promptText))])),
           [GenerateContent (mermaid_systemPrompt promptText)])
      | Abrupt _ =>
          (Normal (res_json 500 (obj [("error", str "Failed to generate diagram");
                                      ("details", JStr cannot_convert)])), [])
      end.
Proof.
  intros Hg. unfold post_generate_diagram. rewrite Hg, bind_lift_Normal.
  destruct (negb (ToBoolean prompt)); [reflexivity|].
  destruct (ToString prompt) as [promptText|e] eqn:Hp.
  - rewrite bind_console_log_Normal, (getMermaidCode_eq up prompt promptText Hp). reflexivity.
  - rewrite bind_console_log_Abrupt. rewrite (ToString_throws prompt e Hp). reflexivity.
Qed.

(** Without a body to read, the destructuring throws into the [catch]
    block, which sends the message of the [TypeError]. *)
Lemma post_generate_diagram_no_body up req_body e :
  Get req_body "prompt" = Abrupt e ->
  exists is_null : bool,
    req_body = (if is_null then JNull else JUndefined)
    /\ post_generate_diagram up req_body
       = (Normal (res_json 500 (obj [("error", str "Failed to generate diagram");
                                     ("details", JStr (cannot_read is_null "prompt"))])), []).
Proof.
  intros Hg. destruct (Get_absent req_body "prompt" e Hg) as (is_null & Hb & Hall).
  exists is_null. split; [exact Hb|].
  unfold post_generate_diagram. rewrite (Hall "prompt"). reflexivity.
Qed.

Lemma post_generate_diagram_no_prompt up req_body prompt :
  Get req_body "prompt" = Normal prompt ->
  ToBoolean prompt = false ->
  post_generate_diagram up req_body
  = (Normal (res_json 400 (obj [("error", str "Prompt is required")])), []).
Proof.
  intros Hg Hp. rewrite (post_generate_diagram_eq up req_body prompt Hg), Hp. reflexivity.
Qed.

Lemma post_generate_diagram_calls up req_body prompt promptText :
  Get req_body "prompt" = Normal prompt ->
  ToBoolean prompt = true ->
  ToString prompt = Normal promptText ->
  post_generate_diagram up req_body
  = (Normal (res_json 200 (obj [("mermaidCode", JStr (mermaidCode_of up promptText))])),
     [GenerateContent (mermaid_systemPrompt promptText)]).
Proof.
  intros Hg Hp Hpt.
  rewrite (post_generate_diagram_eq up req_body prompt Hg), Hp, Hpt. reflexivity.
Qed.

Lemma post_generate_diagram_unprintable up req_body prompt e :
  Get req_body "prompt" = Normal prompt ->
  ToBoolean prompt = true ->
  ToString prompt = Abrupt e ->
  post_generate_diagram up req_body
  = (Normal (res_json 500 (obj [("error", str "Failed to generate diagram");
                                ("details", JStr cannot_convert)])), []).
Proof.
  intros Hg Hp Hpt.
  rewrite (post_generate_diagram_eq up req_body prompt Hg), Hp, Hpt. reflexivity.
Qed.

(** A prompt that is a string with something in it passes the guard and
    can be converted. *)
Lemma string_prompt_accepted (s : list N) :
  s <> [] -> ToBoolean (@JStr number s) = true /\ ToString (@JStr number s) = Normal s.
Proof. destruct s; [contradiction | split; reflexivity]. Qed.

(** The body of the request to the image model, written out. *)
Lemma hf_request_body key (enhancedPrompt : list N) :
  body (hf_request key enhancedPrompt)
  = lit "{" ++ [DQUOTE] ++ lit "inputs" ++ [DQUOTE] ++ lit ":"
    ++ [DQUOTE] ++ quote_units enhancedPrompt ++ [DQUOTE] ++ lit "}".
Proof.
  cbn [body hf_request]. unfold JSON_stringify_inputs, QuoteJSONString.
  change (quote_units (lit "inputs")) with (lit "inputs").
  rewrite <- !app_assoc. reflexivity.
Qed.

(** ** Markers in a row *)

Lemma startsWith_app_true (p q s : list N) :
  startsWith p s = true -> startsWith p (s ++ q) = true.
Proof.
  unfold startsWith. destruct (strip_prefix p s) as [r|] eqn:E; [|discriminate].
  intros _. apply strip_prefix_Some in E. subst s.
  rewrite <- app_assoc, strip_prefix_app. reflexivity.
Qed.

Lemma endsWith_app_true (p q s : list N) :
  endsWith p s = true -> endsWith p (q ++ s) = true.
Proof.
  unfold endsWith. destruct (strip_suffix p s) as [r|] eqn:E; [|discriminate].
  intros _. apply strip_suffix_Some in E. subst s.
  rewrite app_assoc, strip_suffix_app. reflexivity.
Qed.

(** A replacement that changed nothing found no marker. *)
Lemma replace_open_fixed (s : list N) :
  replace_open s = s -> startsWith fence s = false.
Proof.
  unfold replace_open, startsWith.
  destruct (strip_prefix fence s) as [r|] eqn:E; [|reflexivity].
  intros Efix. exfalso. apply strip_prefix_Some in E.
  destruct (skip_LF_split r) as (n & En & _).
  apply (f_equal (@length N)) in E. apply (f_equal (@length N)) in En.
  apply (f_equal (@length N)) in Efix.
  rewrite !length_app in *. cbn in E. lia.
Qed.

Lemma replace_close_fixed (s : list N) :
  replace_close s = s -> endsWith fence s = false.
Proof.
  unfold replace_close, endsWith.
  destruct (strip_suffix fence s) as [r|] eqn:E; [|reflexivity].
  intros Efix. exfalso. apply strip_suffix_Some in E.
  destruct (chop_LF_split r) as (n & En & _).
  apply (f_equal (@length N)) in E. apply (f_equal (@length N)) in En.
  apply (f_equal (@length N)) in Efix.
  rewrite !length_app in *. cbn in E. lia.
Qed.

(** A marker is left at the start only by a text that begins with two bare
    markers in a row, alone or behind a marker with the word mermaid. *)
Lemma strip_fences_leading_marker (s : list N) :
  startsWith fence (strip_fences s) = true ->
  existsb (fun o => startsWith o s) doubled_openings = true.
Proof.
  intros Hlead.
  destruct (replace_open_mermaid_split s) as (a & Ea & Ha).
  destruct (replace_open_split (replace_open_mermaid s)) as (b & Eb & Hb).
  destruct (replace_close_split (replace_open (replace_open_mermaid s))) as (q & Eq & _).
  fold (strip_fences s) in Eq.
  assert (H2 : startsWith fence (replace_open (replace_open_mermaid s)) = true).
  { rewrite Eq. apply startsWith_app_true, Hlead. }
  assert (Hb' : b = fence \/ b = fence ++ [LF]).
  { destruct Hb as [<- | [<- | [<- | []]]]; auto.
    symmetry in Eb. cbn [Datatypes.app] in Eb.
    pose proof (replace_open_fixed _ Eb) as Hnone.
    rewrite Eb in H2. congruence. }
  unfold startsWith in H2.
  destruct (strip_prefix fence (replace_open (replace_open_mermaid s))) as [rest|] eqn:E2;
    [|discriminate].
  apply strip_prefix_Some in E2.
  assert (Es : s = a ++ b ++ fence ++ rest).
  { rewrite Ea at 1. rewrite Eb at 1. rewrite E2 at 1. reflexivity. }
  clear -Es Ha Hb'. unfold doubled_openings.
  assert (Hsw : forall o, s = o ++ rest -> startsWith o s = true).
  { intros o E. apply startsWith_true. eauto. }
  destruct Ha as [<- | [<- | [<- | []]]]; destruct Hb' as [-> | ->];
    cbn [existsb].
  - rewrite (Hsw (fence ++ fence)); [reflexivity|].
    rewrite Es, <- !app_assoc. reflexivity.
  - rewrite (Hsw (fence ++ [LF] ++ fence)), orb_true_r; [reflexivity|].
    rewrite Es, <- !app_assoc. reflexivity.
  - rewrite (Hsw (fence ++ lit "mermaid" ++ fence ++ fence)), !orb_true_r; [reflexivity|].
    rewrite Es, <- !app_assoc. reflexivity.
  - rewrite (Hsw (fence ++ lit "mermaid" ++ fence ++ [LF] ++ fence)), !orb_true_r;
      [reflexivity|].
    rewrite Es, <- !app_assoc. reflexivity.
  - rewrite (Hsw (fence ++ lit "mermaid" ++ [LF] ++ fence ++ fence)), !orb_true_r;
      [reflexivity|].
    rewrite Es, <- !app_assoc. reflexivity.
  - rewrite (Hsw (fence ++ lit "mermaid" ++ [LF] ++ fence ++ [LF] ++ fence)), !orb_true_r;
      [reflexivity|].
    rewrite Es, <- !app_assoc. reflexivity.
Qed.

(** A marker is left at the end only by a text that ends with two markers
    in a row. *)
Lemma strip_fences_trailing_marker (s : list N) :
  endsWith fence (strip_fences s) = true ->
  existsb (fun c => endsWith c s) doubled_closings = true.
Proof.
  intros Htrail.
  destruct (replace_open_mermaid_split s) as (a & Ea & _).
  destruct (replace_open_split (replace_open_mermaid s)) as (b & Eb & _).
  destruct (replace_close_split (replace_open (replace_open_mermaid s))) as (q & Eq & Hq).
  fold (strip_fences s) in Eq.
  assert (Hq' : q = fence \/ q = LF :: fence).
  { closing_cases Hq; auto.
    symmetry in Eq. rewrite app_nil_r in Eq. unfold strip_fences in Eq, Htrail.
    pose proof (replace_close_fixed _ Eq) as Hnone.
    rewrite Eq in Htrail. congruence. }
  unfold endsWith in Htrail.
  destruct (strip_suffix fence (strip_fences s)) as [r|] eqn:E; [|discriminate].
  apply strip_suffix_Some in E.
  assert (Hs : s = (a ++ b ++ r) ++ fence ++ q).
  { rewrite Ea at 1. rewrite Eb at 1. rewrite Eq at 1. rewrite E at 1.
    rewrite <- !app_assoc. reflexivity. }
  unfold doubled_closings. cbn [existsb].
  destruct Hq' as [-> | ->].
  - assert (Hew : endsWith (fence ++ fence) s = true).
    { apply endsWith_true. exists (a ++ b ++ r). exact Hs. }
    rewrite Hew. reflexivity.
  - assert (Hew : endsWith (fence ++ [LF] ++ fence) s = true).
    { apply endsWith_true. exists (a ++ b ++ r). exact Hs. }
    rewrite Hew, orb_true_r. reflexivity.
Qed.

(** ** The gateway claims *)

(** C1 (amended).  Whenever the call [POST /generate] makes to the image
    model is answered with a non-success status, the endpoint answers with
    that same status, whatever it is, and with the body
    [{ error: 'HF API failed', details }], where [details] is the JSON the
    model sent, or [{}] when it sent none.  The call is the second and last
    of the request, and goes to the URL of the image model. *)
Theorem generate_passes_upstream_status key up req_body out calls url init hfResponse :
  post_generate key up req_body = (out, calls) ->
  In (Fetch url init) calls ->
  fetch up url init = Normal hfResponse ->
  ok hfResponse = false ->
  out = Normal (res_json (status hfResponse)
          (obj [("error", str "HF API failed");
                ("details", match json hfResponse with
                            | Normal errorData => errorData
                            | Abrupt _ => JObj []
                            end)]))
  /\ url = MODEL_URL
  /\ exists systemPrompt, calls = [GenerateContent systemPrompt; Fetch url init].
Proof.
  intros Hrun Hin Hf Hok.
  assert (Hcalled : snd (post_generate key up req_body) <> []).
  { rewrite Hrun. cbn [snd]. intros ->. contradiction. }
  destruct (post_generate_called key up req_body Hcalled)
    as (prompt & style & promptText & styleText & Hg & Hs & Hp & Hk & Hpt & Hst).
  rewrite (post_generate_calls key up req_body prompt style promptText styleText
             Hg Hs Hp Hk Hpt Hst) in Hrun.
  cbv zeta in Hrun. injection Hrun as Hout <-.
  destruct Hin as [E | [E | []]]; [discriminate E|]. injection E as <- <-.
  rewrite Hf, Hok in Hout. subst out.
  split; [reflexivity|]. split; [reflexivity|]. eexists. reflexivity.
Qed.

(** C2 (amended).  A request to [POST /generate] or [POST /generate-diagram]
    that has a body, and whose prompt is missing or empty (any falsy value),
    is answered with 400, and no upstream call is issued.  A prompt of
    whitespace only is not taken for a missing one: the diagram endpoint
    answers it with 200 after one model call, and [POST /generate] never
    answers it with the 400 of the guard. *)
Theorem missing_prompt_rejected key up req_body prompt :
  Get req_body "prompt" = Normal prompt ->
  (ToBoolean prompt = false ->
   post_generate key up req_body
   = (Normal (res_json 400 (obj [("error", str "Prompt is required")])), [])
   /\ post_generate_diagram up req_body
      = (Normal (res_json 400 (obj [("error", str "Prompt is required")])), []))
  /\ (forall blanks : list N,
        prompt = JStr blanks -> blanks <> [] ->
        Forall (fun c => isWhiteSpace c = true) blanks ->
        post_generate_diagram up req_body
        = (Normal (res_json 200 (obj [("mermaidCode", JStr (mermaidCode_of up blanks))])),
           [GenerateContent (mermaid_systemPrompt blanks)])
        /\ fst (post_generate key up req_body)
           <> Normal (res_json 400 (obj [("error", str "Prompt is required")]))
        /\ (key_missing key = false ->
            forall styleText,
              (exists style, Get req_body "style" = Normal style
                 /\ ToString (or_else style (str "realistic")) = Normal styleText) ->
              exists calls,
                snd (post_generate key up req_body)
                = GenerateContent (enhancement_systemPrompt blanks styleText) :: calls)).
Proof.
  intros Hg. split.
  - intros Hp. split.
    + apply (post_generate_no_prompt key up req_body prompt Hg Hp).
    + apply (post_generate_diagram_no_prompt up req_body prompt Hg Hp).
  - intros blanks -> Hne _.
    destruct (string_prompt_accepted blanks Hne) as [Hp Hpt].
    split; [apply (post_generate_diagram_calls up req_body _ blanks Hg Hp Hpt)|].
    destruct (Get_present req_body "prompt" _ "style" Hg) as [style Hs].
    split.
    + rewrite (post_generate_eq key up req_body _ style Hg Hs), Hp, Hpt. cbn [negb].
      destruct (key_missing key); [discriminate|].
      destruct (ToString (or_else style (str "realistic"))); [|discriminate].
      cbv zeta. cbn [fst].
      destruct (fetch up MODEL_URL _) as [r|e]; [|discriminate].
      destruct (ok r); [destruct (arrayBuffer r); discriminate|].
      intros [= _ E].
    + intros Hk styleText (style' & Hs' & Hst). rewrite Hs in Hs'. injection Hs' as <-.
      rewrite (post_generate_calls key up req_body _ style blanks styleText Hg Hs Hp Hk Hpt Hst).
      cbv zeta. eauto.
Qed.

(** C3 (amended).  The text the diagram endpoint returns has no marker at
    its start unless the trimmed model text begins with two opening markers
    in a row, and none at its end unless the trimmed model text ends with
    two closing markers in a row.  A text with one marker at an end, after a
    sentence or not, is covered, as is a text with none. *)
Theorem diagram_single_fence_layer_removed up req_body prompt promptText text :
  Get req_body "prompt" = Normal prompt ->
  ToBoolean prompt = true ->
  ToString prompt = Normal promptText ->
  generateContent_text up (mermaid_systemPrompt promptText) = Normal text ->
  exists mermaidCode,
    post_generate_diagram up req_body
    = (Normal (res_json 200 (obj [("mermaidCode", JStr mermaidCode)])),
       [GenerateContent (mermaid_systemPrompt promptText)])
    /\ mermaidCode = strip_fences (trim text)
    /\ (existsb (fun o => startsWith o (trim text)) doubled_openings = false ->
        startsWith fence mermaidCode = false)
    /\ (existsb (fun c => endsWith c (trim text)) doubled_closings = false ->
        endsWith fence mermaidCode = false).
Proof.
  intros Hg Hp Hpt Hgen.
  exists (strip_fences (trim text)). split; [|split; [reflexivity|split]].
  - rewrite (post_generate_diagram_calls up req_body prompt promptText Hg Hp Hpt).
    unfold mermaidCode_of. rewrite Hgen. reflexivity.
  - intros Hnone. destruct (startsWith fence (strip_fences (trim text))) eqn:E; [|reflexivity].
    rewrite (strip_fences_leading_marker _ E) in Hnone. discriminate Hnone.
  - intros Hnone. destruct (endsWith fence (strip_fences (trim text))) eqn:E; [|reflexivity].
    rewrite (strip_fences_trailing_marker _ E) in Hnone. discriminate Hnone.
Qed.

(** C4.  When the model call fails, [getEnhancedPrompt] resolves, without
    throwing, to the prompt, the style and the fixed descriptors joined by
    commas; the request goes on to the image model with that text and
    succeeds when the image model does.  The model is called once the
    template has been evaluated, with the prompt and the style as the
    strings they were converted to. *)
Theorem enhancement_falls_back up prompt style promptText styleText error :
  ToString prompt = Normal promptText ->
  ToString style = Normal styleText ->
  generateContent_text up (enhancement_systemPrompt promptText styleText) = Abrupt error ->
  getEnhancedPrompt up prompt style
  = (Normal (promptText ++ lit ", " ++ styleText
             ++ lit ", high resolution, ultra detailed, cinematic lighting"),
     [GenerateContent (enhancement_systemPrompt promptText styleText)])
  /\ forall key req_body style0 hfResponse buffer,
      Get req_body "prompt" = Normal prompt ->
      Get req_body "style" = Normal style0 ->
      or_else style0 (str "realistic") = style ->
      ToBoolean prompt = true ->
      key_missing key = false ->
      fetch up MODEL_URL
        (hf_request key
           (promptText ++ lit ", " ++ styleText
            ++ lit ", high resolution, ultra detailed, cinematic lighting"))
      = Normal hfResponse ->
      ok hfResponse = true ->
      arrayBuffer hfResponse = Normal buffer ->
      fst (post_generate key up req_body)
      = Normal (res_json 200
          (obj [("enhancedPrompt",
                 JStr (promptText ++ lit ", " ++ styleText
                       ++ lit ", high resolution, ultra detailed, cinematic lighting"));
                ("image", JStr (lit "data:image/jpeg;base64," ++ toString_base64 buffer))])).
Proof.
  intros Hpt Hst Hgen.
  assert (He : enhancedPrompt_of up promptText styleText
               = promptText ++ lit ", " ++ styleText
                 ++ lit ", high resolution, ultra detailed, cinematic lighting").
  { unfold enhancedPrompt_of. rewrite Hgen. reflexivity. }
  split.
  - rewrite (getEnhancedPrompt_eq up prompt style promptText styleText Hpt Hst), He.
    reflexivity.
  - intros key req_body style0 r buffer Hg Hs Hstyle Hp Hk Hf Hok Hb. subst style.
    rewrite (post_generate_calls key up req_body prompt style0 promptText styleText
               Hg Hs Hp Hk Hpt Hst).
    cbv zeta. cbn [fst]. rewrite He, Hf, Hok, Hb. reflexivity.
Qed.

(** C5.  When the model call fails, [getMermaidCode] resolves to the fixed
    two-node error graph instead of throwing, and the endpoint answers 200
    with that text.  The model is called once the template has been
    evaluated, with the prompt as the string it was converted to. *)
Theorem diagram_falls_back up prompt promptText error :
  ToString prompt = Normal promptText ->
  generateContent_text up (mermaid_systemPrompt promptText) = Abrupt error ->
  getMermaidCode up prompt
  = (Normal (lit "graph TD" ++ [LF] ++ lit "A[Error] --> B[Diagram Generation Failed]"),
     [GenerateContent (mermaid_systemPrompt promptText)])
  /\ forall req_body,
      Get req_body "prompt" = Normal prompt ->
      ToBoolean prompt = true ->
      post_generate_diagram up req_body
      = (Normal (res_json 200
           (obj [("mermaidCode",
                  JStr (lit "graph TD" ++ [LF] ++ lit "A[Error] --> B[Diagram Generation Failed]"))])),
         [GenerateContent (mermaid_systemPrompt promptText)]).
Proof.
  intros Hpt Hgen.
  assert (He : mermaidCode_of up promptText = error_graph).
  { unfold mermaidCode_of. rewrite Hgen. reflexivity. }
  split.
  - rewrite (getMermaidCode_eq up prompt promptText Hpt), He. reflexivity.
  - intros req_body Hg Hp.
    rewrite (post_generate_diagram_calls up req_body prompt promptText Hg Hp Hpt), He.
    reflexivity.
Qed.

(** C6.  With a prompt present and no image credential configured,
    [POST /generate] answers 500 and issues no upstream call: neither the
    enhancement call nor the image call. *)
Theorem generate_without_credential key up req_body prompt :
  Get req_body "prompt" = Normal prompt ->
  ToBoolean prompt = true ->
  key_missing key = true ->
  post_generate key up req_body
  = (Normal (res_json 500 (obj [("error", str "HF Key missing")])), []).
Proof. apply post_generate_no_key. Qed.

(** C7.  Whenever [POST /generate] answers 200, the handler has called the
    enhancement requester first and the image model second.  The body of the
    request to the image model is the JSON text of an object whose one
    member, [inputs], is a string that reads back as the enhanced text (not
    the prompt); the answer carries that enhanced text and, behind the
    [data:image/jpeg;base64,] prefix, a base64 text that reads back as the
    bytes the image model sent. *)
Theorem generate_success_shape key up req_body res calls :
  post_generate key up req_body = (Normal res, calls) ->
  res_status res = 200 ->
  exists prompt style promptText styleText enhancedPrompt init hfResponse buffer quoted payload,
    Get req_body "prompt" = Normal prompt
    /\ Get req_body "style" = Normal style
    /\ ToString prompt = Normal promptText
    /\ ToString (or_else style (str "realistic")) = Normal styleText
    /\ getEnhancedPrompt up prompt (or_else style (str "realistic"))
       = (Normal enhancedPrompt, [GenerateContent (enhancement_systemPrompt promptText styleText)])
    /\ calls = [GenerateContent (enhancement_systemPrompt promptText styleText);
                Fetch MODEL_URL init]
    /\ method init = lit "POST"
    /\ body init
       = lit "{" ++ [DQUOTE] ++ lit "inputs" ++ [DQUOTE] ++ lit ":"
         ++ [DQUOTE] ++ quoted ++ [DQUOTE] ++ lit "}"
    /\ unquote_units quoted = enhancedPrompt
    /\ fetch up MODEL_URL init = Normal hfResponse
    /\ arrayBuffer hfResponse = Normal buffer
    /\ res = res_json 200
         (obj [("enhancedPrompt", JStr enhancedPrompt);
               ("image", JStr (lit "data:image/jpeg;base64," ++ payload))])
    /\ base64_decode payload = map Byte.to_N buffer.
Proof.
  intros Hrun Hstatus.
  assert (Hcalled : snd (post_generate key up req_body) <> []).
  { destruct (Get req_body "prompt") as [prompt|e] eqn:Hg.
    2:{ rewrite (post_generate_no_body key up req_body e Hg) in Hrun.
        injection Hrun as <- _. discriminate Hstatus. }
    destruct (Get_present req_body "prompt" prompt "style" Hg) as [style Hs].
    rewrite (post_generate_eq key up req_body prompt style Hg Hs) in Hrun |- *.
    destruct (negb (ToBoolean prompt)).
    { injection Hrun as <- _. discriminate Hstatus. }
    destruct (key_missing key).
    { injection Hrun as <- _. discriminate Hstatus. }
    destruct (ToString prompt).
    2:{ injection Hrun as <- _. discriminate Hstatus. }
    destruct (ToString (or_else style (str "realistic"))).
    2:{ injection Hrun as <- _. discriminate Hstatus. }
    discriminate. }
  destruct (post_generate_called key up req_body Hcalled)
    as (prompt & style & promptText & styleText & Hg & Hs & Hp & Hk & Hpt & Hst).
  rewrite (post_generate_calls key up req_body prompt style promptText styleText
             Hg Hs Hp Hk Hpt Hst) in Hrun.
  cbv zeta in Hrun. injection Hrun as Hres <-.
  set (e := enhancedPrompt_of up promptText styleText) in *.
  destruct (fetch up MODEL_URL (hf_request key e)) as [r|err] eqn:Hf.
  2:{ injection Hres as <-. discriminate Hstatus. }
  destruct (ok r) eqn:Hok.
  - destruct (arrayBuffer r) as [buffer|err] eqn:Hb.
    + injection Hres as <-.
      exists prompt, style, promptText, styleText, e, (hf_request key e), r, buffer,
        (quote_units e), (toString_base64 buffer).
      split; [exact Hg|]. split; [exact Hs|]. split; [exact Hpt|]. split; [exact Hst|].
      split; [apply (getEnhancedPrompt_eq up _ _ _ _ Hpt Hst)|].
      split; [reflexivity|]. split; [reflexivity|].
      split; [apply hf_request_body|].
      split; [apply unquote_quote_units|].
      split; [exact Hf|]. split; [exact Hb|]. split; [reflexivity|].
      apply base64_decode_octets, to_N_octets.
    + injection Hres as <-. discriminate Hstatus.
  - injection Hres as <-. cbn [res_status res_json] in Hstatus.
    unfold ok in Hok. rewrite Hstatus in Hok. discriminate Hok.
Qed.

(** C10.  When the body of [POST /generate] has no [style], an empty one,
    or any other falsy one, and the request passes the guards with a prompt
    that can be converted, the style handed to the enhancement requester is
    ['realistic']: the requester is called with it, the model call the
    handler issues first already carries it, and so does the fallback text
    when that call fails. *)
Theorem generate_style_defaults_to_realistic key up req_body prompt style promptText :
  Get req_body "prompt" = Normal prompt ->
  Get req_body "style" = Normal style ->
  ToBoolean style = false ->
  ToBoolean prompt = true ->
  key_missing key = false ->
  ToString prompt = Normal promptText ->
  or_else style (str "realistic") = JStr (lit "realistic")
  /\ exists res calls,
       post_generate key up req_body
       = (res, GenerateContent (enhancement_systemPrompt promptText (lit "realistic")) :: calls)
       /\ getEnhancedPrompt up prompt (or_else style (str "realistic"))
          = (Normal (enhancedPrompt_of up promptText (lit "realistic")),
             [GenerateContent (enhancement_systemPrompt promptText (lit "realistic"))])
       /\ (forall error,
             generateContent_text up (enhancement_systemPrompt promptText (lit "realistic"))
             = Abrupt error ->
             enhancedPrompt_of up promptText (lit "realistic")
             = promptText ++ lit ", realistic, high resolution, ultra detailed, cinematic lighting").
Proof.
  intros Hg Hs Hfalsy Hp Hk Hpt.
  assert (Hd : or_else style (str "realistic") = JStr (lit "realistic")).
  { unfold or_else. rewrite Hfalsy. reflexivity. }
  split; [exact Hd|].
  assert (Hst : ToString (or_else style (str "realistic")) = Normal (lit "realistic")).
  { rewrite Hd. reflexivity. }
  rewrite (post_generate_calls key up req_body prompt style promptText (lit "realistic")
             Hg Hs Hp Hk Hpt Hst).
  cbv zeta. eexists _, _. split; [reflexivity|]. split.
  - apply (getEnhancedPrompt_eq up _ _ _ _ Hpt Hst).
  - intros error Hgen. unfold enhancedPrompt_of. rewrite Hgen.
    reflexivity.
Qed.

(** ** The rate limit *)

Lemma limiter_pass st caller now :
  snd (limiter st caller now)
  = bool_decide (S (hits_of st (window_of now) caller) <= limiter_max)%nat.
Proof. reflexivity. Qed.

Lemma limiter_hits st sender now caller :
  hits_of (fst (limiter st sender now)) (window_of now) caller
  = if decide (sender = caller) then S (hits_of st (window_of now) sender)
    else hits_of st (window_of now) caller.
Proof.
  unfold limiter, hits_of. cbn [fst window hits].
  rewrite decide_True by reflexivity.
  destruct (decide (sender = caller)) as [->|Hne].
  - rewrite lookup_insert_eq. reflexivity.
  - rewrite lookup_insert_ne by exact Hne.
    destruct (decide (window st = window_of now)); [reflexivity|].
    rewrite lookup_empty. reflexivity.
Qed.

Lemma served_to_cons caller (req : @request number) out log :
  served_to caller ((req, out) :: log)
  = ((if decide (ip req = caller /\ fst out = true) then 1 else 0)
     + served_to caller log)%nat.
Proof.
  unfold served_to. rewrite filter_cons. cbn [fst snd].
  destruct (decide (ip req = caller /\ fst out = true)); reflexivity.
Qed.

Lemma requests_from_cons caller (req : @request number) reqs :
  requests_from caller (req :: reqs)
  = ((if decide (ip req = caller) then 1 else 0) + requests_from caller reqs)%nat.
Proof.
  unfold requests_from. rewrite filter_cons.
  destruct (decide (ip req = caller)); reflexivity.
Qed.

(** Within one window a caller is served until its hits reach the maximum,
    and not after. *)
Lemma served_to_count key up st (reqs : list (@request number)) w caller :
  Forall (fun req => window_of (received req) = w) reqs ->
  served_to caller (serve key up st reqs)
  = Nat.min (requests_from caller reqs) (limiter_max - hits_of st w caller).
Proof.
  intros Hw. revert st. induction Hw as [|req reqs Hreq _ IH]; intros st.
  - reflexivity.
  - cbn [serve]. unfold app.
    pose proof (limiter_pass st (ip req) (received req)) as Hpass.
    pose proof (limiter_hits st (ip req) (received req) caller) as Hhits.
    destruct (limiter st (ip req) (received req)) as [st' pass].
    cbn [fst snd] in Hpass, Hhits. rewrite Hreq in Hpass, Hhits.
    assert (Hout : forall out : bool * Eff http_response, fst out = pass ->
              served_to caller ((req, out) :: serve key up st' reqs)
              = Nat.min (requests_from caller (req :: reqs))
                  (limiter_max - hits_of st w caller)).
    { intros out Hfst. rewrite served_to_cons, requests_from_cons, IH, Hhits, Hfst, Hpass.
      destruct (decide (ip req = caller)) as [->|Hne].
      - destruct (bool_decide_reflect (S (hits_of st w caller) <= limiter_max)%nat).
        + rewrite decide_True by (split; reflexivity). lia.
        + rewrite decide_False by (intros [_ ?]; discriminate). lia.
      - rewrite decide_False by (intros [? _]; contradiction). lia. }
    destruct pass; apply Hout; reflexivity.
Qed.

Lemma refused_with_message key up st (reqs : list (@request number)) :
  Forall (fun e => fst (snd e) = false ->
            snd (snd e) = (Normal (res_json 429 limiter_message), []))
    (serve key up st reqs).
Proof.
  revert st. induction reqs as [|req reqs IH]; intros st; [constructor|].
  cbn [serve]. unfold app.
  destruct (limiter st (ip req) (received req)) as [st' pass].
  destruct pass; constructor; cbn [fst snd]; try apply IH.
  - discriminate.
  - reflexivity.
Qed.

(** The limiter looks at the caller and the time only. *)
Lemma verdicts_ignore_endpoint key up key' up' st (reqs reqs' : list (@request number)) :
  map (fun req => (ip req, received req)) reqs
  = map (fun req => (ip req, received req)) reqs' ->
  map (fun e => fst (snd e)) (serve key up st reqs)
  = map (fun e => fst (snd e)) (serve key' up' st reqs').
Proof.
  revert st reqs'. induction reqs as [|req reqs IH]; intros st [|req' reqs'] E;
    try discriminate; [reflexivity|].
  cbn [map] in E. injection E as Hip Ht E.
  cbn [serve]. unfold app. rewrite <- Hip, <- Ht.
  destruct (limiter st (ip req) (received req)) as [st' pass].
  destruct pass; cbn [map fst snd]; f_equal; apply IH, E.
Qed.
Lemma refused_to_cons caller (req : @request number) out log :
  refused_to caller ((req, out) :: log)
  = ((if decide (ip req = caller /\ fst out = false) then 1 else 0)
     + refused_to caller log)%nat.
Proof.
  unfold refused_to. rewrite filter_cons. cbn [fst snd].
  destruct (decide (ip req = caller /\ fst out = false)); reflexivity.
Qed.

(** A request of a caller is either served or refused. *)
Lemma served_or_refused key up st (reqs : list (@request number)) caller :
  (served_to caller (serve key up st reqs) + refused_to caller (serve key up st reqs))%nat
  = requests_from caller reqs.
Proof.
  revert st. induction reqs as [|req reqs IH]; intros st; [reflexivity|].
  cbn [serve]. unfold app.
  destruct (limiter st (ip req) (received req)) as [st' pass].
  specialize (IH st').
  assert (Hout : forall out : bool * @Eff number (@http_response number), fst out = pass ->
            (served_to caller ((req, out) :: serve key up st' reqs)
             + refused_to caller ((req, out) :: serve key up st' reqs))%nat
            = requests_from caller (req :: reqs)).
  { intros out Hfst. rewrite served_to_cons, refused_to_cons, requests_from_cons, Hfst.
    destruct (decide (ip req = caller)) as [Hip|Hip]; destruct pass.
    - rewrite decide_True by (split; [exact Hip | reflexivity]).
      rewrite decide_False by (intros [_ ?]; discriminate). lia.
    - rewrite decide_False by (intros [_ ?]; discriminate).
      rewrite decide_True by (split; [exact Hip | reflexivity]). lia.
    - rewrite !decide_False by (intros [? _]; contradiction). lia.
    - rewrite !decide_False by (intros [? _]; contradiction). lia. }
  destruct pass; apply Hout; reflexivity.
Qed.

(** The window of a time, in milliseconds: fifteen minutes are 900000. *)
Lemma window_of_within (w now : Z) :
  (w * 900000 <= now < (w + 1) * 900000)%Z -> window_of now = w.
Proof.
  intros Hnow. unfold window_of, limiter_windowMs. symmetry.
  apply (Z.div_unique now (15 * 60 * 1000) w (now - w * 900000))%Z; lia.
Qed.

Lemma serve_app key up st (reqs later : list (@request number)) :
  serve key up st (reqs ++ later)
  = serve key up st reqs ++ serve key up (store_after st reqs) later.
Proof.
  revert st. induction reqs as [|req reqs IH]; intros st; [reflexivity|].
  cbn [serve store_after Datatypes.app]. unfold app.
  destruct (limiter st (ip req) (received req)) as [st' pass].
  cbn [fst]. destruct pass; cbn [Datatypes.app]; f_equal; apply IH.
Qed.

Lemma store_after_window st (reqs : list (@request number)) w :
  reqs <> [] ->
  Forall (fun req => window_of (received req) = w) reqs ->
  window (store_after st reqs) = w.
Proof.
  intros Hne Hw. revert st. induction Hw as [|req reqs Hreq Hrest IH]; [contradiction|].
  intros st. cbn [store_after].
  destruct reqs as [|req' reqs].
  - cbn [store_after limiter fst window]. exact Hreq.
  - apply IH. discriminate.
Qed.

Lemma served_to_app caller (log log' : list (@request number * (bool * @Eff number (@http_response number)))) :
  served_to caller (log ++ log') = (served_to caller log + served_to caller log')%nat.
Proof. unfold served_to. rewrite filter_app, length_app. reflexivity. Qed.

(** C8.  The limiter stands before every route and judges by caller and
    time alone.  Among the requests received within one window of 15 minutes
    (900000 milliseconds) a caller has at most 100 served, namely its first
    ones up to the maximum; the others are refused, and every request refused
    is answered with the JSON error body of the limiter.  Requests received
    in another window are counted afresh: there the caller is served up to
    100 times again. *)
Theorem rate_limit_per_window key up st (reqs : list (@request number)) w caller :
  Forall (fun req => (w * 900000 <= received req < (w + 1) * 900000)%Z) reqs ->
  (served_to caller (serve key up st reqs) <= 100)%nat
  /\ served_to caller (serve key up st reqs)
     = Nat.min (requests_from caller reqs) (100 - hits_of st w caller)
  /\ refused_to caller (serve key up st reqs)
     = (requests_from caller reqs - (100 - hits_of st w caller))%nat
  /\ Forall (fun e => fst (snd e) = false ->
               snd (snd e)
               = (Normal (res_json 429
                    (obj [("error",
                           str "Too many requests from this IP, please try again after 15 minutes")])),
                  []))
       (serve key up st reqs)
  /\ (forall reqs' : list (@request number),
        map (fun req => (ip req, received req)) reqs
        = map (fun req => (ip req, received req)) reqs' ->
        map (fun e => fst (snd e)) (serve key up st reqs)
        = map (fun e => fst (snd e)) (serve key up st reqs'))
  /\ (forall (later : list (@request number)) w',
        reqs <> [] -> w' <> w ->
        Forall (fun req => (w' * 900000 <= received req < (w' + 1) * 900000)%Z) later ->
        served_to caller (serve key up st (reqs ++ later))
        = (served_to caller (serve key up st reqs)
           + Nat.min (requests_from caller later) 100)%nat).
Proof.
  intros Hms.
  assert (Hw : Forall (fun req : @request number => window_of (received req) = w) reqs).
  { eapply Forall_impl; [exact Hms|]. intros req. apply window_of_within. }
  pose proof (served_to_count key up st reqs w caller Hw) as Hcount.
  pose proof (served_or_refused key up st reqs caller) as Hsum.
  change limiter_max with 100%nat in Hcount.
  split; [rewrite Hcount; lia|]. split; [exact Hcount|]. split; [lia|].
  split; [apply refused_with_message|]. split; [apply verdicts_ignore_endpoint|].
  intros later w' Hne Hother Hms'.
  assert (Hw' : Forall (fun req : @request number => window_of (received req) = w') later).
  { eapply Forall_impl; [exact Hms'|]. intros req. apply window_of_within. }
  rewrite serve_app, served_to_app.
  rewrite (served_to_count key up (store_after st reqs) later w' caller Hw').
  unfold hits_of. rewrite (store_after_window st reqs w Hne Hw).
  rewrite decide_False by congruence.
  change limiter_max with 100%nat. rewrite Nat.sub_0_r. reflexivity.
Qed.

End Gateway.
(** ** The archive listing *)

Section Listing.

Import Client.

Lemma place_Permutation dir d l : Permutation (place dir d l) (d :: l).
Proof.
  induction l as [|e l IH]; simpl; [reflexivity|].
  destruct (precedes dir d e); [reflexivity|].
  rewrite IH. apply perm_swap.
Qed.

Lemma ordered_Permutation dir l : Permutation (ordered dir l) l.
Proof.
  induction l as [|d l IH]; simpl; [reflexivity|].
  rewrite place_Permutation. constructor. exact IH.
Qed.

Lemma place_desc_sorted d l :
  StronglySorted newer l ->
  Forall (fun e => key e <> key d) l ->
  StronglySorted newer (place desc d l).
Proof.
  induction 1 as [|e l Hl IH He]; intros Hd; simpl.
  - repeat constructor.
  - apply Forall_cons_iff in Hd as [Hed Hd].
    destruct (Z.leb_spec (createdAt (doc_data e)) (createdAt (doc_data d))) as [Hle|Hgt].
    + assert (Hde : newer d e) by (unfold newer, key in *; lia).
      constructor; [constructor; assumption|].
      constructor; [exact Hde|].
      eapply Forall_impl; [exact He|].
      intros x Hx. unfold newer in *. lia.
    + constructor; [apply IH, Hd|].
      apply (Permutation_Forall (Permutation_sym (place_Permutation desc d l))).
      constructor; [unfold newer, key; lia | exact He].
Qed.

Lemma ordered_desc_sorted l :
  NoDup (map key l) -> StronglySorted newer (ordered desc l).
Proof.
  induction l as [|d l IH]; simpl; intros Hnd; [constructor|].
  apply NoDup_cons in Hnd as [Hd Hnd].
  apply place_desc_sorted; [apply IH, Hnd|].
  apply (Permutation_Forall (Permutation_sym (ordered_Permutation desc l))).
  apply Forall_forall. intros e He Heq. apply Hd.
  rewrite <- Heq. apply list_elem_of_In, in_map, list_elem_of_In, He.
Qed.

Lemma StronglySorted_map_inv {A B} (f : A -> B) (R : B -> B -> Prop) l :
  StronglySorted (fun a b => R (f a) (f b)) l -> StronglySorted R (map f l).
Proof.
  induction 1 as [|a l _ IH Ha]; simpl; constructor; [exact IH|].
  apply Forall_map. exact Ha.
Qed.

(** C9.  When the store is reachable and the archived records carry
    pairwise distinct creation times (three records or any other number),
    the items [fetchHistory] puts into the state are the records of the
    collection, each once, with their creation times strictly descending. *)
Theorem history_newest_first db st :
  reachable db = true ->
  NoDup (map (fun d => createdAt (doc_data d)) (documents db "visuals")) ->
  StronglySorted Z.gt (map (fun i => createdAt (data i)) (historyItems (fetchHistory db st)))
  /\ Permutation (historyItems (fetchHistory db st))
       (map (fun doc => {| id := doc_id doc; data := doc_data doc |}) (documents db "visuals"))
  /\ historyLoading (fetchHistory db st) = false
  /\ error (fetchHistory db st) = error st.
Proof.
  intros Hr Hnd. unfold fetchHistory, getDocs. rewrite Hr. cbn.
  repeat split.
  - rewrite map_map. cbn.
    apply (StronglySorted_map_inv key Z.gt), ordered_desc_sorted, Hnd.
  - apply Permutation_map, ordered_Permutation.
Qed.

End Listing.

(** ** More of the gateway *)

Section GatewayPaths.

Context {number : Type} `{JsNumber number} `{JsTypeError}.

Implicit Types (up : @upstream number) (prompt style req_body : @jsval number).

(** X1.  On success the enhanced prompt is the model text with whitespace
    taken off its two ends and nothing else: what is removed is whitespace,
    and what is returned neither begins nor ends with whitespace.  The model
    is called once prompt and style have been converted for the template. *)
Theorem enhanced_prompt_is_the_trimmed_text up prompt style promptText styleText text :
  ToString prompt = Normal promptText ->
  ToString style = Normal styleText ->
  generateContent_text up (enhancement_systemPrompt promptText styleText) = Normal text ->
  exists enhancedPrompt,
    getEnhancedPrompt up prompt style
    = (Normal enhancedPrompt, [GenerateContent (enhancement_systemPrompt promptText styleText)])
    /\ (exists a b, text = a ++ enhancedPrompt ++ b
          /\ Forall (fun c => isWhiteSpace c = true) a
          /\ Forall (fun c => isWhiteSpace c = true) b)
    /\ (forall c r, enhancedPrompt = c :: r -> isWhiteSpace c = false)
    /\ (forall r c, enhancedPrompt = r ++ [c] -> isWhiteSpace c = false).
Proof.
  intros Hpt Hst Hg. exists (trim text). split.
  - rewrite (getEnhancedPrompt_eq up prompt style promptText styleText Hpt Hst).
    unfold enhancedPrompt_of. rewrite Hg. reflexivity.
  - apply trim_spec.
Qed.

(** X2.  A model text of whitespace only (the empty text included) is not
    taken for a failure: no fallback is used, and the image model is called
    with an empty [inputs]. *)
Theorem blank_model_text_sends_empty_inputs
    key up req_body prompt style promptText styleText text :
  Get req_body "prompt" = Normal prompt ->
  Get req_body "style" = Normal style ->
  ToBoolean prompt = true ->
  key_missing key = false ->
  ToString prompt = Normal promptText ->
  ToString (or_else style (str "realistic")) = Normal styleText ->
  generateContent_text up (enhancement_systemPrompt promptText styleText) = Normal text ->
  Forall (fun c => isWhiteSpace c = true) text ->
  exists init,
    snd (post_generate key up req_body)
    = [GenerateContent (enhancement_systemPrompt promptText styleText);
       Fetch MODEL_URL init]
    /\ body init
       = lit "{" ++ [DQUOTE] ++ lit "inputs" ++ [DQUOTE] ++ lit ":" ++ [DQUOTE; DQUOTE] ++ lit "}".
Proof.
  intros Hg Hs Hp Hk Hpt Hst Hgen Hws. exists (hf_request key []).
  rewrite (post_generate_calls key up req_body prompt style promptText styleText
             Hg Hs Hp Hk Hpt Hst).
  cbv zeta. cbn [snd].
  unfold enhancedPrompt_of. rewrite Hgen, (trim_whitespace text Hws). split; reflexivity.
Qed.

(** X3.  A model text that, trimmed, neither begins nor ends with a marker
    is returned by the diagram endpoint as it is, trimmed. *)
Theorem diagram_unfenced_text_unchanged up req_body prompt promptText text :
  Get req_body "prompt" = Normal prompt ->
  ToBoolean prompt = true ->
  ToString prompt = Normal promptText ->
  generateContent_text up (mermaid_systemPrompt promptText) = Normal text ->
  startsWith fence (trim text) = false ->
  endsWith fence (trim text) = false ->
  fst (post_generate_diagram up req_body)
  = Normal (res_json 200 (obj [("mermaidCode", JStr (trim text))])).
Proof.
  intros Hg Hp Hpt Hgen Hs He.
  rewrite (post_generate_diagram_calls up req_body prompt promptText Hg Hp Hpt). cbn [fst].
  unfold mermaidCode_of. rewrite Hgen, (strip_fences_unfenced _ Hs He). reflexivity.
Qed.

(** X4.  Whatever the model sends, the diagram text returned is a stretch
    of the trimmed model text; only markers are cut away, at most two at the
    start (one with the word mermaid, one bare) and one at the end.  The
    model is called with the prompt as the string it was converted to. *)
Theorem diagram_text_is_part_of_model_text up prompt promptText text :
  ToString prompt = Normal promptText ->
  generateContent_text up (mermaid_systemPrompt promptText) = Normal text ->
  exists mermaidCode a b q,
    getMermaidCode up prompt
    = (Normal mermaidCode, [GenerateContent (mermaid_systemPrompt promptText)])
    /\ trim text = a ++ b ++ mermaidCode ++ q
    /\ In a [ []; fence ++ lit "mermaid"; fence ++ lit "mermaid" ++ [LF] ]
    /\ In b [ []; fence; fence ++ [LF] ]
    /\ In q [ []; fence; LF :: fence ].
Proof.
  intros Hpt Hg.
  destruct (strip_fences_split (trim text)) as (a & b & q & E & Ha & Hb & Hq).
  exists (strip_fences (trim text)), a, b, q. split; [|auto].
  rewrite (getMermaidCode_eq up prompt promptText Hpt). unfold mermaidCode_of.
  rewrite Hg. reflexivity.
Qed.

(** X5.  The diagram endpoint always answers, in one of four ways: 400 and
    no upstream call when the prompt is falsy; 200 and exactly one model
    call when the prompt is truthy and can be converted to a string; 500,
    with the message of the [TypeError] as details and no upstream call, when
    the prompt is truthy and cannot be converted (the template of line 874
    throws before the requester is called), and when there is no body to
    take the prompt from. *)
Theorem diagram_endpoint_answers up req_body :
  exists res calls,
    post_generate_diagram up req_body = (Normal res, calls)
    /\ ((exists prompt,
           Get req_body "prompt" = Normal prompt /\ ToBoolean prompt = false
           /\ res_status res = 400 /\ calls = [])
        \/ (exists prompt promptText,
              Get req_body "prompt" = Normal prompt /\ ToBoolean prompt = true
              /\ ToString prompt = Normal promptText
              /\ res = res_json 200 (obj [("mermaidCode", JStr (mermaidCode_of up promptText))])
              /\ calls = [GenerateContent (mermaid_systemPrompt promptText)])
        \/ (exists prompt e,
              Get req_body "prompt" = Normal prompt /\ ToBoolean prompt = true
              /\ ToString prompt = Abrupt e
              /\ res = res_json 500 (obj [("error", str "Failed to generate diagram");
                                          ("details", JStr cannot_convert)])
              /\ calls = [])
        \/ (exists is_null : bool,
              req_body = (if is_null then JNull else JUndefined)
              /\ res = res_json 500 (obj [("error", str "Failed to generate diagram");
                                          ("details", JStr (cannot_read is_null "prompt"))])
              /\ calls = [])).
Proof.
  destruct (Get req_body "prompt") as [prompt|e] eqn:Hg.
  2:{ destruct (post_generate_diagram_no_body up req_body e Hg) as (is_null & Hb & Hrun).
      rewrite Hrun. eexists _, _. split; [reflexivity|].
      right; right; right. exists is_null. auto. }
  destruct (ToBoolean prompt) eqn:Hp.
  2:{ rewrite (post_generate_diagram_no_prompt up req_body prompt Hg Hp).
      eexists _, _. split; [reflexivity|]. left. exists prompt. auto. }
  destruct (ToString prompt) as [promptText|e] eqn:Hpt.
  - rewrite (post_generate_diagram_calls up req_body prompt promptText Hg Hp Hpt).
    eexists _, _. split; [reflexivity|]. right; left. exists prompt, promptText. auto.
  - rewrite (post_generate_diagram_unprintable up req_body prompt e Hg Hp Hpt).
    eexists _, _. split; [reflexivity|]. right; right; left. exists prompt, e. auto.
Qed.

(** X6.  When the call to the image model throws, or its body cannot be
    read, [POST /generate] answers 500 with the fixed body
    [{ error: 'Internal Server Error' }]: nothing of the thrown value is
    passed on.  Both upstream calls have been made by then. *)
Theorem generate_exception_is_500 key up req_body prompt style promptText styleText :
  Get req_body "prompt" = Normal prompt ->
  Get req_body "style" = Normal style ->
  ToBoolean prompt = true ->
  key_missing key = false ->
  ToString prompt = Normal promptText ->
  ToString (or_else style (str "realistic")) = Normal styleText ->
  let enhancedPrompt := enhancedPrompt_of up promptText styleText in
  (exists e, fetch up MODEL_URL (hf_request key enhancedPrompt) = Abrupt e)
  \/ (exists hfResponse e,
        fetch up MODEL_URL (hf_request key enhancedPrompt) = Normal hfResponse
        /\ ok hfResponse = true /\ arrayBuffer hfResponse = Abrupt e) ->
  post_generate key up req_body
  = (Normal (res_json 500 (obj [("error", str "Internal Server Error")])),
     [GenerateContent (enhancement_systemPrompt promptText styleText);
      Fetch MODEL_URL (hf_request key enhancedPrompt)]).
Proof.
  intros Hg Hs Hp Hk Hpt Hst e Hf. subst e.
  rewrite (post_generate_calls key up req_body prompt style promptText styleText
             Hg Hs Hp Hk Hpt Hst).
  cbv zeta.
  destruct Hf as [[e Hf] | (r & e & Hf & Hok & Hb)].
  - rewrite Hf. reflexivity.
  - rewrite Hf, Hok, Hb. reflexivity.
Qed.

(** X7.  Any status from 200 to 299 of the image model counts as success:
    the endpoint answers 200, its own status, with the enhanced prompt and
    the data URI. *)
Theorem generate_succeeds_on_any_2xx
    key up req_body prompt style promptText styleText hfResponse buffer :
  Get req_body "prompt" = Normal prompt ->
  Get req_body "style" = Normal style ->
  ToBoolean prompt = true ->
  key_missing key = false ->
  ToString prompt = Normal promptText ->
  ToString (or_else style (str "realistic")) = Normal styleText ->
  let enhancedPrompt := enhancedPrompt_of up promptText styleText in
  fetch up MODEL_URL (hf_request key enhancedPrompt) = Normal hfResponse ->
  200 <= status hfResponse <= 299 ->
  arrayBuffer hfResponse = Normal buffer ->
  fst (post_generate key up req_body)
  = Normal (res_json 200
      (obj [("enhancedPrompt", JStr enhancedPrompt);
            ("image", JStr (lit "data:image/jpeg;base64," ++ toString_base64 buffer))])).
Proof.
  intros Hg Hs Hp Hk Hpt Hst e Hf [Hlo Hhi] Hb. subst e.
  rewrite (post_generate_calls key up req_body prompt style promptText styleText
             Hg Hs Hp Hk Hpt Hst).
  cbv zeta. cbn [fst]. rewrite Hf. unfold ok.
  rewrite (proj2 (N.leb_le _ _) Hlo), (proj2 (N.leb_le _ _) Hhi), Hb. reflexivity.
Qed.

(** X8.  [POST /generate] makes either no upstream call or exactly two: the
    text model first, then one POST to the image model's URL, with the
    credential as bearer token and a JSON content type.  There is no retry
    and no other destination.  It makes none exactly when the request has no
    body, a falsy prompt, no credential to go with, or a prompt or a style
    that cannot be converted to a string. *)
Theorem generate_call_discipline key up req_body :
  (snd (post_generate key up req_body) = []
   \/ exists systemPrompt init credential,
        snd (post_generate key up req_body)
        = [GenerateContent systemPrompt; Fetch MODEL_URL init]
        /\ key = Some credential
        /\ method init = lit "POST"
        /\ headers init
           = [(lit "Authorization", lit "Bearer " ++ credential);
              (lit "Content-Type", lit "application/json")])
  /\ (forall e, Get req_body "prompt" = Abrupt e -> snd (post_generate key up req_body) = [])
  /\ (forall prompt style,
        Get req_body "prompt" = Normal prompt ->
        Get req_body "style" = Normal style ->
        (snd (post_generate key up req_body) = []
         <-> ToBoolean prompt = false
             \/ key_missing key = true
             \/ (exists e, ToString prompt = Abrupt e)
             \/ (exists e, ToString (or_else style (str "realistic")) = Abrupt e))).
Proof.
  assert (Hnobody : forall e, Get req_body "prompt" = Abrupt e ->
                      snd (post_generate key up req_body) = []).
  { intros e Hg. rewrite (post_generate_no_body key up req_body e Hg). reflexivity. }
  assert (Hbody : forall prompt style,
            Get req_body "prompt" = Normal prompt ->
            Get req_body "style" = Normal style ->
            (snd (post_generate key up req_body) = []
             /\ (ToBoolean prompt = false
                 \/ key_missing key = true
                 \/ (exists e, ToString prompt = Abrupt e)
                 \/ (exists e, ToString (or_else style (str "realistic")) = Abrupt e)))
            \/ (exists promptText styleText credential,
                  ToBoolean prompt = true /\ key_missing key = false
                  /\ ToString prompt = Normal promptText
                  /\ ToString (or_else style (str "realistic")) = Normal styleText
                  /\ key = Some credential
                  /\ snd (post_generate key up req_body)
                     = [GenerateContent (enhancement_systemPrompt promptText styleText);
                        Fetch MODEL_URL
                          (hf_request key (enhancedPrompt_of up promptText styleText))])).
  { intros prompt style Hg Hs.
    destruct (ToBoolean prompt) eqn:Hp.
    2:{ left. rewrite (post_generate_no_prompt key up req_body prompt Hg Hp). auto. }
    destruct (key_missing key) eqn:Hk.
    { left. rewrite (post_generate_no_key key up req_body prompt Hg Hp Hk). auto. }
    destruct (ToString prompt) as [promptText|ep] eqn:Hpt.
    2:{ left. rewrite (post_generate_unprintable key up req_body prompt style Hg Hs Hp Hk)
          by (left; eauto). eauto 6. }
    destruct (ToString (or_else style (str "realistic"))) as [styleText|es] eqn:Hst.
    2:{ left. rewrite (post_generate_unprintable key up req_body prompt style Hg Hs Hp Hk)
          by (right; eauto). eauto 6. }
    right. destruct key as [credential|]; [|discriminate Hk].
    exists promptText, styleText, credential.
    rewrite (post_generate_calls (Some credential) up req_body prompt style promptText
               styleText Hg Hs Hp Hk Hpt Hst).
    auto 10. }
  split; [|split; [exact Hnobody|]].
  - destruct (Get req_body "prompt") as [prompt|e] eqn:Hg; [|left; eauto].
    destruct (Get_present req_body "prompt" prompt "style" Hg) as [style Hs].
    destruct (Hbody prompt style eq_refl Hs)
      as [[Hnone _] | (promptText & styleText & credential & _ & _ & _ & _ & Hkey & Hcalls)].
    + left. exact Hnone.
    + right. rewrite Hcalls. subst key. eexists _, _, credential. repeat split.
  - intros prompt style Hg Hs.
    destruct (Hbody prompt style Hg Hs)
      as [[Hnone Hwhy] | (promptText & styleText & credential & Hp & Hk & Hpt & Hst & _ & Hcalls)].
    + split; auto.
    + split.
      * rewrite Hcalls. discriminate.
      * intros [Hp' | [Hk' | [[e He] | [e He]]]]; congruence.
Qed.

(** The statuses of [POST /generate]: 200, 400, 500, or the status of an
    answer of the image model that was no success. *)
Lemma post_generate_statuses key up req_body :
  exists res calls,
    post_generate key up req_body = (Normal res, calls)
    /\ (res_status res = 200 \/ res_status res = 400 \/ res_status res = 500
        \/ exists hfResponse : @Response number, ok hfResponse = false /\ res_status res = status hfResponse).
Proof.
  destruct (Get req_body "prompt") as [prompt|e] eqn:Hg.
  2:{ rewrite (post_generate_no_body key up req_body e Hg). eexists _, _. cbn. auto. }
  destruct (Get_present req_body "prompt" prompt "style" Hg) as [style Hs].
  rewrite (post_generate_eq key up req_body prompt style Hg Hs).
  destruct (negb (ToBoolean prompt)); [eexists _, _; cbn; auto|].
  destruct (key_missing key); [eexists _, _; cbn; auto|].
  destruct (ToString prompt); [|eexists _, _; cbn; auto].
  destruct (ToString (or_else style (str "realistic"))); [|eexists _, _; cbn; auto].
  cbv zeta.
  destruct (fetch up MODEL_URL _) as [r|e]; [|eexists _, _; cbn; auto].
  destruct (ok r) eqn:Hok.
  - destruct (arrayBuffer r); eexists _, _; cbn; auto.
  - eexists _, _. split; [reflexivity|]. right; right; right. exists r. auto.
Qed.

(** X9.  [POST /generate] always answers: nothing escapes its [catch]
    block.  The only status from 200 to 299 it ever answers with is 200. *)
Theorem generate_always_answers key up req_body :
  exists res calls,
    post_generate key up req_body = (Normal res, calls)
    /\ (200 <= res_status res <= 299 -> res_status res = 200).
Proof.
  destruct (post_generate_statuses key up req_body) as (res & calls & Hrun & Hstatus).
  exists res, calls. split; [exact Hrun|]. intros [Hlo Hhi].
  destruct Hstatus as [E | [E | [E | (r & Hok & E)]]]; rewrite E in *; try lia.
  unfold ok in Hok.
  rewrite (proj2 (N.leb_le _ _) Hlo), (proj2 (N.leb_le _ _) Hhi) in Hok.
  discriminate Hok.
Qed.

(** X10.  The two handlers never look at the type of [prompt] or [style]:
    two bodies whose prompts agree in truthiness and in the outcome of their
    conversion to a string (and, for [POST /generate], whose styles after
    defaulting agree in that outcome) get the same answer and cause the same
    upstream calls.  An object without a property [toString] sent as prompt
    thus counts as the text [[object Object]]. *)
Theorem handlers_see_prompt_through_coercions key up req_body req_body' prompt prompt' :
  Get req_body "prompt" = Normal prompt ->
  Get req_body' "prompt" = Normal prompt' ->
  ToBoolean prompt = ToBoolean prompt' ->
  ToString prompt = ToString prompt' ->
  post_generate_diagram up req_body = post_generate_diagram up req_body'
  /\ (forall style style',
        Get req_body "style" = Normal style ->
        Get req_body' "style" = Normal style' ->
        ToString (or_else style (str "realistic"))
        = ToString (or_else style' (str "realistic")) ->
        post_generate key up req_body = post_generate key up req_body').
Proof.
  intros Hg Hg' Hb Hs. split.
  - rewrite (post_generate_diagram_eq up req_body prompt Hg),
      (post_generate_diagram_eq up req_body' prompt' Hg'), Hb, Hs. reflexivity.
  - intros style style' Hst Hst' Hstyle.
    rewrite (post_generate_eq key up req_body prompt style Hg Hst),
      (post_generate_eq key up req_body' prompt' style' Hg' Hst'), Hb, Hs, Hstyle.
    reflexivity.
Qed.

(** X25.  A prompt that cannot be converted to a string, such as an object
    with a property [toString] or an array that holds one, passes the guard
    (it is truthy) and then ends both handlers in their [catch] block before
    anything is called: [POST /generate-diagram] answers 500 with the
    message of the [TypeError], [POST /generate] with its fixed 500.  A style
    of that kind does the same to [POST /generate], although the prompt is
    in order. *)
Theorem unconvertible_prompt_or_style_is_500 key up req_body prompt style props before after :
  Get req_body "prompt" = Normal prompt ->
  Get req_body "style" = Normal style ->
  hasOwnProperty props "toString" = true ->
  (prompt = JObj props \/ prompt = JArr (before ++ JObj props :: after) ->
   post_generate_diagram up req_body
   = (Normal (res_json 500 (obj [("error", str "Failed to generate diagram");
                                 ("details", JStr cannot_convert)])), [])
   /\ (key_missing key = false ->
       post_generate key up req_body
       = (Normal (res_json 500 (obj [("error", str "Internal Server Error")])), [])))
  /\ (style = JObj props \/ style = JArr (before ++ JObj props :: after) ->
      ToBoolean prompt = true ->
      key_missing key = false ->
      post_generate key up req_body
      = (Normal (res_json 500 (obj [("error", str "Internal Server Error")])), [])).
Proof.
  intros Hg Hs Hown.
  destruct (ToString_own_toString props Hown) as [Hobj Harr].
  assert (Hthrows : forall v : @jsval number,
            v = JObj props \/ v = JArr (before ++ JObj props :: after) ->
            ToBoolean v = true /\ exists e, ToString v = Abrupt e).
  { intros v [-> | ->]; (split; [reflexivity|]); [eauto | apply Harr]. }
  split.
  - intros Hprompt. destruct (Hthrows prompt Hprompt) as [Hp [e He]]. split.
    + apply (post_generate_diagram_unprintable up req_body prompt e Hg Hp He).
    + intros Hk.
      apply (post_generate_unprintable key up req_body prompt style Hg Hs Hp Hk).
      left. eauto.
  - intros Hstyle Hp Hk. destruct (Hthrows style Hstyle) as [Hst [e He]].
    apply (post_generate_unprintable key up req_body prompt style Hg Hs Hp Hk).
    right. unfold or_else. rewrite Hst. eauto.
Qed.

(** X26.  A request that comes without a body, so that [req.body] is
    [undefined] (or [null]), is not answered with 400: the destructuring
    throws, and both handlers answer 500 from their [catch] block, with no
    upstream call. *)
Theorem request_without_body_is_500 key up req_body :
  req_body = JUndefined \/ req_body = JNull ->
  post_generate key up req_body
  = (Normal (res_json 500 (obj [("error", str "Internal Server Error")])), [])
  /\ exists message,
       post_generate_diagram up req_body
       = (Normal (res_json 500 (obj [("error", str "Failed to generate diagram");
                                     ("details", JStr message)])), []).
Proof.
  intros [-> | ->]; (split; [reflexivity | eexists; reflexivity]).
Qed.

(** X27.  When the trimmed model text is one body with at most one opening
    marker before it (three backticks, with or without the word mermaid,
    with or without a line feed) and at most one closing marker after it
    (three backticks, with or without a line feed before), and the body
    itself holds no marker, the diagram text returned holds no marker at
    all. *)
Theorem diagram_one_layer_leaves_no_marker up prompt promptText text opening inner closing :
  ToString prompt = Normal promptText ->
  generateContent_text up (mermaid_systemPrompt promptText) = Normal text ->
  trim text = opening ++ inner ++ closing ->
  In opening openings ->
  In closing closings ->
  includes fence inner = false ->
  exists mermaidCode,
    getMermaidCode up prompt
    = (Normal mermaidCode, [GenerateContent (mermaid_systemPrompt promptText)])
    /\ mermaidCode = strip_fences (trim text)
    /\ includes fence mermaidCode = false.
Proof.
  intros Hpt Hg Ht Ho Hc Hi. exists (strip_fences (trim text)).
  split; [|split; [reflexivity|]].
  - rewrite (getMermaidCode_eq up prompt promptText Hpt). unfold mermaidCode_of.
    rewrite Hg. reflexivity.
  - rewrite Ht. apply strip_fences_single_layer; assumption.
Qed.

End GatewayPaths.

(** ** The client component *)

Section ComponentFacts.

Import Studio.

Context {number : Type} `{JsNumber number} `{JsTypeError}.

Implicit Types (out : @outside number) (st : @state number) (up : @upstream number).

Lemma blank_whitespace (s : list N) :
  Forall (fun c => isWhiteSpace c = true) s -> blank s = true.
Proof. intros Hs. unfold blank. rewrite (trim_whitespace s Hs). reflexivity. Qed.

Lemma not_blank_truthy (s : list N) :
  blank s = false -> ToBoolean (@JStr number s) = true.
Proof.
  unfold blank. destruct s as [|c s]; [discriminate | reflexivity].
Qed.

(** X14.  With a prompt of whitespace only, the empty prompt included,
    [handleManifest] sends no request: it sets the error line and leaves
    every other cell as it was, the results on display among them. *)
Theorem manifest_blank_prompt_sends_nothing out st :
  Forall (fun c => isWhiteSpace c = true) (prompt st) ->
  handleManifest out st
  = (setError (Some (lit "Please enter a concept to manifest.")) st, [])
  /\ image (fst (handleManifest out st)) = image st
  /\ mermaidCode (fst (handleManifest out st)) = mermaidCode st
  /\ loading (fst (handleManifest out st)) = loading st
  /\ isSaved (fst (handleManifest out st)) = isSaved st.
Proof.
  intros Hp. unfold handleManifest. rewrite (blank_whitespace _ Hp). repeat split.
Qed.

(** With any other prompt [handleManifest] sends exactly two
    requests, whatever their outcome: [/generate] with the prompt as typed
    (not trimmed) and the style, then [/generate-diagram] with the prompt.
    When it is done, [loading] and [isSaved] are false. *)
Theorem manifest_sends_both_requests out st :
  blank (prompt st) = false ->
  snd (handleManifest out st)
  = [Post (lit "http://localhost:5000/generate")
       (obj [("prompt", JStr (prompt st)); ("style", JStr (style st))]);
     Post (lit "http://localhost:5000/generate-diagram")
       (obj [("prompt", JStr (prompt st))])]
  /\ loading (fst (handleManifest out st)) = false
  /\ isSaved (fst (handleManifest out st)) = false.
Proof.
  intros Hp. unfold handleManifest. rewrite Hp. repeat split.
Qed.

(** X15.  When either of the two requests is rejected, nothing is shown:
    the image is cleared, the diagram is empty and the one generic message
    is set, even if the other request had succeeded.  The enhanced prompt
    of the run before stays in its cell. *)
Theorem manifest_failure_shows_nothing out st :
  blank (prompt st) = false ->
  (exists e, axios_post out (API_BASE_URL ++ lit "/generate")
               (obj [("prompt", JStr (prompt st)); ("style", JStr (style st))]) = Abrupt e)
  \/ (exists e, axios_post out (API_BASE_URL ++ lit "/generate-diagram")
                  (obj [("prompt", JStr (prompt st))]) = Abrupt e) ->
  let st' := fst (handleManifest out st) in
  image st' = JNull
  /\ mermaidCode st' = JStr []
  /\ error st' = Some (lit "Neural manifestation partially failed. Check your connection.")
  /\ enhancedPrompt st' = enhancedPrompt st
  /\ loading st' = false.
Proof.
  intros Hp Hrej. cbv zeta. unfold handleManifest. rewrite Hp.
  destruct Hrej as [[e He] | [e He]]; rewrite He.
  - repeat split.
  - destruct (axios_post out (API_BASE_URL ++ lit "/generate") _); repeat split.
Qed.

(** When both requests resolve with an object, the three result
    cells take the [image], [enhancedPrompt] and [mermaidCode] of the two
    answers and the error line is cleared. *)
Theorem manifest_success_shows_results out st imgData diagData :
  blank (prompt st) = false ->
  axios_post out (API_BASE_URL ++ lit "/generate")
    (obj [("prompt", JStr (prompt st)); ("style", JStr (style st))]) = Normal (JObj imgData) ->
  axios_post out (API_BASE_URL ++ lit "/generate-diagram")
    (obj [("prompt", JStr (prompt st))]) = Normal (JObj diagData) ->
  let st' := fst (handleManifest out st) in
  image st' = assoc (lit "image") imgData
  /\ enhancedPrompt st' = assoc (lit "enhancedPrompt") imgData
  /\ mermaidCode st' = assoc (lit "mermaidCode") diagData
  /\ error st' = None
  /\ loading st' = false
  /\ prompt st' = prompt st.
Proof.
  intros Hp Hi Hd. cbv zeta. unfold handleManifest. rewrite Hp, Hi, Hd. repeat split.
Qed.

(** *** The component against the two handlers *)

Lemma backend_generate key up data :
  backend key up (API_BASE_URL ++ lit "/generate") data
  = axios_response (post_generate key up data).
Proof. reflexivity. Qed.

Lemma backend_diagram key up data :
  backend key up (API_BASE_URL ++ lit "/generate-diagram") data
  = axios_response (post_generate_diagram up data).
Proof. reflexivity. Qed.

(** A status other than 200 from [POST /generate] is a rejection for
    [axios]: the handler has no other status from 200 to 299. *)
Lemma axios_rejects_generate key up data res calls :
  post_generate key up data = (Normal res, calls) ->
  res_status res <> 200 ->
  axios_response (post_generate key up data) = Abrupt (str "AxiosError").
Proof.
  intros Hrun Hs. unfold axios_response. rewrite Hrun. cbn [fst].
  destruct ((200 <=? res_status res) && (res_status res <=? 299)) eqn:H2xx; [|reflexivity].
  exfalso. apply Hs.
  destruct (post_generate_statuses key up data) as (res' & calls' & Hrun' & Hstatus).
  rewrite Hrun in Hrun'. injection Hrun' as <- <-.
  destruct Hstatus as [E | [E | [E | (r & Hok & E)]]]; [exact E | | |];
    rewrite E in H2xx; try discriminate H2xx.
  unfold ok in Hok. congruence.
Qed.

(** X16.  The component against the two handlers: when [POST /generate]
    answers anything but 200 (no credential, the image model refusing or
    failing), the diagram is thrown away with the image, although
    [POST /generate-diagram] answered 200 with a diagram. *)
Theorem failed_image_discards_the_diagram out key up st res calls :
  axios_post out = backend key up ->
  blank (prompt st) = false ->
  post_generate key up (obj [("prompt", JStr (prompt st)); ("style", JStr (style st))])
  = (Normal res, calls) ->
  res_status res <> 200 ->
  let st' := fst (handleManifest out st) in
  fst (post_generate_diagram up (obj [("prompt", JStr (prompt st))]))
  = Normal (res_json 200
      (obj [("mermaidCode", JStr (mermaidCode_of up (prompt st)))]))
  /\ mermaidCode st' = JStr []
  /\ image st' = JNull
  /\ error st' = Some (lit "Neural manifestation partially failed. Check your connection.").
Proof.
  intros Hout Hp Hrun Hs. cbv zeta. split.
  - rewrite (post_generate_diagram_calls up (obj [("prompt", JStr (prompt st))])
               (JStr (prompt st)) (prompt st) eq_refl
               (not_blank_truthy _ Hp) eq_refl).
    reflexivity.
  - unfold handleManifest. rewrite Hp, Hout, backend_generate.
    rewrite (axios_rejects_generate key up _ res calls Hrun Hs). repeat split.
Qed.

(** X17.  The component against the two handlers, all going well: the
    image cell takes the data URI of the bytes the image model sent, the
    enhanced prompt cell the text [getEnhancedPrompt] resolved to, and the
    diagram cell the text [getMermaidCode] resolved to. *)
Theorem manifest_end_to_end out key up st hfResponse buffer :
  axios_post out = backend key up ->
  blank (prompt st) = false ->
  key_missing key = false ->
  style st <> [] ->
  fetch up MODEL_URL
    (hf_request key (enhancedPrompt_of up (prompt st) (style st)))
  = Normal hfResponse ->
  ok hfResponse = true ->
  arrayBuffer hfResponse = Normal buffer ->
  let st' := fst (handleManifest out st) in
  image st' = JStr (lit "data:image/jpeg;base64," ++ toString_base64 buffer)
  /\ enhancedPrompt st' = JStr (enhancedPrompt_of up (prompt st) (style st))
  /\ mermaidCode st' = JStr (mermaidCode_of up (prompt st))
  /\ error st' = None.
Proof.
  intros Hout Hp Hk Hst Hf Hok Hb. cbv zeta.
  pose proof (not_blank_truthy _ Hp) as Ht.
  assert (Hstyle : or_else (@JStr number (style st)) (str "realistic") = JStr (style st)).
  { unfold or_else. cbn. destruct (style st); [contradiction | reflexivity]. }
  assert (Hstext : ToString (or_else (@JStr number (style st)) (str "realistic"))
                   = Normal (style st)).
  { rewrite Hstyle. reflexivity. }
  unfold handleManifest. rewrite Hp, Hout, backend_generate, backend_diagram.
  unfold axios_response.
  rewrite (post_generate_calls key up
             (obj [("prompt", JStr (prompt st)); ("style", JStr (style st))])
             (JStr (prompt st)) (JStr (style st)) (prompt st) (style st)
             eq_refl eq_refl Ht Hk eq_refl Hstext).
  cbv zeta.
  rewrite (post_generate_diagram_calls up (obj [("prompt", JStr (prompt st))])
             (JStr (prompt st)) (prompt st) eq_refl Ht eq_refl).
  rewrite Hf, Hok, Hb. repeat split.
Qed.

(** *** What a session keeps *)

Lemma perform_style out db a st :
  In (style st) (map style_id STYLES) ->
  In (style (fst (perform out db a st))) (map style_id STYLES).
Proof.
  intros Hs. destruct a; cbn [perform fst]; try exact Hs.
  - destruct s; cbn; auto.
  - unfold handleManifest. destruct (blank (prompt st)); [exact Hs|]. cbn [fst].
    destruct (axios_post out _ _) as [i|]; [|exact Hs].
    destruct (axios_post out _ _) as [d|]; [|exact Hs].
    unfold show_results.
    destruct (member i "image"); [|exact Hs].
    destruct (member i "enhancedPrompt"); [|exact Hs].
    destruct (member d "mermaidCode"); exact Hs.
  - unfold handleSaveToCloud.
    destruct (negb (ToBoolean (image st)) && negb (ToBoolean (mermaidCode st))); [exact Hs|].
    destruct (isSaved st); [exact Hs|].
    destruct (blank (archivistName st)); [exact Hs|].
    destruct (addDoc out _ _); exact Hs.
  - unfold handleDelete.
    destruct (negb (window_confirm out _)); [exact Hs|].
    destruct (deleteDoc out _ _); exact Hs.
  - unfold useEffect_history. destruct (activeTab st); exact Hs.
Qed.

Lemma session_style steps st :
  In (style st) (map style_id STYLES) ->
  In (style (session steps st)) (map style_id STYLES).
Proof.
  revert st. induction steps as [|[[out db] a] rest IH]; intros st Hs; [exact Hs|].
  cbn [session]. apply IH, perform_style, Hs.
Qed.

(** X18.  Whatever is done to the component, its style cell holds the id
    of one of the four listed styles.  The request it sends to
    [POST /generate] therefore carries a style, and the handler never falls
    back on ['realistic'] for it: the model is asked for the style chosen. *)
Theorem style_is_always_a_listed_style steps key up :
  let st := session steps initial in
  In (style st) [lit "realistic"; lit "anime"; lit "cinematic"; lit "3d render"]
  /\ (blank (prompt st) = false -> key_missing key = false ->
      exists calls,
        snd (post_generate key up
               (obj [("prompt", JStr (prompt st)); ("style", JStr (style st))]))
        = GenerateContent (enhancement_systemPrompt (prompt st) (style st))
          :: calls).
Proof.
  cbv zeta.
  assert (Hs : In (style (session steps (@initial number))) (map style_id STYLES))
    by (apply session_style; left; reflexivity).
  split; [exact Hs|].
  intros Hp Hk.
  assert (Hd : ToString (or_else (@JStr number (style (session steps initial)))
                           (str "realistic"))
               = Normal (style (session steps initial))).
  { unfold or_else. cbn [ToBoolean].
    destruct Hs as [<- | [<- | [<- | [<- | []]]]]; reflexivity. }
  rewrite (post_generate_calls key up
             (obj [("prompt", JStr (prompt (session steps initial)));
                   ("style", JStr (style (session steps initial)))])
             (JStr (prompt (session steps initial))) (JStr (style (session steps initial)))
             (prompt (session steps initial)) (style (session steps initial))
             eq_refl eq_refl (not_blank_truthy _ Hp) Hk eq_refl Hd).
  cbv zeta. cbn [snd]. eauto.
Qed.

Lemma perform_idle out db a st :
  loading st = false /\ saving st = false /\ historyLoading st = false ->
  loading (fst (perform out db a st)) = false
  /\ saving (fst (perform out db a st)) = false
  /\ historyLoading (fst (perform out db a st)) = false.
Proof.
  intros (Hl & Hs & Hh).
  destruct a; cbn [perform fst]; try (repeat split; assumption).
  - unfold handleManifest. destruct (blank (prompt st)); [repeat split; assumption|].
    cbn [fst].
    destruct (axios_post out _ _) as [i|]; [|repeat split; assumption].
    destruct (axios_post out _ _) as [d|]; [|repeat split; assumption].
    unfold show_results.
    destruct (member i "image"); [|repeat split; assumption].
    destruct (member i "enhancedPrompt"); [|repeat split; assumption].
    destruct (member d "mermaidCode"); repeat split; assumption.
  - unfold handleSaveToCloud.
    destruct (negb (ToBoolean (image st)) && negb (ToBoolean (mermaidCode st)));
      [repeat split; assumption|].
    destruct (isSaved st); [repeat split; assumption|].
    destruct (blank (archivistName st)); [repeat split; assumption|].
    destruct (addDoc out _ _); repeat split; assumption.
  - unfold handleDelete.
    destruct (negb (window_confirm out _)); [repeat split; assumption|].
    destruct (deleteDoc out _ _); repeat split; assumption.
  - unfold useEffect_history. destruct (activeTab st); [repeat split; assumption|].
    unfold Client.fetchHistory. destruct (Client.getDocs db _); repeat split; assumption.
Qed.

(** X19.  No spinner is left on: after any sequence of actions, each run to
    its end, [loading], [saving] and [historyLoading] are false, whether the
    requests and the store calls succeeded or not. *)
Theorem no_spinner_left_on steps :
  loading (session steps (@initial number)) = false
  /\ saving (session steps (@initial number)) = false
  /\ historyLoading (session steps (@initial number)) = false.
Proof.
  assert (Hgen : forall st : @state number,
            loading st = false /\ saving st = false /\ historyLoading st = false ->
            loading (session steps st) = false /\ saving (session steps st) = false
            /\ historyLoading (session steps st) = false).
  { induction steps as [|[[out db] a] rest IH]; intros st Hst; [exact Hst|].
    cbn [session]. apply IH, perform_idle, Hst. }
  apply Hgen. repeat split.
Qed.

(** *** Archiving *)

(** X20.  [handleSaveToCloud] writes to the store only when there is an
    image or a diagram to archive, the result is not marked as saved, and the
    archivist name is not blank; what it writes then is one document, to the
    collection [visuals], made of the cells as they are.  With something to
    archive and a blank name it opens the name dialog instead. *)
Theorem save_writes_only_when_allowed out st :
  (forall collection data,
     In (AddDoc collection data) (snd (handleSaveToCloud out st)) ->
     (ToBoolean (image st) = true \/ ToBoolean (mermaidCode st) = true)
     /\ isSaved st = false
     /\ blank (archivistName st) = false
     /\ collection = "visuals"
     /\ data = [("type", Value (str "manifestation"));
                ("prompt", Value (JStr (prompt st)));
                ("image", Value (image st));
                ("enhancedPrompt", Value (enhancedPrompt st));
                ("mermaidCode", Value (mermaidCode st));
                ("style", Value (JStr (style st)));
                ("archivist", Value (JStr (archivistName st)));
                ("createdAt", serverTimestamp)])
  /\ ((ToBoolean (image st) = true \/ ToBoolean (mermaidCode st) = true) ->
      isSaved st = false ->
      blank (archivistName st) = true ->
      handleSaveToCloud out st = (setIsModalOpen true st, [])).
Proof.
  unfold handleSaveToCloud. split.
  - intros collection data Hin.
    destruct (negb (ToBoolean (image st)) && negb (ToBoolean (mermaidCode st))) eqn:Hn;
      [cbn in Hin; contradiction|].
    destruct (isSaved st) eqn:Hs; [cbn in Hin; contradiction|].
    destruct (blank (archivistName st)) eqn:Hb; [cbn in Hin; contradiction|].
    assert (Hany : ToBoolean (image st) = true \/ ToBoolean (mermaidCode st) = true).
    { destruct (ToBoolean (image st)); [left; reflexivity|].
      destruct (ToBoolean (mermaidCode st)); [right; reflexivity | discriminate Hn]. }
    destruct (addDoc out "visuals" (archive_data st)); cbn [snd] in Hin;
      destruct Hin as [E | [E | []]]; try discriminate E;
      injection E as <- <-; repeat split; exact Hany.
  - intros Hany Hs Hb. rewrite Hs, Hb.
    destruct Hany as [-> | ->]; [reflexivity|].
    rewrite andb_false_r. reflexivity.
Qed.

Lemma save_succeeds out st :
  ToBoolean (image st) = true \/ ToBoolean (mermaidCode st) = true ->
  isSaved st = false ->
  blank (archivistName st) = false ->
  addDoc out "visuals" (archive_data st) = true ->
  handleSaveToCloud out st
  = (setSaving false (setIsModalOpen false (setIsSaved true (setSaving true st))),
     [AddDoc "visuals" (archive_data st); SetTimeout 3000]).
Proof.
  intros Hany Hs Hb Hadd. unfold handleSaveToCloud. rewrite Hs, Hb, Hadd.
  destruct Hany as [-> | ->]; [reflexivity|].
  rewrite andb_false_r. reflexivity.
Qed.

(** X21.  After a save that succeeded the result is marked as saved and the
    name dialog is closed; saving again then writes nothing, whatever the
    store would answer.  Once the timer of three seconds has run, the same
    cells are written again as a new document. *)
Theorem save_is_not_repeated_until_the_timer out out' st :
  ToBoolean (image st) = true \/ ToBoolean (mermaidCode st) = true ->
  isSaved st = false ->
  blank (archivistName st) = false ->
  addDoc out "visuals" (archive_data st) = true ->
  let st' := fst (handleSaveToCloud out st) in
  snd (handleSaveToCloud out st) = [AddDoc "visuals" (archive_data st); SetTimeout 3000]
  /\ isSaved st' = true
  /\ isModalOpen st' = false
  /\ handleSaveToCloud out' st' = (st', [])
  /\ exists rest,
       snd (handleSaveToCloud out' (savedFlagExpires st'))
       = AddDoc "visuals" (archive_data st) :: rest.
Proof.
  intros Hany Hs Hb Hadd. cbv zeta.
  rewrite (save_succeeds out st Hany Hs Hb Hadd). cbn [fst snd].
  repeat split.
  - unfold handleSaveToCloud at 1. cbn [image mermaidCode isSaved setSaving setIsModalOpen setIsSaved].
    destruct (negb (ToBoolean (image st)) && negb (ToBoolean (mermaidCode st))); reflexivity.
  - unfold handleSaveToCloud, savedFlagExpires.
    cbn [image mermaidCode isSaved archivistName setSaving setIsModalOpen setIsSaved].
    rewrite Hb.
    assert (Hn : negb (ToBoolean (image st)) && negb (ToBoolean (mermaidCode st)) = false).
    { destruct Hany as [-> | ->]; [reflexivity | apply andb_false_r]. }
    rewrite Hn.
    destruct (addDoc out' "visuals" _); eexists; reflexivity.
Qed.

(** X22.  When the store refuses the document, the user is alerted, the
    result stays unsaved so that the save can be tried again, no timer is
    set and the name dialog stays as it was. *)
Theorem failed_save_can_be_retried out st :
  ToBoolean (image st) = true \/ ToBoolean (mermaidCode st) = true ->
  isSaved st = false ->
  blank (archivistName st) = false ->
  addDoc out "visuals" (archive_data st) = false ->
  let st' := fst (handleSaveToCloud out st) in
  snd (handleSaveToCloud out st)
  = [AddDoc "visuals" (archive_data st); Alert (lit "Failed to archive manifestation.")]
  /\ isSaved st' = false
  /\ saving st' = false
  /\ isModalOpen st' = isModalOpen st
  /\ archive_data st' = archive_data st.
Proof.
  intros Hany Hs Hb Hadd. cbv zeta. unfold handleSaveToCloud. rewrite Hs, Hb, Hadd.
  assert (Hn : negb (ToBoolean (image st)) && negb (ToBoolean (mermaidCode st)) = false).
  { destruct Hany as [-> | ->]; [reflexivity | apply andb_false_r]. }
  rewrite Hn. repeat split. exact Hs.
Qed.

(** X23.  Restoring an archived item fills the prompt and the three result
    cells from the item, but neither the style nor the saved mark: archiving
    it again writes the item's prompt, image, enhanced prompt and diagram
    under the style selected now, and writes nothing while the saved mark of
    an earlier save is still up. *)
Theorem restored_item_is_archived_under_current_style out st item :
  let st' := restoreItem item st in
  style st' = style st
  /\ isSaved st' = isSaved st
  /\ archive_data st'
     = [("type", Value (str "manifestation"));
        ("prompt", Value (JStr (Client.prompt (Client.data item))));
        ("image", Value (image_value (Client.data item)));
        ("enhancedPrompt", Value (JStr (Client.enhancedPrompt (Client.data item))));
        ("mermaidCode", Value (JStr (Client.mermaidCode (Client.data item))));
        ("style", Value (JStr (style st)));
        ("archivist", Value (JStr (archivistName st)));
        ("createdAt", serverTimestamp)]
  /\ (isSaved st = true -> handleSaveToCloud out st' = (st', [])).
Proof.
  cbv zeta. repeat split.
  intros Hs. unfold handleSaveToCloud.
  change (isSaved (restoreItem item st)) with (isSaved st). rewrite Hs.
  destruct (negb _ && negb _); reflexivity.
Qed.

(** *** Deleting and listing *)

Lemma StronglySorted_filter {A} (R : A -> A -> Prop) (P : A -> Prop)
    `{forall x, Decision (P x)} (l : list A) :
  StronglySorted R l -> StronglySorted R (filter P l).
Proof.
  induction 1 as [|a l Hl IH Ha]; [constructor|].
  rewrite filter_cons. destruct (decide (P a)); [|exact IH].
  constructor; [exact IH|].
  apply Forall_forall. intros x Hx. apply list_elem_of_filter in Hx as [_ Hx].
  rewrite Forall_forall in Ha. apply Ha, Hx.
Qed.

(** X24.  A delete the user confirmed and the store carried out takes the
    items with that id, and no other, out of the list on display; the items
    left keep their order, so a list ordered by creation time stays so. *)
Theorem delete_removes_the_item out st itemId :
  window_confirm out (lit "Are you sure you want to delete this visual?") = true ->
  deleteDoc out "visuals" itemId = true ->
  let st' := fst (handleDelete out itemId st) in
  snd (handleDelete out itemId st)
  = [Confirm (lit "Are you sure you want to delete this visual?"); DeleteDoc "visuals" itemId]
  /\ (forall item, In item (historyItems st')
                   <-> In item (historyItems st) /\ Client.id item <> itemId)
  /\ sublist (historyItems st') (historyItems st)
  /\ (forall R : Client.item -> Client.item -> Prop,
        StronglySorted R (historyItems st) -> StronglySorted R (historyItems st')).
Proof.
  intros Hc Hd. cbv zeta. unfold handleDelete. rewrite Hc, Hd. cbn [negb fst snd].
  change (historyItems (setHistoryItems ?v st)) with v.
  split; [reflexivity|]. split; [|split].
  - intros item. rewrite <- !list_elem_of_In, list_elem_of_filter. tauto.
  - apply sublist_filter.
  - intros R. apply StronglySorted_filter.
Qed.

(** A delete the user declined never reaches the store, and a delete
    the store refused ends in an alert; in both cases the component state is
    what it was, the list on display included. *)
Theorem delete_declined_or_failed out st itemId :
  (window_confirm out (lit "Are you sure you want to delete this visual?") = false ->
   handleDelete out itemId st
   = (st, [Confirm (lit "Are you sure you want to delete this visual?")]))
  /\ (window_confirm out (lit "Are you sure you want to delete this visual?") = true ->
      deleteDoc out "visuals" itemId = false ->
      handleDelete out itemId st
      = (st, [Confirm (lit "Are you sure you want to delete this visual?");
              DeleteDoc "visuals" itemId; Alert (lit "Failed to delete.")])).
Proof.
  unfold handleDelete. split.
  - intros ->. reflexivity.
  - intros -> ->. reflexivity.
Qed.

(** When the store cannot be reached, [fetchHistory] keeps the items
    it had, sets the error line to its fixed message and ends with
    [historyLoading] false. *)
Theorem history_failure_keeps_items db h :
  Client.reachable db = false ->
  Client.fetchHistory db h
  = {| Client.historyItems := Client.historyItems h;
       Client.historyLoading := false;
       Client.error := Some (lit "Failed to load history.") |}.
Proof.
  intros Hr. unfold Client.fetchHistory, Client.getDocs. rewrite Hr. reflexivity.
Qed.

End ComponentFacts.

(** ** What the two encodings of [POST /generate] keep *)

Section Encodings.

Context {number : Type} `{JsNumber number}.

(** X11.  The image string loses nothing of the payload: reading the
    base64 part back gives the bytes the image model sent, so two payloads
    that differ never give the same data URI. *)
Theorem image_data_uri_loses_nothing (buffer : list byte) :
  base64_decode (toString_base64 buffer) = map Byte.to_N buffer
  /\ forall buffer' : list byte,
       lit "data:image/jpeg;base64," ++ toString_base64 buffer
       = lit "data:image/jpeg;base64," ++ toString_base64 buffer' ->
       buffer = buffer'.
Proof.
  assert (Hback : forall b : list byte,
            base64_decode (toString_base64 b) = map Byte.to_N b).
  { intros b. apply base64_decode_octets, to_N_octets. }
  split; [apply Hback|].
  intros buffer' E. apply app_inv_head in E.
  apply to_N_map_inj. rewrite <- (Hback buffer), <- (Hback buffer'), E. reflexivity.
Qed.

(** X12.  The base64 part of the image string is well formed: four
    characters for every three bytes of payload, the last group padded, and
    no character outside the base64 alphabet and the padding sign. *)
Theorem image_data_uri_shape (buffer : list byte) :
  length (toString_base64 buffer) = (4 * ((length buffer + 2) / 3))%nat
  /\ Forall (fun c => isBase64Char c = true \/ c = PAD) (toString_base64 buffer).
Proof.
  unfold toString_base64. split.
  - rewrite base64_octets_length, length_map. reflexivity.
  - apply base64_octets_alphabet.
Qed.

(** X13.  The body sent to the image model determines the enhanced prompt:
    two enhanced prompts that differ never give the same body, whatever
    quotes, backslashes, control characters or lone surrogates they hold. *)
Theorem request_body_determines_the_enhanced_prompt
    (key key' : option (list N)) (enhancedPrompt enhancedPrompt' : list N) :
  unquote_units (quote_units enhancedPrompt) = enhancedPrompt
  /\ (body (hf_request key enhancedPrompt) = body (hf_request key' enhancedPrompt') ->
      enhancedPrompt = enhancedPrompt').
Proof.
  split; [apply unquote_quote_units | apply JSON_stringify_inputs_inj].
Qed.

End Encodings.

(** * The claims on sample requests *)

(** ** Where the code and the worded properties part *)

(** C1 as worded does not hold: the image model answers 503 and the
    endpoint answers 503, not 500. *)
Lemma generate_answers_503_not_500 :
  fetch (provider fox_text (Normal loading_response)) MODEL_URL
    (hf_request hf_key (lit "A red fox in deep snow, anime style"))
  = Normal loading_response
  /\ ok loading_response = false
  /\ post_generate hf_key (provider fox_text (Normal loading_response)) fox_request
     = (Normal (res_json 503
          (obj [("error", str "HF API failed");
                ("details", obj [("error", str "Model is loading")])])),
        [GenerateContent (enhancement_systemPrompt (lit "a red fox in snow") (lit "anime"));
         Fetch MODEL_URL (hf_request hf_key (lit "A red fox in deep snow, anime style"))])
  /\ res_status (res_json 503
         (obj [("error", str "HF API failed");
               ("details", @obj Z [("error", str "Model is loading")])])) <> 500.
Proof. repeat split. discriminate. Qed.

(** C2 as worded does not hold: a prompt of three spaces is empty once
    trimmed, yet neither endpoint answers 400 and both call upstream. *)
Lemma blank_prompt_is_not_rejected :
  Get blank_request "prompt" = Normal (JStr (lit "   "))
  /\ trim (lit "   ") = []
  /\ post_generate_diagram (provider (Normal fenced_diagram) (Normal image_response)) blank_request
     = (Normal (res_json 200
          (obj [("mermaidCode", JStr (lit "graph TD" ++ [LF] ++ lit "A[Start] --> B[Next]"))])),
        [GenerateContent (mermaid_systemPrompt (lit "   "))])
  /\ post_generate hf_key (provider fox_text (Normal image_response)) blank_request
     = (Normal (res_json 200
          (obj [("enhancedPrompt", JStr (lit "A red fox in deep snow, anime style"));
                ("image", JStr (lit "data:image/jpeg;base64,/9j/"))])),
        [GenerateContent (enhancement_systemPrompt (lit "   ") (lit "anime"));
         Fetch MODEL_URL (hf_request hf_key (lit "A red fox in deep snow, anime style"))]).
Proof. repeat split. Qed.

(** C3 as worded does not hold: of two markers before the diagram and two
    after it, one is removed at each end; the text returned still begins
    with a marker and still ends with one. *)
Lemma twice_fenced_diagram_keeps_markers :
  generateContent_text (provider (Normal twice_fenced_diagram) (Normal image_response))
    (mermaid_systemPrompt (lit "a red fox in snow"))
  = Normal twice_fenced_diagram
  /\ post_generate_diagram (provider (Normal twice_fenced_diagram) (Normal image_response))
       fox_request
     = (Normal (res_json 200
          (obj [("mermaidCode",
                 JStr (fence ++ lit "mermaid" ++ [LF] ++ lit "graph TD" ++ [LF]
                       ++ lit "A[Start] --> B[Next]" ++ [LF] ++ fence))])),
        [GenerateContent (mermaid_systemPrompt (lit "a red fox in snow"))])
  /\ startsWith fence
       (fence ++ lit "mermaid" ++ [LF] ++ lit "graph TD" ++ [LF]
        ++ lit "A[Start] --> B[Next]" ++ [LF] ++ fence) = true
  /\ endsWith fence
       (fence ++ lit "mermaid" ++ [LF] ++ lit "graph TD" ++ [LF]
        ++ lit "A[Start] --> B[Next]" ++ [LF] ++ fence) = true.
Proof. repeat split. Qed.

(** ** Requests that end in a [catch] block *)

(** The body [{"prompt":{"toString":1}}]: the prompt is truthy and cannot be
    converted. *)
Example unprintable_prompt_answers :
  ToBoolean (@obj Z [("toString", JNum 1%Z)]) = true
  /\ ToString (@obj Z [("toString", JNum 1%Z)])
     = Abrupt (TypeError (lit "Cannot convert object to primitive value"))
  /\ post_generate hf_key (provider fox_text (Normal image_response)) unprintable_request
     = (Normal (res_json 500 (obj [("error", str "Internal Server Error")])), [])
  /\ post_generate_diagram (provider fox_text (Normal image_response)) unprintable_request
     = (Normal (res_json 500
          (obj [("error", str "Failed to generate diagram");
                ("details", str "Cannot convert object to primitive value")])), []).
Proof. repeat split. Qed.

(** The same object as style: the two templates of the requester throw one
    after the other, and the handler answers 500 without a call. *)
Example unprintable_style_answers :
  getEnhancedPrompt (provider fox_text (Normal image_response))
    (str "a red fox in snow") (obj [("toString", JNum 1%Z)])
  = (Abrupt (TypeError (lit "Cannot convert object to primitive value")), [])
  /\ post_generate hf_key (provider fox_text (Normal image_response)) unprintable_style_request
     = (Normal (res_json 500 (obj [("error", str "Internal Server Error")])), []).
Proof. repeat split. Qed.

(** Called on its own, [getMermaidCode] turns the same prompt into the
    error graph. *)
Example unprintable_prompt_diagram_requester :
  getMermaidCode (provider fox_text (Normal image_response)) (obj [("toString", JNum 1%Z)])
  = (Normal (lit "graph TD" ++ [LF] ++ lit "A[Error] --> B[Diagram Generation Failed]"), []).
Proof. reflexivity. Qed.

(** An array prints as its elements, joined. *)
Example ToString_array :
  ToString (@JArr Z [str "a"; JNull; JArr [JNum 12%Z; JBool true]; JObj []])
  = Normal (lit "a,,12,true,[object Object]").
Proof. reflexivity. Qed.

(** No body at all. *)
Example absent_body_answers :
  post_generate hf_key (provider fox_text (Normal image_response)) JUndefined
  = (Normal (res_json 500 (obj [("error", str "Internal Server Error")])), [])
  /\ post_generate_diagram (provider fox_text (Normal image_response)) JUndefined
     = (Normal (res_json 500
          (obj [("error", str "Failed to generate diagram");
                ("details",
                 str "Cannot destructure property 'prompt' of 'req.body' as it is undefined.")])),
        []).
Proof. repeat split. Qed.

(** ** The theorems at work *)

Lemma generate_passes_upstream_status_witness :
  post_generate hf_key (provider fox_text (Normal loading_response)) fox_request
  = (Normal (res_json 503
       (obj [("error", str "HF API failed");
             ("details", obj [("error", str "Model is loading")])])),
     [GenerateContent (enhancement_systemPrompt (lit "a red fox in snow") (lit "anime"));
      Fetch MODEL_URL (hf_request hf_key (lit "A red fox in deep snow, anime style"))])
  /\ In (Fetch MODEL_URL (hf_request hf_key (lit "A red fox in deep snow, anime style")))
       [GenerateContent (enhancement_systemPrompt (lit "a red fox in snow") (lit "anime"));
        Fetch MODEL_URL (hf_request hf_key (lit "A red fox in deep snow, anime style"))]
  /\ fetch (provider fox_text (Normal loading_response)) MODEL_URL
       (hf_request hf_key (lit "A red fox in deep snow, anime style"))
     = Normal loading_response
  /\ ok loading_response = false
  /\ status loading_response = 503
  /\ @Normal Z _ (res_json 503
        (obj [("error", str "HF API failed");
              ("details", obj [("error", str "Model is loading")])]))
     = Normal (res_json (status loading_response)
         (obj [("error", str "HF API failed");
               ("details", match json loading_response with
                           | Normal errorData => errorData
                           | Abrupt _ => JObj []
                           end)])).
Proof.
  assert (Hin : In (Fetch MODEL_URL (hf_request hf_key (lit "A red fox in deep snow, anime style")))
                  [GenerateContent
                     (enhancement_systemPrompt (lit "a red fox in snow") (lit "anime"));
                   Fetch MODEL_URL (hf_request hf_key (lit "A red fox in deep snow, anime style"))])
    by (right; left; reflexivity).
  split; [reflexivity|]. split; [exact Hin|]. split; [reflexivity|]. split; [reflexivity|].
  split; [reflexivity|].
  exact (proj1 (generate_passes_upstream_status hf_key
                  (provider fox_text (Normal loading_response)) fox_request _ _ _ _
                  loading_response eq_refl Hin eq_refl eq_refl)).
Defined.

Lemma missing_prompt_rejected_witness :
  (Get (@obj Z [("style", str "anime")]) "prompt" = Normal JUndefined
   /\ ToBoolean (@JUndefined Z) = false
   /\ post_generate hf_key (provider fox_text (Normal image_response)) (obj [("style", str "anime")])
      = (Normal (res_json 400 (obj [("error", str "Prompt is required")])), [])
   /\ post_generate_diagram (provider fox_text (Normal image_response))
        (obj [("style", str "anime")])
      = (Normal (res_json 400 (obj [("error", str "Prompt is required")])), []))
  /\ (Get blank_request "prompt" = Normal (JStr (lit "   "))
      /\ lit "   " <> []
      /\ Forall (fun c => isWhiteSpace c = true) (lit "   ")
      /\ post_generate_diagram (provider (Normal fenced_diagram) (Normal image_response))
           blank_request
         = (Normal (res_json 200
              (obj [("mermaidCode",
                     JStr (mermaidCode_of (provider (Normal fenced_diagram) (Normal image_response))
                             (lit "   ")))])),
            [GenerateContent (mermaid_systemPrompt (lit "   "))])
      /\ fst (post_generate hf_key (provider (Normal fenced_diagram) (Normal image_response))
                blank_request)
         <> Normal (res_json 400 (obj [("error", str "Prompt is required")]))
      /\ exists calls,
           snd (post_generate hf_key (provider (Normal fenced_diagram) (Normal image_response))
                  blank_request)
           = GenerateContent (enhancement_systemPrompt (lit "   ") (lit "anime")) :: calls).
Proof.
  assert (Hne : lit "   " <> []) by discriminate.
  assert (Hws : Forall (fun c => isWhiteSpace c = true) (lit "   "))
    by (repeat constructor).
  split.
  - split; [reflexivity|]. split; [reflexivity|].
    exact (proj1 (missing_prompt_rejected hf_key (provider fox_text (Normal image_response))
                    (obj [("style", str "anime")]) JUndefined eq_refl) eq_refl).
  - split; [reflexivity|]. split; [exact Hne|]. split; [exact Hws|].
    pose proof (proj2 (missing_prompt_rejected hf_key
                         (provider (Normal fenced_diagram) (Normal image_response))
                         blank_request (JStr (lit "   ")) eq_refl)
                  (lit "   ") eq_refl Hne Hws) as (Hdiagram & Hnot400 & Hcalls).
    split; [exact Hdiagram|]. split; [exact Hnot400|].
    apply (Hcalls eq_refl (lit "anime")).
    exists (str "anime"). split; reflexivity.
Defined.

Lemma diagram_single_fence_layer_removed_witness :
  Get fox_request "prompt" = Normal (str "a red fox in snow")
  /\ ToBoolean (@str Z "a red fox in snow") = true
  /\ ToString (@str Z "a red fox in snow") = Normal (lit "a red fox in snow")
  /\ generateContent_text (provider (Normal preamble_diagram) (Normal image_response))
       (mermaid_systemPrompt (lit "a red fox in snow")) = Normal preamble_diagram
  /\ existsb (fun o => startsWith o (trim preamble_diagram)) doubled_openings = false
  /\ existsb (fun c => endsWith c (trim preamble_diagram)) doubled_closings = false
  /\ post_generate_diagram (provider (Normal preamble_diagram) (Normal image_response)) fox_request
     = (Normal (res_json 200
          (obj [("mermaidCode",
                 JStr (lit "Here is the diagram:" ++ [LF] ++ fence ++ lit "mermaid" ++ [LF]
                       ++ lit "graph TD"))])),
        [GenerateContent (mermaid_systemPrompt (lit "a red fox in snow"))])
  /\ startsWith fence (strip_fences (trim preamble_diagram)) = false
  /\ endsWith fence (strip_fences (trim preamble_diagram)) = false.
Proof.
  split; [reflexivity|]. split; [reflexivity|]. split; [reflexivity|]. split; [reflexivity|].
  split; [reflexivity|]. split; [reflexivity|]. split; [reflexivity|].
  destruct (diagram_single_fence_layer_removed
              (provider (Normal preamble_diagram) (Normal image_response)) fox_request
              (str "a red fox in snow") (lit "a red fox in snow") preamble_diagram
              eq_refl eq_refl eq_refl eq_refl)
    as (mermaidCode & _ & -> & Hlead & Htrail).
  split; [exact (Hlead eq_refl) | exact (Htrail eq_refl)].
Defined.

Lemma enhancement_falls_back_witness :
  ToString (@str Z "a red fox in snow") = Normal (lit "a red fox in snow")
  /\ ToString (@str Z "anime") = Normal (lit "anime")
  /\ generateContent_text (provider model_down (Normal image_response))
       (enhancement_systemPrompt (lit "a red fox in snow") (lit "anime"))
     = model_down
  /\ getEnhancedPrompt (provider model_down (Normal image_response))
       (str "a red fox in snow") (str "anime")
     = (Normal (lit "a red fox in snow, anime, high resolution, ultra detailed, cinematic lighting"),
        [GenerateContent (enhancement_systemPrompt (lit "a red fox in snow") (lit "anime"))])
  /\ fst (post_generate hf_key (provider model_down (Normal image_response)) fox_request)
     = Normal (res_json 200
         (obj [("enhancedPrompt",
                str "a red fox in snow, anime, high resolution, ultra detailed, cinematic lighting");
               ("image", str "data:image/jpeg;base64,/9j/")])).
Proof.
  split; [reflexivity|]. split; [reflexivity|]. split; [reflexivity|].
  pose proof (enhancement_falls_back (provider model_down (Normal image_response))
                (str "a red fox in snow") (str "anime") (lit "a red fox in snow") (lit "anime")
                (obj [("message", str "fetch failed")]) eq_refl eq_refl eq_refl)
    as [Hrequester Hendpoint].
  split; [exact Hrequester|].
  exact (Hendpoint hf_key fox_request (str "anime") image_response [xff; xd8; xff]%byte
           eq_refl eq_refl eq_refl eq_refl eq_refl eq_refl eq_refl eq_refl).
Defined.

Lemma diagram_falls_back_witness :
  ToString (@str Z "a red fox in snow") = Normal (lit "a red fox in snow")
  /\ generateContent_text (provider model_down (Normal image_response))
       (mermaid_systemPrompt (lit "a red fox in snow"))
     = model_down
  /\ Get fox_request "prompt" = Normal (str "a red fox in snow")
  /\ ToBoolean (@str Z "a red fox in snow") = true
  /\ getMermaidCode (provider model_down (Normal image_response)) (str "a red fox in snow")
     = (Normal (lit "graph TD" ++ [LF] ++ lit "A[Error] --> B[Diagram Generation Failed]"),
        [GenerateContent (mermaid_systemPrompt (lit "a red fox in snow"))])
  /\ post_generate_diagram (provider model_down (Normal image_response)) fox_request
     = (Normal (res_json 200
          (obj [("mermaidCode",
                 JStr (lit "graph TD" ++ [LF] ++ lit "A[Error] --> B[Diagram Generation Failed]"))])),
        [GenerateContent (mermaid_systemPrompt (lit "a red fox in snow"))]).
Proof.
  split; [reflexivity|]. split; [reflexivity|]. split; [reflexivity|]. split; [reflexivity|].
  pose proof (diagram_falls_back (provider model_down (Normal image_response))
                (str "a red fox in snow") (lit "a red fox in snow")
                (obj [("message", str "fetch failed")]) eq_refl eq_refl)
    as [Hrequester Hendpoint].
  split; [exact Hrequester|].
  exact (Hendpoint fox_request eq_refl eq_refl).
Defined.

Lemma generate_without_credential_witness :
  Get fox_request "prompt" = Normal (str "a red fox in snow")
  /\ ToBoolean (@str Z "a red fox in snow") = true
  /\ key_missing None = true
  /\ post_generate None (provider fox_text (Normal image_response)) fox_request
     = (Normal (res_json 500 (obj [("error", str "HF Key missing")])), []).
Proof.
  split; [reflexivity|]. split; [reflexivity|]. split; [reflexivity|].
  exact (generate_without_credential None (provider fox_text (Normal image_response)) fox_request
           (str "a red fox in snow") eq_refl eq_refl eq_refl).
Defined.

Lemma generate_success_shape_witness :
  post_generate hf_key (provider two_lines_text (Normal man_response)) fox_request
  = (Normal (res_json 200
       (obj [("enhancedPrompt", JStr (lit "a fox" ++ [LF] ++ lit "in snow\deep"));
             ("image", str "data:image/jpeg;base64,TWFu")])),
     [GenerateContent (enhancement_systemPrompt (lit "a red fox in snow") (lit "anime"));
      Fetch MODEL_URL
        {| method := lit "POST";
           headers := [(lit "Authorization", lit "Bearer hf_sample");
                       (lit "Content-Type", lit "application/json")];
           body := lit "{" ++ [DQUOTE] ++ lit "inputs" ++ [DQUOTE] ++ lit ":" ++ [DQUOTE]
                   ++ lit "a fox\nin snow\\deep" ++ [DQUOTE] ++ lit "}" |}])
  /\ res_status (res_json 200
       (obj [("enhancedPrompt", JStr (lit "a fox" ++ [LF] ++ lit "in snow\deep"));
             ("image", @str Z "data:image/jpeg;base64,TWFu")])) = 200
  /\ exists prompt style promptText styleText enhancedPrompt init hfResponse buffer quoted payload,
       Get fox_request "prompt" = Normal prompt
       /\ Get fox_request "style" = Normal style
       /\ ToString prompt = Normal promptText
       /\ ToString (or_else style (str "realistic")) = Normal styleText
       /\ getEnhancedPrompt (provider two_lines_text (Normal man_response)) prompt
            (or_else style (str "realistic"))
          = (Normal enhancedPrompt,
             [GenerateContent (enhancement_systemPrompt promptText styleText)])
       /\ [GenerateContent (enhancement_systemPrompt (lit "a red fox in snow") (lit "anime"));
           Fetch MODEL_URL
             {| method := lit "POST";
                headers := [(lit "Authorization", lit "Bearer hf_sample");
                            (lit "Content-Type", lit "application/json")];
                body := lit "{" ++ [DQUOTE] ++ lit "inputs" ++ [DQUOTE] ++ lit ":" ++ [DQUOTE]
                        ++ lit "a fox\nin snow\\deep" ++ [DQUOTE] ++ lit "}" |}]
          = [GenerateContent (enhancement_systemPrompt promptText styleText);
             Fetch MODEL_URL init]
       /\ method init = lit "POST"
       /\ body init
          = lit "{" ++ [DQUOTE] ++ lit "inputs" ++ [DQUOTE] ++ lit ":"
            ++ [DQUOTE] ++ quoted ++ [DQUOTE] ++ lit "}"
       /\ unquote_units quoted = enhancedPrompt
       /\ fetch (provider two_lines_text (Normal man_response)) MODEL_URL init = Normal hfResponse
       /\ arrayBuffer hfResponse = Normal buffer
       /\ @res_json Z 200
            (obj [("enhancedPrompt", JStr (lit "a fox" ++ [LF] ++ lit "in snow\deep"));
                  ("image", str "data:image/jpeg;base64,TWFu")])
          = res_json 200
              (obj [("enhancedPrompt", JStr enhancedPrompt);
                    ("image", JStr (lit "data:image/jpeg;base64," ++ payload))])
       /\ base64_decode payload = map Byte.to_N buffer.
Proof.
  split; [reflexivity|]. split; [reflexivity|].
  exact (generate_success_shape hf_key (provider two_lines_text (Normal man_response))
           fox_request _ _ eq_refl eq_refl).
Defined.

Lemma generate_style_defaults_to_realistic_witness :
  (Get fox_request_plain "prompt" = Normal (str "a red fox in snow")
   /\ Get fox_request_plain "style" = Normal JUndefined
   /\ ToBoolean (@JUndefined Z) = false
   /\ ToBoolean (@str Z "a red fox in snow") = true
   /\ key_missing hf_key = false
   /\ ToString (@str Z "a red fox in snow") = Normal (lit "a red fox in snow")
   /\ post_generate hf_key (provider model_down (Normal image_response)) fox_request_plain
      = (Normal (res_json 200
           (obj [("enhancedPrompt",
                  str "a red fox in snow, realistic, high resolution, ultra detailed, cinematic lighting");
                 ("image", str "data:image/jpeg;base64,/9j/")])),
         [GenerateContent (enhancement_systemPrompt (lit "a red fox in snow") (lit "realistic"));
          Fetch MODEL_URL
            (hf_request hf_key
               (lit "a red fox in snow, realistic, high resolution, ultra detailed, cinematic lighting"))])
   /\ exists res calls,
        post_generate hf_key (provider model_down (Normal image_response)) fox_request_plain
        = (res, GenerateContent
                  (enhancement_systemPrompt (lit "a red fox in snow") (lit "realistic")) :: calls))
  /\ (Get fox_request_empty_style "style" = Normal (JStr [])
      /\ ToBoolean (@JStr Z []) = false
      /\ exists res calls,
           post_generate hf_key (provider fox_text (Normal image_response)) fox_request_empty_style
           = (res, GenerateContent
                     (enhancement_systemPrompt (lit "a red fox in snow") (lit "realistic"))
                   :: calls)).
Proof.
  split.
  - split; [reflexivity|]. split; [reflexivity|]. split; [reflexivity|]. split; [reflexivity|].
    split; [reflexivity|]. split; [reflexivity|]. split; [reflexivity|].
    destruct (proj2 (generate_style_defaults_to_realistic hf_key
                       (provider model_down (Normal image_response)) fox_request_plain
                       (str "a red fox in snow") JUndefined (lit "a red fox in snow")
                       eq_refl eq_refl eq_refl eq_refl eq_refl eq_refl))
      as (res & calls & Hrun & _).
    exists res, calls. exact Hrun.
  - split; [reflexivity|]. split; [reflexivity|].
    destruct (proj2 (generate_style_defaults_to_realistic hf_key
                       (provider fox_text (Normal image_response)) fox_request_empty_style
                       (str "a red fox in snow") (JStr []) (lit "a red fox in snow")
                       eq_refl eq_refl eq_refl eq_refl eq_refl eq_refl))
      as (res & calls & Hrun & _).
    exists res, calls. exact Hrun.
Defined.

Lemma rate_limit_per_window_witness :
  Forall (fun req : @request Z => (0 * 900000 <= received req < (0 + 1) * 900000)%Z) burst
  /\ requests_from (lit "10.0.0.1") burst = 101%nat
  /\ served_to (lit "10.0.0.1")
       (serve hf_key (provider fox_text (Normal image_response)) fresh_store burst) = 100%nat
  /\ refused_to (lit "10.0.0.1")
       (serve hf_key (provider fox_text (Normal image_response)) fresh_store burst) = 1%nat
  /\ map (fun e => snd e)
       (skipn 99 (serve hf_key (provider fox_text (Normal image_response)) fresh_store burst))
     = [(true, get_root);
        (false,
         (Normal (res_json 429
            (obj [("error",
                   str "Too many requests from this IP, please try again after 15 minutes")])),
          []))]
  /\ served_to (lit "10.0.0.1")
       (serve hf_key (provider fox_text (Normal image_response)) fresh_store
          (burst ++ [request_at (lit "10.0.0.1") 900000]))
     = 101%nat.
Proof.
  assert (Hw : Forall (fun req : @request Z =>
                         (0 * 900000 <= received req < (0 + 1) * 900000)%Z) burst).
  { apply Forall_forall. intros req Hin. apply list_elem_of_In, repeat_spec in Hin.
    subst req. cbn. lia. }
  assert (Hlater : Forall (fun req : @request Z =>
                             (1 * 900000 <= received req < (1 + 1) * 900000)%Z)
                     [request_at (lit "10.0.0.1") 900000]).
  { repeat constructor; cbn; lia. }
  assert (Hne : burst <> []) by discriminate.
  assert (Hother : (1 <> 0)%Z) by discriminate.
  pose proof (rate_limit_per_window hf_key (provider fox_text (Normal image_response))
                fresh_store burst 0%Z (lit "10.0.0.1") Hw)
    as (_ & Hserved & Hrefused & _ & _ & Hnext).
  split; [exact Hw|]. split; [vm_compute; reflexivity|].
  split; [rewrite Hserved; vm_compute; reflexivity|].
  split; [rewrite Hrefused; vm_compute; reflexivity|].
  split; [vm_compute; reflexivity|].
  rewrite (Hnext [request_at (lit "10.0.0.1") 900000] 1%Z Hne Hother Hlater), Hserved.
  vm_compute. reflexivity.
Defined.

Lemma history_newest_first_witness :
  Client.reachable three_records = true
  /\ NoDup (map (fun d => Client.createdAt (Client.doc_data d))
             (Client.documents three_records "visuals"))
  /\ StronglySorted Z.gt
       (map (fun i => Client.createdAt (Client.data i))
          (Client.historyItems (Client.fetchHistory three_records empty_history)))
  /\ map (fun i => Client.createdAt (Client.data i))
       (Client.historyItems (Client.fetchHistory three_records empty_history))
     = [30; 20; 10]%Z.
Proof.
  assert (Hnd : NoDup (map (fun d => Client.createdAt (Client.doc_data d))
                         (Client.documents three_records "visuals"))).
  { apply NoDup_ListNoDup. repeat constructor; simpl; intuition discriminate. }
  split; [reflexivity|]. split; [exact Hnd|].
  split; [|reflexivity].
  exact (proj1 (history_newest_first three_records empty_history eq_refl Hnd)).
Defined.

(** ** The further properties at work *)

Lemma enhanced_prompt_is_the_trimmed_text_witness :
  ToString (@str Z "a red fox in snow") = Normal (lit "a red fox in snow")
  /\ ToString (@str Z "anime") = Normal (lit "anime")
  /\ generateContent_text (provider fox_text (Normal image_response))
       (enhancement_systemPrompt (lit "a red fox in snow") (lit "anime")) = fox_text
  /\ exists enhancedPrompt,
       getEnhancedPrompt (provider fox_text (Normal image_response))
         (str "a red fox in snow") (str "anime")
       = (Normal enhancedPrompt,
          [GenerateContent (enhancement_systemPrompt (lit "a red fox in snow") (lit "anime"))])
       /\ (exists a b, lit "  A red fox in deep snow, anime style " ++ [LF]
                       = a ++ enhancedPrompt ++ b
             /\ Forall (fun c => isWhiteSpace c = true) a
             /\ Forall (fun c => isWhiteSpace c = true) b)
       /\ (forall c r, enhancedPrompt = c :: r -> isWhiteSpace c = false)
       /\ (forall r c, enhancedPrompt = r ++ [c] -> isWhiteSpace c = false).
Proof.
  split; [reflexivity|]. split; [reflexivity|]. split; [reflexivity|].
  exact (enhanced_prompt_is_the_trimmed_text (provider fox_text (Normal image_response))
           (str "a red fox in snow") (str "anime") (lit "a red fox in snow") (lit "anime")
           (lit "  A red fox in deep snow, anime style " ++ [LF]) eq_refl eq_refl eq_refl).
Defined.

Lemma blank_model_text_sends_empty_inputs_witness :
  Get fox_request "prompt" = Normal (str "a red fox in snow")
  /\ Get fox_request "style" = Normal (str "anime")
  /\ ToBoolean (@str Z "a red fox in snow") = true
  /\ key_missing hf_key = false
  /\ ToString (@str Z "a red fox in snow") = Normal (lit "a red fox in snow")
  /\ ToString (or_else (@str Z "anime") (str "realistic")) = Normal (lit "anime")
  /\ Forall (fun c => isWhiteSpace c = true) [0x20; LF]
  /\ exists init,
       snd (post_generate hf_key (provider (Normal [0x20; LF]) (Normal image_response))
              fox_request)
       = [GenerateContent (enhancement_systemPrompt (lit "a red fox in snow") (lit "anime"));
          Fetch MODEL_URL init]
       /\ body init
          = lit "{" ++ [DQUOTE] ++ lit "inputs" ++ [DQUOTE] ++ lit ":" ++ [DQUOTE; DQUOTE]
            ++ lit "}".
Proof.
  assert (Hws : Forall (fun c => isWhiteSpace c = true) [0x20; LF])
    by (repeat constructor).
  split; [reflexivity|]. split; [reflexivity|]. split; [reflexivity|]. split; [reflexivity|].
  split; [reflexivity|]. split; [reflexivity|]. split; [exact Hws|].
  exact (blank_model_text_sends_empty_inputs hf_key
           (provider (Normal [0x20; LF]) (Normal image_response)) fox_request
           (str "a red fox in snow") (str "anime") (lit "a red fox in snow") (lit "anime")
           [0x20; LF] eq_refl eq_refl eq_refl eq_refl eq_refl eq_refl eq_refl Hws).
Defined.

Lemma diagram_unfenced_text_unchanged_witness :
  Get fox_request "prompt" = Normal (str "a red fox in snow")
  /\ ToBoolean (@str Z "a red fox in snow") = true
  /\ ToString (@str Z "a red fox in snow") = Normal (lit "a red fox in snow")
  /\ startsWith fence (trim (lit " graph TD ")) = false
  /\ endsWith fence (trim (lit " graph TD ")) = false
  /\ fst (post_generate_diagram (provider (Normal (lit " graph TD ")) (Normal image_response))
            fox_request)
     = Normal (res_json 200 (obj [("mermaidCode", JStr (trim (lit " graph TD ")))])).
Proof.
  split; [reflexivity|]. split; [reflexivity|]. split; [reflexivity|]. split; [reflexivity|].
  split; [reflexivity|].
  exact (diagram_unfenced_text_unchanged
           (provider (Normal (lit " graph TD ")) (Normal image_response)) fox_request
           (str "a red fox in snow") (lit "a red fox in snow")
           (lit " graph TD ") eq_refl eq_refl eq_refl eq_refl eq_refl eq_refl).
Defined.

Lemma diagram_text_is_part_of_model_text_witness :
  ToString (@str Z "a red fox in snow") = Normal (lit "a red fox in snow")
  /\ generateContent_text (provider (Normal twice_fenced_diagram) (Normal image_response))
       (mermaid_systemPrompt (lit "a red fox in snow")) = Normal twice_fenced_diagram
  /\ exists mermaidCode a b q,
       getMermaidCode (provider (Normal twice_fenced_diagram) (Normal image_response))
         (str "a red fox in snow")
       = (Normal mermaidCode, [GenerateContent (mermaid_systemPrompt (lit "a red fox in snow"))])
       /\ trim twice_fenced_diagram = a ++ b ++ mermaidCode ++ q
       /\ In a [ []; fence ++ lit "mermaid"; fence ++ lit "mermaid" ++ [LF] ]
       /\ In b [ []; fence; fence ++ [LF] ]
       /\ In q [ []; fence; LF :: fence ].
Proof.
  split; [reflexivity|]. split; [reflexivity|].
  exact (diagram_text_is_part_of_model_text
           (provider (Normal twice_fenced_diagram) (Normal image_response))
           (str "a red fox in snow") (lit "a red fox in snow") twice_fenced_diagram
           eq_refl eq_refl).
Defined.

Lemma generate_exception_is_500_witness :
  Get fox_request "prompt" = Normal (str "a red fox in snow")
  /\ Get fox_request "style" = Normal (str "anime")
  /\ ToBoolean (@str Z "a red fox in snow") = true
  /\ key_missing hf_key = false
  /\ ToString (@str Z "a red fox in snow") = Normal (lit "a red fox in snow")
  /\ ToString (or_else (@str Z "anime") (str "realistic")) = Normal (lit "anime")
  /\ fetch (provider fox_text model_down_fetch) MODEL_URL
       (hf_request hf_key
          (enhancedPrompt_of (provider fox_text model_down_fetch)
             (lit "a red fox in snow") (lit "anime")))
     = model_down_fetch
  /\ post_generate hf_key (provider fox_text model_down_fetch) fox_request
     = (Normal (res_json 500 (obj [("error", str "Internal Server Error")])),
        [GenerateContent (enhancement_systemPrompt (lit "a red fox in snow") (lit "anime"));
         Fetch MODEL_URL (hf_request hf_key (lit "A red fox in deep snow, anime style"))]).
Proof.
  split; [reflexivity|]. split; [reflexivity|]. split; [reflexivity|]. split; [reflexivity|].
  split; [reflexivity|]. split; [reflexivity|]. split; [reflexivity|].
  exact (generate_exception_is_500 hf_key (provider fox_text model_down_fetch) fox_request
           (str "a red fox in snow") (str "anime") (lit "a red fox in snow") (lit "anime")
           eq_refl eq_refl eq_refl eq_refl eq_refl eq_refl
           (or_introl (ex_intro _ (obj [("message", str "fetch failed")]) eq_refl))).
Defined.

Lemma generate_succeeds_on_any_2xx_witness :
  Get fox_request "prompt" = Normal (str "a red fox in snow")
  /\ Get fox_request "style" = Normal (str "anime")
  /\ ToBoolean (@str Z "a red fox in snow") = true
  /\ key_missing hf_key = false
  /\ ToString (@str Z "a red fox in snow") = Normal (lit "a red fox in snow")
  /\ ToString (or_else (@str Z "anime") (str "realistic")) = Normal (lit "anime")
  /\ 200 <= status created_response <= 299
  /\ fst (post_generate hf_key (provider fox_text (Normal created_response)) fox_request)
     = Normal (res_json 200
         (obj [("enhancedPrompt", JStr (lit "A red fox in deep snow, anime style"));
               ("image", JStr (lit "data:image/jpeg;base64," ++ toString_base64 [xff; xd8; xff]%byte))])).
Proof.
  assert (Hs : 200 <= status created_response <= 299) by (cbn; lia).
  split; [reflexivity|]. split; [reflexivity|]. split; [reflexivity|]. split; [reflexivity|].
  split; [reflexivity|]. split; [reflexivity|]. split; [exact Hs|].
  exact (generate_succeeds_on_any_2xx hf_key (provider fox_text (Normal created_response))
           fox_request (str "a red fox in snow") (str "anime")
           (lit "a red fox in snow") (lit "anime") created_response [xff; xd8; xff]%byte
           eq_refl eq_refl eq_refl eq_refl eq_refl eq_refl eq_refl Hs eq_refl).
Defined.

Lemma handlers_see_prompt_through_coercions_witness :
  Get (@obj Z [("prompt", JObj [])]) "prompt" = Normal (JObj [])
  /\ Get (@obj Z [("prompt", str "[object Object]")]) "prompt" = Normal (str "[object Object]")
  /\ ToBoolean (@JObj Z []) = ToBoolean (@str Z "[object Object]")
  /\ ToString (@JObj Z []) = ToString (@str Z "[object Object]")
  /\ post_generate_diagram (provider fox_text (Normal image_response))
       (obj [("prompt", JObj [])])
     = post_generate_diagram (provider fox_text (Normal image_response))
         (obj [("prompt", str "[object Object]")])
  /\ post_generate hf_key (provider fox_text (Normal image_response))
       (obj [("prompt", JObj [])])
     = post_generate hf_key (provider fox_text (Normal image_response))
         (obj [("prompt", str "[object Object]")]).
Proof.
  split; [reflexivity|]. split; [reflexivity|]. split; [reflexivity|]. split; [reflexivity|].
  pose proof (handlers_see_prompt_through_coercions hf_key
                (provider fox_text (Normal image_response))
                (obj [("prompt", JObj [])]) (obj [("prompt", str "[object Object]")])
                (JObj []) (str "[object Object]") eq_refl eq_refl eq_refl eq_refl)
    as [Hdiagram Hgenerate].
  split; [exact Hdiagram|].
  exact (Hgenerate JUndefined JUndefined eq_refl eq_refl eq_refl).
Defined.

Lemma unconvertible_prompt_or_style_is_500_witness :
  Get unprintable_request "prompt" = Normal (obj [("toString", JNum 1%Z)])
  /\ Get unprintable_request "style" = Normal JUndefined
  /\ hasOwnProperty [(lit "toString", @JNum Z 1%Z)] "toString" = true
  /\ post_generate_diagram (provider fox_text (Normal image_response)) unprintable_request
     = (Normal (res_json 500
          (obj [("error", str "Failed to generate diagram");
                ("details", str "Cannot convert object to primitive value")])), [])
  /\ post_generate hf_key (provider fox_text (Normal image_response)) unprintable_request
     = (Normal (res_json 500 (obj [("error", str "Internal Server Error")])), [])
  /\ post_generate hf_key (provider fox_text (Normal image_response)) unprintable_style_request
     = (Normal (res_json 500 (obj [("error", str "Internal Server Error")])), []).
Proof.
  split; [reflexivity|]. split; [reflexivity|]. split; [reflexivity|].
  pose proof (proj1 (unconvertible_prompt_or_style_is_500 hf_key
                       (provider fox_text (Normal image_response)) unprintable_request
                       (obj [("toString", JNum 1%Z)]) JUndefined
                       [(lit "toString", JNum 1%Z)] [] [] eq_refl eq_refl eq_refl)
                (or_introl eq_refl)) as [Hdiagram Hgenerate].
  split; [exact Hdiagram|]. split; [exact (Hgenerate eq_refl)|].
  exact (proj2 (unconvertible_prompt_or_style_is_500 hf_key
                  (provider fox_text (Normal image_response)) unprintable_style_request
                  (str "a red fox in snow") (obj [("toString", JNum 1%Z)])
                  [(lit "toString", JNum 1%Z)] [] [] eq_refl eq_refl eq_refl)
           (or_introl eq_refl) eq_refl eq_refl).
Defined.

Lemma request_without_body_is_500_witness :
  (@JUndefined Z = JUndefined \/ @JUndefined Z = JNull)
  /\ post_generate hf_key (provider fox_text (Normal image_response)) JUndefined
     = (Normal (res_json 500 (obj [("error", str "Internal Server Error")])), [])
  /\ exists message,
       post_generate_diagram (provider fox_text (Normal image_response)) JUndefined
       = (Normal (res_json 500 (obj [("error", str "Failed to generate diagram");
                                     ("details", JStr message)])), []).
Proof.
  split; [left; reflexivity|].
  exact (request_without_body_is_500 hf_key (provider fox_text (Normal image_response))
           JUndefined (or_introl eq_refl)).
Defined.

Lemma diagram_one_layer_leaves_no_marker_witness :
  ToString (@str Z "a red fox in snow") = Normal (lit "a red fox in snow")
  /\ generateContent_text (provider (Normal fenced_diagram) (Normal image_response))
       (mermaid_systemPrompt (lit "a red fox in snow")) = Normal fenced_diagram
  /\ trim fenced_diagram
     = (fence ++ lit "mermaid" ++ [LF])
       ++ (lit "graph TD" ++ [LF] ++ lit "A[Start] --> B[Next]") ++ (LF :: fence)
  /\ In (fence ++ lit "mermaid" ++ [LF]) openings
  /\ In (LF :: fence) closings
  /\ includes fence (lit "graph TD" ++ [LF] ++ lit "A[Start] --> B[Next]") = false
  /\ exists mermaidCode,
       getMermaidCode (provider (Normal fenced_diagram) (Normal image_response))
         (str "a red fox in snow")
       = (Normal mermaidCode, [GenerateContent (mermaid_systemPrompt (lit "a red fox in snow"))])
       /\ mermaidCode = strip_fences (trim fenced_diagram)
       /\ includes fence mermaidCode = false.
Proof.
  assert (Ho : In (fence ++ lit "mermaid" ++ [LF]) openings)
    by (right; right; right; right; left; reflexivity).
  assert (Hc : In (LF :: fence) closings)
    by (right; right; left; reflexivity).
  split; [reflexivity|]. split; [reflexivity|]. split; [reflexivity|].
  split; [exact Ho|]. split; [exact Hc|]. split; [reflexivity|].
  exact (diagram_one_layer_leaves_no_marker
           (provider (Normal fenced_diagram) (Normal image_response))
           (str "a red fox in snow") (lit "a red fox in snow") fenced_diagram
           (fence ++ lit "mermaid" ++ [LF])
           (lit "graph TD" ++ [LF] ++ lit "A[Start] --> B[Next]") (LF :: fence)
           eq_refl eq_refl eq_refl Ho Hc eq_refl).
Defined.

Lemma generate_call_discipline_witness :
  Get unprintable_style_request "prompt" = Normal (str "a red fox in snow")
  /\ Get unprintable_style_request "style" = Normal (obj [("toString", JNum 1%Z)])
  /\ (exists e, ToString (or_else (@obj Z [("toString", JNum 1%Z)]) (str "realistic")) = Abrupt e)
  /\ snd (post_generate hf_key (provider fox_text (Normal image_response))
            unprintable_style_request) = []
  /\ (snd (post_generate hf_key (provider fox_text (Normal image_response)) fox_request) = []
      \/ exists systemPrompt init credential,
           snd (post_generate hf_key (provider fox_text (Normal image_response)) fox_request)
           = [GenerateContent systemPrompt; Fetch MODEL_URL init]
           /\ hf_key = Some credential
           /\ method init = lit "POST"
           /\ headers init
              = [(lit "Authorization", lit "Bearer " ++ credential);
                 (lit "Content-Type", lit "application/json")]).
Proof.
  assert (Hthrow : exists e,
            ToString (or_else (@obj Z [("toString", JNum 1%Z)]) (str "realistic")) = Abrupt e)
    by (eexists; reflexivity).
  split; [reflexivity|]. split; [reflexivity|]. split; [exact Hthrow|]. split.
  - exact (proj2 (proj2 (proj2 (generate_call_discipline hf_key
                                  (provider fox_text (Normal image_response))
                                  unprintable_style_request))
                    (str "a red fox in snow") (obj [("toString", JNum 1%Z)]) eq_refl eq_refl)
             (or_intror (or_intror (or_intror Hthrow)))).
  - exact (proj1 (generate_call_discipline hf_key (provider fox_text (Normal image_response))
                    fox_request)).
Defined.

Lemma manifest_blank_prompt_sends_nothing_witness :
  Forall (fun c => isWhiteSpace c = true) (Studio.prompt blank_typed)
  /\ Studio.handleManifest (surroundings (fun _ => Normal both_answers) true) blank_typed
     = (Studio.setError (Some (lit "Please enter a concept to manifest.")) blank_typed, []).
Proof.
  assert (Hws : Forall (fun c => isWhiteSpace c = true) (Studio.prompt blank_typed))
    by (repeat constructor).
  split; [exact Hws|].
  exact (proj1 (manifest_blank_prompt_sends_nothing
                  (surroundings (fun _ => Normal both_answers) true) blank_typed Hws)).
Defined.


Lemma manifest_failure_shows_nothing_witness :
  Studio.blank (Studio.prompt fox_shown) = false
  /\ (exists e, Studio.axios_post (surroundings (fun _ => request_rejected) true)
                  (Studio.API_BASE_URL ++ lit "/generate")
                  (obj [("prompt", JStr (Studio.prompt fox_shown));
                        ("style", JStr (Studio.style fox_shown))]) = Abrupt e)
  /\ Studio.image (fst (Studio.handleManifest (surroundings (fun _ => request_rejected) true) fox_shown))
     = JNull
  /\ Studio.mermaidCode
       (fst (Studio.handleManifest (surroundings (fun _ => request_rejected) true) fox_shown))
     = JStr [].
Proof.
  assert (Hrej : exists e,
            Studio.axios_post (surroundings (fun _ => request_rejected) true)
              (Studio.API_BASE_URL ++ lit "/generate")
              (obj [("prompt", JStr (Studio.prompt fox_shown));
                    ("style", JStr (Studio.style fox_shown))]) = Abrupt e)
    by (eexists; reflexivity).
  split; [reflexivity|]. split; [exact Hrej|].
  pose proof (manifest_failure_shows_nothing (surroundings (fun _ => request_rejected) true)
                fox_shown eq_refl (or_introl Hrej)) as (Hi & Hm & _).
  split; [exact Hi | exact Hm].
Defined.


Lemma failed_image_discards_the_diagram_witness :
  Studio.axios_post (served_by None (provider (Normal fenced_diagram) (Normal image_response)))
  = Studio.backend None (provider (Normal fenced_diagram) (Normal image_response))
  /\ Studio.blank (Studio.prompt fox_typed) = false
  /\ post_generate None (provider (Normal fenced_diagram) (Normal image_response))
       (obj [("prompt", JStr (Studio.prompt fox_typed)); ("style", JStr (Studio.style fox_typed))])
     = (Normal (res_json 500 (obj [("error", str "HF Key missing")])), [])
  /\ res_status (@res_json Z 500 (obj [("error", str "HF Key missing")])) <> 200
  /\ Studio.mermaidCode
       (fst (Studio.handleManifest
               (served_by None (provider (Normal fenced_diagram) (Normal image_response)))
               fox_typed))
     = JStr [].
Proof.
  assert (Hs : res_status (@res_json Z 500 (obj [("error", str "HF Key missing")])) <> 200)
    by discriminate.
  split; [reflexivity|]. split; [reflexivity|]. split; [reflexivity|]. split; [exact Hs|].
  exact (proj1 (proj2 (failed_image_discards_the_diagram
    (served_by None (provider (Normal fenced_diagram) (Normal image_response)))
    None (provider (Normal fenced_diagram) (Normal image_response)) fox_typed
    (res_json 500 (obj [("error", str "HF Key missing")])) [] eq_refl eq_refl eq_refl Hs))).
Defined.

Lemma manifest_end_to_end_witness :
  Studio.blank (Studio.prompt fox_typed) = false
  /\ key_missing hf_key = false
  /\ Studio.style fox_typed <> []
  /\ ok image_response = true
  /\ Studio.image
       (fst (Studio.handleManifest
               (served_by hf_key (provider (Normal fenced_diagram) (Normal image_response)))
               fox_typed))
     = JStr (lit "data:image/jpeg;base64," ++ toString_base64 [xff; xd8; xff]%byte).
Proof.
  assert (Hst : Studio.style fox_typed <> []) by discriminate.
  split; [reflexivity|]. split; [reflexivity|]. split; [exact Hst|]. split; [reflexivity|].
  exact (proj1 (manifest_end_to_end
    (served_by hf_key (provider (Normal fenced_diagram) (Normal image_response)))
    hf_key (provider (Normal fenced_diagram) (Normal image_response)) fox_typed
    image_response [xff; xd8; xff]%byte eq_refl eq_refl eq_refl Hst eq_refl eq_refl eq_refl)).
Defined.

Lemma save_is_not_repeated_until_the_timer_witness :
  (ToBoolean (Studio.image fox_shown) = true \/ ToBoolean (Studio.mermaidCode fox_shown) = true)
  /\ Studio.isSaved fox_shown = false
  /\ Studio.blank (Studio.archivistName fox_shown) = false
  /\ Studio.addDoc (surroundings (fun _ => request_rejected) true) "visuals"
       (Studio.archive_data fox_shown) = true
  /\ Studio.handleSaveToCloud (surroundings (fun _ => request_rejected) true)
       (fst (Studio.handleSaveToCloud (surroundings (fun _ => request_rejected) true) fox_shown))
     = (fst (Studio.handleSaveToCloud (surroundings (fun _ => request_rejected) true) fox_shown), []).
Proof.
  split; [left; reflexivity|]. split; [reflexivity|]. split; [reflexivity|].
  split; [reflexivity|].
  exact (proj1 (proj2 (proj2 (proj2 (save_is_not_repeated_until_the_timer
    (surroundings (fun _ => request_rejected) true) (surroundings (fun _ => request_rejected) true)
    fox_shown (or_introl eq_refl) eq_refl eq_refl eq_refl))))).
Defined.

Lemma failed_save_can_be_retried_witness :
  (ToBoolean (Studio.image fox_shown) = true \/ ToBoolean (Studio.mermaidCode fox_shown) = true)
  /\ Studio.isSaved fox_shown = false
  /\ Studio.blank (Studio.archivistName fox_shown) = false
  /\ Studio.addDoc (surroundings (fun _ => request_rejected) false) "visuals"
       (Studio.archive_data fox_shown) = false
  /\ snd (Studio.handleSaveToCloud (surroundings (fun _ => request_rejected) false) fox_shown)
     = [Studio.AddDoc "visuals" (Studio.archive_data fox_shown);
        Studio.Alert (lit "Failed to archive manifestation.")].
Proof.
  split; [left; reflexivity|]. split; [reflexivity|]. split; [reflexivity|].
  split; [reflexivity|].
  exact (proj1 (failed_save_can_be_retried (surroundings (fun _ => request_rejected) false)
                  fox_shown (or_introl eq_refl) eq_refl eq_refl eq_refl)).
Defined.

Lemma delete_removes_the_item_witness :
  Studio.window_confirm (surroundings (fun _ => request_rejected) true)
    (lit "Are you sure you want to delete this visual?") = true
  /\ Studio.deleteDoc (surroundings (fun _ => request_rejected) true) "visuals" (lit "c") = true
  /\ map Client.id (Studio.historyItems fox_listed) = [lit "b"; lit "c"; lit "a"]
  /\ snd (Studio.handleDelete (surroundings (fun _ => request_rejected) true) (lit "c") fox_listed)
     = [Studio.Confirm (lit "Are you sure you want to delete this visual?");
        Studio.DeleteDoc "visuals" (lit "c")]
  /\ map Client.id
       (Studio.historyItems
          (fst (Studio.handleDelete (surroundings (fun _ => request_rejected) true) (lit "c")
                  fox_listed)))
     = [lit "b"; lit "a"].
Proof.
  split; [reflexivity|]. split; [reflexivity|]. split; [reflexivity|].
  split; [|reflexivity].
  exact (proj1 (delete_removes_the_item (surroundings (fun _ => request_rejected) true) fox_listed
                  (lit "c") eq_refl eq_refl)).
Defined.

